(** * DocuForge AI: the multi-agent orchestration core

    A shallow embedding of the Python modules under [backend/app/agents]
    (agent_states.py, agent_config.py, llm_router.py, document_planner.py,
    document_writer.py, document_reviewer.py, document_orchestrator.py),
    the properties of them that the design document states, and further
    properties read off the code.

    Conventions of the embedding:
    - a Python [str] is a [string] whose characters are the code points
      U+0000..U+00FF (Latin-1); [lower], [strip], [split] and the regular
      expression classes are the Python ones restricted to that range;
    - a Python [int] is a [Z];
    - a method that mutates [self] is a function from the object's state to
      its new state (with the returned value, when there is one);
    - a call that may raise returns a [Result]; [try]/[except Exception] is
      [try_except];
    - the time [datetime.utcnow()] returns is read from outside: it is an
      argument of the state manager's method, and a clock in the
      orchestrator's world;
    - an asynchronous generator is the list of the chunks it yields with
      the exception that ends it, if one does; coroutines run one after
      the other;
    - logging, tracing and the notifications sent over a web socket (which
      catch their own exceptions) change no result and are left out. *)

From Stdlib Require Import ZArith NArith List String Ascii Bool Lia QArith.
From Stdlib Require Import DecimalString.
From stdpp Require Import base option gmap strings.
Import ListNotations.

Local Open Scope string_scope.
Local Open Scope list_scope.
Local Open Scope Z_scope.

(** ** Exceptions *)

Module Py.

(** The outcome of a call: a value, or a raised [Exception] with its
    [str(e)]. *)
Inductive Result (A : Type) : Type :=
| Ok (a : A)
| Raise (e : string).
Arguments Ok {A} a.
Arguments Raise {A} e.

Definition bind {A B} (r : Result A) (k : A -> Result B) : Result B :=
  match r with
  | Ok a => k a
  | Raise e => Raise e
  end.

(** [try: body  except Exception as e: handler e] *)
Definition try_except {A} (body : Result A) (handler : string -> Result A)
  : Result A :=
  match body with
  | Ok a => Ok a
  | Raise e => handler e
  end.

(** Values a JSON-like dictionary may hold where the code takes [Any]. *)
Inductive PyVal : Type :=
| VStr (s : string)
| VInt (z : Z).

End Py.

(** ** Python string operations (code points below 256) *)

Module PyStr.

Definition code (c : ascii) : N := N_of_ascii c.

(** [str.isspace] on one character: TAB..CR, FS..US, SPACE, NEL, NBSP. *)
Definition isspace (c : ascii) : bool :=
  let n := code c in
  (((9 <=? n) && (n <=? 13)) || ((28 <=? n) && (n <=? 32))
   || (n =? 133) || (n =? 160))%N.

(** A decimal digit ([\d] below U+0100 is 0..9). *)
Definition isdigit (c : ascii) : bool :=
  let n := code c in ((48 <=? n) && (n <=? 57))%N.

Definition lower_char (c : ascii) : ascii :=
  let n := code c in
  if (((65 <=? n) && (n <=? 90))
      || ((192 <=? n) && (n <=? 222) && negb (n =? 215)))%N
  then ascii_of_N (n + 32)
  else c.

Fixpoint lower (s : string) : string :=
  match s with
  | EmptyString => EmptyString
  | String c s' => String (lower_char c) (lower s')
  end.

Fixpoint rev_append (s acc : string) : string :=
  match s with
  | EmptyString => acc
  | String c s' => rev_append s' (String c acc)
  end.

Definition rev (s : string) : string := rev_append s EmptyString.

Fixpoint lstrip (s : string) : string :=
  match s with
  | EmptyString => EmptyString
  | String c s' => if isspace c then lstrip s' else s
  end.

Definition rstrip (s : string) : string := rev (lstrip (rev s)).

Definition strip (s : string) : string := rstrip (lstrip s).

(** [s.split()]: the maximal runs of non-whitespace characters. [tok] is
    the run being read, reversed. *)
Fixpoint split_go (s : string) (tok : option string) : list string :=
  match s with
  | EmptyString =>
      match tok with
      | Some t => [rev t]
      | None => []
      end
  | String c s' =>
      if isspace c then
        match tok with
        | Some t => rev t :: split_go s' None
        | None => split_go s' None
        end
      else
        split_go s' (Some (String c (default EmptyString tok)))
  end.

Definition split (s : string) : list string := split_go s None.

Fixpoint startswith (p s : string) : bool :=
  match p, s with
  | EmptyString, _ => true
  | String _ _, EmptyString => false
  | String a p', String b s' => if Ascii.eqb a b then startswith p' s' else false
  end.

(** [sub in s] *)
Fixpoint contains (sub s : string) : bool :=
  startswith sub s
  || match s with
     | EmptyString => false
     | String _ s' => contains sub s'
     end.

(** [any(k in s for k in ks)] *)
Definition any_in (ks : list string) (s : string) : bool :=
  existsb (fun k => contains k s) ks.

Fixpoint find_from (sub s : string) (i : Z) : Z :=
  if startswith sub s then i
  else match s with
       | EmptyString => -1
       | String _ s' => find_from sub s' (i + 1)
       end.

(** [s.find(sub)]: the lowest index of [sub], or -1. *)
Definition find (sub s : string) : Z := find_from sub s 0.

Fixpoint rfind_from (sub s : string) (i : Z) : Z :=
  let later :=
    match s with
    | EmptyString => -1
    | String _ s' => rfind_from sub s' (i + 1)
    end in
  if later =? -1 then (if startswith sub s then i else -1) else later.

(** [s.rfind(sub)]: the highest index of [sub], or -1. *)
Definition rfind (sub s : string) : Z := rfind_from sub s 0.

Fixpoint drop (n : nat) (s : string) : string :=
  match n, s with
  | O, _ => s
  | S _, EmptyString => EmptyString
  | S n', String _ s' => drop n' s'
  end.

Fixpoint take (n : nat) (s : string) : string :=
  match n, s with
  | O, _ => EmptyString
  | S _, EmptyString => EmptyString
  | S n', String c s' => String c (take n' s')
  end.

(** A slice bound as Python normalises it: negative counts from the end,
    then clipped to [0, len]. *)
Definition norm_index (len i : Z) : Z :=
  if i <? 0 then Z.max 0 (i + len) else Z.min i len.

(** [s[start:stop]] *)
Definition slice (s : string) (start stop : Z) : string :=
  let len := Z.of_nat (String.length s) in
  let a := norm_index len start in
  let b := norm_index len stop in
  take (Z.to_nat (b - a)) (drop (Z.to_nat a) s).

(** [s.split(sep)] for a one-character separator: never empty. [tok] is
    the piece being read, reversed. *)
Fixpoint split_char_go (sep : ascii) (s tok : string) : list string :=
  match s with
  | EmptyString => [rev tok]
  | String c s' =>
      if Ascii.eqb c sep then rev tok :: split_char_go sep s' EmptyString
      else split_char_go sep s' (String c tok)
  end.

Definition split_char (sep : ascii) (s : string) : list string :=
  split_char_go sep s EmptyString.

(** [s.replace(old, new)] for a non-empty [old]: occurrences are found left
    to right and do not overlap. [skip] counts the characters of an
    occurrence still to be passed over. *)
Fixpoint replace_go (old new s : string) (skip : nat) : string :=
  match s with
  | EmptyString => EmptyString
  | String c s' =>
      match skip with
      | S k => replace_go old new s' k
      | O =>
          if startswith old s
          then new +:+ replace_go old new s' (String.length old - 1)
          else String c (replace_go old new s' O)
      end
  end.

Definition replace (old new s : string) : string := replace_go old new s O.

Definition is_empty (s : string) : bool :=
  match s with
  | EmptyString => true
  | String _ _ => false
  end.

(** [sep.join(xs)] *)
Fixpoint join (sep : string) (xs : list string) : string :=
  match xs with
  | [] => EmptyString
  | x :: rest =>
      match rest with
      | [] => x
      | _ :: _ => x +:+ sep +:+ join sep rest
      end
  end.

(** [s.split(sep)] for a separator of several characters: occurrences are
    found left to right and do not overlap. [tok] is the piece being
    read, reversed; [skip] counts the characters of an occurrence still
    to be passed over. *)
Fixpoint split_str_go (sep s tok : string) (skip : nat) : list string :=
  match s with
  | EmptyString => [rev tok]
  | String c s' =>
      match skip with
      | S k => split_str_go sep s' tok k
      | O =>
          if startswith sep s
          then rev tok :: split_str_go sep s' EmptyString (String.length sep - 1)
          else split_str_go sep s' (String c tok) O
      end
  end.

Definition split_str (sep s : string) : list string :=
  split_str_go sep s EmptyString O.

(** [s.split(sep, 1)] for a one-character separator: the text before the
    first separator and the text after it, or the text alone. *)
Fixpoint split_once_go (sep : ascii) (s tok : string) : list string :=
  match s with
  | EmptyString => [rev tok]
  | String c s' =>
      if Ascii.eqb c sep then [rev tok; s']
      else split_once_go sep s' (String c tok)
  end.

Definition split_once (sep : ascii) (s : string) : list string :=
  split_once_go sep s EmptyString.

(** [str(n)] for a natural number. *)
Definition str_nat (n : nat) : string :=
  NilZero.string_of_uint (Nat.to_uint n).

(** [c in cs] for a character and a text. *)
Fixpoint char_in (c : ascii) (cs : string) : bool :=
  match cs with
  | EmptyString => false
  | String d cs' => Ascii.eqb c d || char_in c cs'
  end.

(** [s.lstrip(cs)]: the leading characters that occur in [cs] removed. *)
Fixpoint lstrip_chars (cs s : string) : string :=
  match s with
  | EmptyString => EmptyString
  | String c s' => if char_in c cs then lstrip_chars cs s' else s
  end.

End PyStr.

(** ** agent_states.py *)

Module AgentStates.

(** [class AgentState(str, Enum)] *)
Inductive AgentState : Type :=
| IDLE
| ANALYZING
| PLANNING
| WRITING
| REVIEWING
| UPDATING_PREVIEW
| WAITING_FEEDBACK
| ERROR.

Definition AgentState_eqb (a b : AgentState) : bool :=
  match a, b with
  | IDLE, IDLE | ANALYZING, ANALYZING | PLANNING, PLANNING
  | WRITING, WRITING | REVIEWING, REVIEWING
  | UPDATING_PREVIEW, UPDATING_PREVIEW
  | WAITING_FEEDBACK, WAITING_FEEDBACK | ERROR, ERROR => true
  | _, _ => false
  end.

(** The enum member's [.value]. *)
Definition state_value (s : AgentState) : string :=
  match s with
  | IDLE => "idle"
  | ANALYZING => "analyzing"
  | PLANNING => "planning"
  | WRITING => "writing"
  | REVIEWING => "reviewing"
  | UPDATING_PREVIEW => "updating_preview"
  | WAITING_FEEDBACK => "waiting_feedback"
  | ERROR => "error"
  end.

(** [class AgentAction(str, Enum)] *)
Inductive AgentAction : Type :=
| ANALYZE_REQUEST
| CREATE_PLAN
| UPDATE_PLAN
| WRITE_CONTENT
| REVIEW_CONTENT
| UPDATE_PREVIEW
| REQUEST_FEEDBACK
| HANDLE_ERROR.

Definition AgentAction_eqb (a b : AgentAction) : bool :=
  match a, b with
  | ANALYZE_REQUEST, ANALYZE_REQUEST | CREATE_PLAN, CREATE_PLAN
  | UPDATE_PLAN, UPDATE_PLAN | WRITE_CONTENT, WRITE_CONTENT
  | REVIEW_CONTENT, REVIEW_CONTENT | UPDATE_PREVIEW, UPDATE_PREVIEW
  | REQUEST_FEEDBACK, REQUEST_FEEDBACK | HANDLE_ERROR, HANDLE_ERROR => true
  | _, _ => false
  end.

(** [x in xs] for a list of states. *)
Definition state_in (x : AgentState) (xs : list AgentState) : bool :=
  existsb (AgentState_eqb x) xs.

(** [@dataclass AgentMessage]; [metadata] is kept as text. *)
Record AgentMessage : Type := mkAgentMessage {
  msg_agent_type : string;
  message_type : string;
  content : string;
  metadata : list (string * string);
  msg_timestamp : string
}.

(** One dictionary appended to [state_history]. *)
Record Transition : Type := mkTransition {
  timestamp : string;
  from_state : option AgentState;
  to_state : string;
  agent : string;
  message : option string
}.

(** The attributes of an [AgentStateManager]. *)
Record AgentStateManager : Type := mkAgentStateManager {
  current_state : AgentState;
  previous_states : list AgentState;
  state_history : list Transition;
  current_agent : option string;
  message_queue : list AgentMessage
}.

(** [AgentStateManager.__init__] *)
Definition init : AgentStateManager :=
  {| current_state := IDLE;
     previous_states := [];
     state_history := [];
     current_agent := None;
     message_queue := [] |}.

(** [xs[-1] if xs else None] *)
Definition last_or_none {A} (xs : list A) : option A := last xs.

(** [transition_to(self, new_state, agent_type, message)]. The method has
    no [return] statement: the caller gets [None] ([tt]) on every path.
    [now] is [datetime.utcnow().isoformat()]. *)
Definition transition_to (self : AgentStateManager) (now : string)
    (new_state : AgentState) (agent_type : string) (message : option string)
  : unit * AgentStateManager :=
  if negb (AgentState_eqb (current_state self) new_state) then
    let previous_states' := previous_states self ++ [current_state self] in
    (tt,
     {| current_state := new_state;
        previous_states := previous_states';
        state_history :=
          state_history self ++
          [ {| timestamp := now;
               from_state := last_or_none previous_states';
               to_state := state_value new_state;
               agent := agent_type;
               message := message |} ];
        current_agent := Some agent_type;
        message_queue := message_queue self |})
  else (tt, self).

(** [add_message] *)
Definition add_message (self : AgentStateManager) (m : AgentMessage)
  : AgentStateManager :=
  {| current_state := current_state self;
     previous_states := previous_states self;
     state_history := state_history self;
     current_agent := current_agent self;
     message_queue := message_queue self ++ [m] |}.

(** [get_messages(clear)]: a copy of the queue, which is then emptied when
    [clear] is set. *)
Definition get_messages (self : AgentStateManager) (clear : bool)
  : list AgentMessage * AgentStateManager :=
  (message_queue self,
   if clear then
     {| current_state := current_state self;
        previous_states := previous_states self;
        state_history := state_history self;
        current_agent := current_agent self;
        message_queue := [] |}
   else self).

(** [is_busy] *)
Definition is_busy (self : AgentStateManager) : bool :=
  negb (state_in (current_state self) [IDLE; WAITING_FEEDBACK]).

(** The dictionary literal [allowed_transitions] of [can_transition_to],
    read at one key. Every state is a key of it. *)
Definition allowed_transitions (s : AgentState) : list AgentState :=
  match s with
  | IDLE => [ANALYZING]
  | ANALYZING => [PLANNING; WRITING; ERROR]
  | PLANNING => [WRITING; ERROR]
  | WRITING => [REVIEWING; UPDATING_PREVIEW; ERROR]
  | REVIEWING => [WRITING; UPDATING_PREVIEW; WAITING_FEEDBACK; ERROR]
  | UPDATING_PREVIEW => [IDLE; WAITING_FEEDBACK]
  | WAITING_FEEDBACK => [ANALYZING; IDLE]
  | ERROR => [IDLE; ANALYZING]
  end.

(** [can_transition_to(self, new_state)]: a query; [self] is only read. *)
Definition can_transition_to (self : AgentStateManager) (new_state : AgentState)
  : bool :=
  state_in new_state (allowed_transitions (current_state self)).

(** The attributes of a [PreviewUpdateDecision]. *)
Record PreviewUpdateDecision : Type := mkPreviewUpdateDecision {
  last_update_time : option string;
  min_update_interval : Z;
  force_update_triggers : list AgentState
}.

(** [PreviewUpdateDecision.__init__] *)
Definition preview_init : PreviewUpdateDecision :=
  {| last_update_time := None;
     min_update_interval := 30;
     force_update_triggers := [IDLE; WAITING_FEEDBACK] |}.

(** [should_update_preview(self, current_state, last_action,
    time_since_last_update, content_changes, user_requested)] *)
Definition should_update_preview (self : PreviewUpdateDecision)
    (current_state : AgentState) (last_action : AgentAction)
    (time_since_last_update content_changes : Z) (user_requested : bool)
  : bool :=
  if user_requested then true
  else if state_in current_state (force_update_triggers self) then true
  else if (content_changes >? 100)
          && (time_since_last_update >=? min_update_interval self) then true
  else if AgentAction_eqb last_action WRITE_CONTENT
          && (time_since_last_update >=? min_update_interval self) then true
  else if AgentAction_eqb last_action REVIEW_CONTENT then true
  else false.

(** The call with [user_requested] left at its default, [False]. *)
Definition should_update_preview_default (self : PreviewUpdateDecision)
    (current_state : AgentState) (last_action : AgentAction)
    (time_since_last_update content_changes : Z) : bool :=
  should_update_preview self current_state last_action
    time_since_last_update content_changes false.

(** [record_update] *)
Definition record_update (self : PreviewUpdateDecision) (now : string)
  : PreviewUpdateDecision :=
  {| last_update_time := Some now;
     min_update_interval := min_update_interval self;
     force_update_triggers := force_update_triggers self |}.

(** The dictionary [get_state_info] returns. *)
Record StateInfo : Type := mkStateInfo {
  info_current_state : string;
  info_current_agent : option string;
  info_is_busy : bool;
  message_count : nat;
  last_transition : option Transition
}.

(** [get_state_info] *)
Definition get_state_info (self : AgentStateManager) : StateInfo :=
  {| info_current_state := state_value (current_state self);
     info_current_agent := current_agent self;
     info_is_busy := is_busy self;
     message_count := length (message_queue self);
     last_transition := last_or_none (state_history self) |}.

End AgentStates.

(** ** agent_config.py *)

Module AgentConfigs.
Import Py.

(** [class AgentType(str, Enum)], in declaration order. *)
Inductive AgentType : Type :=
| ORCHESTRATOR
| PLANNER
| WRITER
| REVIEWER.

Definition all_agent_types : list AgentType :=
  [ORCHESTRATOR; PLANNER; WRITER; REVIEWER].

Definition agent_type_value (a : AgentType) : string :=
  match a with
  | ORCHESTRATOR => "orchestrator"
  | PLANNER => "planner"
  | WRITER => "writer"
  | REVIEWER => "reviewer"
  end.

(** [class LLMProvider(str, Enum)], in declaration order. *)
Inductive LLMProvider : Type :=
| OPENAI
| CLAUDE
| GOOGLE
| MOCK.

Definition all_providers : list LLMProvider := [OPENAI; CLAUDE; GOOGLE; MOCK].

Definition provider_value (p : LLMProvider) : string :=
  match p with
  | OPENAI => "openai"
  | CLAUDE => "claude"
  | GOOGLE => "google"
  | MOCK => "mock"
  end.

(** [@dataclass AgentConfig], its fields at their annotated types. *)
Record AgentConfig : Type := mkAgentConfig {
  orchestrator_llm : string;
  orchestrator_model : string;
  planner_llm : string;
  planner_model : string;
  writer_llm : string;
  writer_model : string;
  reviewer_llm : string;
  reviewer_model : string;
  fallback_llm : string;
  fallback_model : string;
  max_retries : Z;
  timeout_seconds : Z
}.

(** [AgentConfig()]: every field at its default. *)
Definition default_AgentConfig : AgentConfig :=
  {| orchestrator_llm := "google"; orchestrator_model := "gemini-2.5-pro";
     planner_llm := "google"; planner_model := "gemini-2.5-pro";
     writer_llm := "google"; writer_model := "gemini-2.5-pro";
     reviewer_llm := "google"; reviewer_model := "gemini-2.5-pro";
     fallback_llm := "mock"; fallback_model := "mock";
     max_retries := 3; timeout_seconds := 30 |}.

(** [get_llm_for_agent(self, agent_type)]. The argument is [Some a] for a
    member of [AgentType] and [None] for any other key, for which
    [mapping.get] gives its default. *)
Definition get_llm_for_agent (self : AgentConfig) (agent_type : option AgentType)
  : string * string :=
  match agent_type with
  | Some ORCHESTRATOR => (orchestrator_llm self, orchestrator_model self)
  | Some PLANNER => (planner_llm self, planner_model self)
  | Some WRITER => (writer_llm self, writer_model self)
  | Some REVIEWER => (reviewer_llm self, reviewer_model self)
  | None => (fallback_llm self, fallback_model self)
  end.

(** [to_dict] *)
Definition to_dict (self : AgentConfig) : gmap string PyVal :=
  list_to_map
    [ ("orchestrator_llm", VStr (orchestrator_llm self));
      ("orchestrator_model", VStr (orchestrator_model self));
      ("planner_llm", VStr (planner_llm self));
      ("planner_model", VStr (planner_model self));
      ("writer_llm", VStr (writer_llm self));
      ("writer_model", VStr (writer_model self));
      ("reviewer_llm", VStr (reviewer_llm self));
      ("reviewer_model", VStr (reviewer_model self));
      ("fallback_llm", VStr (fallback_llm self));
      ("fallback_model", VStr (fallback_model self));
      ("max_retries", VInt (max_retries self));
      ("timeout_seconds", VInt (timeout_seconds self)) ].

Definition field_names : list string :=
  [ "orchestrator_llm"; "orchestrator_model"; "planner_llm"; "planner_model";
    "writer_llm"; "writer_model"; "reviewer_llm"; "reviewer_model";
    "fallback_llm"; "fallback_model"; "max_retries"; "timeout_seconds" ].

(** A keyword argument for a [str] field, or the field's default. The
    dataclass stores any value unchecked; the record here is typed as the
    class annotates it, so a value of another type has no image and is
    reported as an error: the embedding covers well-typed dictionaries. *)
Definition str_field (data : gmap string PyVal) (k dflt : string)
  : Result string :=
  match data !! k with
  | None => Ok dflt
  | Some (VStr s) => Ok s
  | Some (VInt _) => Raise ("ill-typed value for " +:+ k)
  end.

Definition int_field (data : gmap string PyVal) (k : string) (dflt : Z)
  : Result Z :=
  match data !! k with
  | None => Ok dflt
  | Some (VInt z) => Ok z
  | Some (VStr _) => Raise ("ill-typed value for " +:+ k)
  end.

(** [from_dict(data)] calls the constructor with the items of [data] as
    keyword arguments: a key that is not a field raises
    [TypeError]; a field that is not a key takes its default. *)
Definition from_dict (data : gmap string PyVal) : Result AgentConfig :=
  if forallb (fun k => bool_decide (k ∈ field_names)) (map fst (map_to_list data))
  then
    let d := default_AgentConfig in
    bind (str_field data "orchestrator_llm" (orchestrator_llm d)) (fun ol =>
    bind (str_field data "orchestrator_model" (orchestrator_model d)) (fun om =>
    bind (str_field data "planner_llm" (planner_llm d)) (fun pl =>
    bind (str_field data "planner_model" (planner_model d)) (fun pm =>
    bind (str_field data "writer_llm" (writer_llm d)) (fun wl =>
    bind (str_field data "writer_model" (writer_model d)) (fun wm =>
    bind (str_field data "reviewer_llm" (reviewer_llm d)) (fun rl =>
    bind (str_field data "reviewer_model" (reviewer_model d)) (fun rm =>
    bind (str_field data "fallback_llm" (fallback_llm d)) (fun fl =>
    bind (str_field data "fallback_model" (fallback_model d)) (fun fm =>
    bind (int_field data "max_retries" (max_retries d)) (fun mr =>
    bind (int_field data "timeout_seconds" (timeout_seconds d)) (fun ts =>
    Ok {| orchestrator_llm := ol; orchestrator_model := om;
          planner_llm := pl; planner_model := pm;
          writer_llm := wl; writer_model := wm;
          reviewer_llm := rl; reviewer_model := rm;
          fallback_llm := fl; fallback_model := fm;
          max_retries := mr; timeout_seconds := ts |}))))))))))))
  else Raise "TypeError: __init__() got an unexpected keyword argument".

(** The attributes of an [AgentConfigManager]. *)
Record AgentConfigManager : Type := mkAgentConfigManager {
  default_config : AgentConfig;
  _document_configs : gmap Z AgentConfig
}.

(** [AgentConfigManager.__init__] *)
Definition init : AgentConfigManager :=
  {| default_config := default_AgentConfig; _document_configs := ∅ |}.

(** The truth value of an [Optional[int]]: [None] and [0] are false. *)
Definition truthy (document_id : option Z) : bool :=
  match document_id with
  | None => false
  | Some z => negb (z =? 0)
  end.

(** [get_config(self, document_id)] *)
Definition get_config (self : AgentConfigManager) (document_id : option Z)
  : AgentConfig :=
  match document_id with
  | Some z =>
      if truthy document_id then
        match _document_configs self !! z with
        | Some c => c
        | None => default_config self
        end
      else default_config self
  | None => default_config self
  end.

(** [set_config(self, config, document_id)] *)
Definition set_config (self : AgentConfigManager) (config : AgentConfig)
    (document_id : option Z) : AgentConfigManager :=
  match document_id with
  | Some z =>
      if truthy document_id then
        {| default_config := default_config self;
           _document_configs := <[z := config]> (_document_configs self) |}
      else
        {| default_config := config;
           _document_configs := _document_configs self |}
  | None =>
      {| default_config := config;
         _document_configs := _document_configs self |}
  end.

(** [update_config(self, updates, document_id)]. [config_dict.update(updates)]
    lets the keys of [updates] win. When [from_dict] raises, the exception
    leaves the method before [set_config] runs. *)
Definition update_config (self : AgentConfigManager)
    (updates : gmap string PyVal) (document_id : option Z)
  : Result AgentConfigManager :=
  let current_config := get_config self document_id in
  let config_dict := updates ∪ to_dict current_config in
  bind (from_dict config_dict) (fun new_config =>
  Ok (set_config self new_config document_id)).

(** [valid_providers = [provider.value for provider in LLMProvider]] *)
Definition valid_providers : list string := map provider_value all_providers.

Definition str_in (x : string) (xs : list string) : bool :=
  existsb (String.eqb x) xs.

(** The loop [for agent_type in AgentType] of [validate_config]: the first
    agent whose provider is not a valid one ends it with an error. *)
Fixpoint check_providers (config : AgentConfig) (agents : list AgentType)
  : option (bool * option string) :=
  match agents with
  | [] => None
  | a :: rest =>
      let '(provider, model) := get_llm_for_agent config (Some a) in
      if negb (str_in provider valid_providers) then
        Some (false,
              Some ("Invalid provider '" +:+ provider +:+ "' for "
                    +:+ agent_type_value a))
      else check_providers config rest
  end.

(** [validate_config(self, config)]: [self] is not used. *)
Definition validate_config (self : AgentConfigManager) (config : AgentConfig)
  : bool * option string :=
  match check_providers config all_agent_types with
  | Some r => r
  | None =>
      if max_retries config <? 1 then
        (false, Some "max_retries must be at least 1")
      else if timeout_seconds config <? 5 then
        (false, Some "timeout_seconds must be at least 5")
      else (true, None)
  end.

End AgentConfigs.

(** ** llm_router.py *)

Module LLMRouters.
Import Py AgentConfigs.

(** A chat message, [Dict[str, str]]. *)
Abbreviation Message := (gmap string string).

(** The keyword arguments of a call. *)
Abbreviation Kwargs := (gmap string PyVal).

(** [class LLMAdapter(ABC)]: what [await adapter.generate(messages, model,
    **kwargs)] comes to, a text or a raised exception. *)
Record LLMAdapter : Type := mkLLMAdapter {
  generate : list Message -> string -> Kwargs -> Result string
}.

(** [messages[-1]["content"]]: [IndexError] on an empty list, [KeyError]
    on a message without the key. *)
Definition last_content (messages : list Message) : Result string :=
  match last messages with
  | None => Raise "IndexError: list index out of range"
  | Some m =>
      match m !! "content" with
      | Some c => Ok c
      | None => Raise "KeyError: 'content'"
      end
  end.

(** [MockAdapter.generate] *)
Definition MockAdapter_generate (messages : list Message) (model : string)
    (kwargs : Kwargs) : Result string :=
  bind (match messages with
        | [] => Ok "Hello"
        | _ :: _ => last_content messages
        end) (fun last_message =>
  Ok ("Mock response to: " +:+ PyStr.slice last_message 0 50 +:+ "...")).

Definition MockAdapter : LLMAdapter := {| generate := MockAdapter_generate |}.

(** The attributes of an [LLMRouter]. *)
Record LLMRouter : Type := mkLLMRouter {
  config : AgentConfig;
  adapters : gmap string LLMAdapter
}.

(** [LLMRouter.__init__] with [_initialize_adapters]: each cloud adapter is
    there when its constructor did not raise [ValueError] (its credentials
    are configured); the mock adapter is always there. *)
Definition init (config : AgentConfig) (openai claude google : option LLMAdapter)
  : LLMRouter :=
  let with_adapter (k : string) (a : option LLMAdapter)
      (m : gmap string LLMAdapter) :=
    match a with
    | Some x => <[k := x]> m
    | None => m
    end in
  {| config := config;
     adapters :=
       <["mock" := MockAdapter]>
         (with_adapter "google" google
            (with_adapter "claude" claude
               (with_adapter "openai" openai ∅))) |}.

(** The placeholder answer of the mock fallback. *)
Definition fallback_placeholder (last_user_message : string) : string :=
  "I apologize, but I'm currently experiencing issues connecting to the AI service. "
  +:+ "Your request '" +:+ last_user_message
  +:+ "' has been received, but I cannot generate the full content right now. "
  +:+ "Please try again in a few moments. The system will continue to save any generated content.".

(** [error_msg], the final answer when no provider gave one. *)
Definition error_msg : string :=
  "I apologize, but I'm currently unable to process your request due to AI service issues. Please try again later.".

(** A [try] block that ends in [return result], with an [except Exception]
    that only logs: [Some result] when the block returned, [None] when
    control goes on below the statement. *)
Definition returned {A} (block : Result A) : option A :=
  match block with
  | Ok a => Some a
  | Raise _ => None
  end.

(** [if 'timeout' not in kwargs: kwargs['timeout'] = self.config.timeout_seconds] *)
Definition with_timeout (self : LLMRouter) (kwargs : Kwargs) : Kwargs :=
  match kwargs !! "timeout" with
  | None => <["timeout" := VInt (timeout_seconds (config self))]> kwargs
  | Some _ => kwargs
  end.

(** [route_request(self, agent_type, messages, **kwargs)] *)
Definition route_request (self : LLMRouter) (agent_type : option AgentType)
    (messages : list Message) (kwargs : Kwargs) : Result string :=
  let '(provider, model) := get_llm_for_agent (config self) agent_type in
  let kwargs := with_timeout self kwargs in
  let primary :=
    match adapters self !! provider with
    | Some adapter => returned (generate adapter messages model kwargs)
    | None => None
    end in
  match primary with
  | Some result => Ok result
  | None =>
      let fallback_provider := fallback_llm (config self) in
      let fallback :=
        match adapters self !! fallback_provider with
        | Some adapter =>
            returned
              (if String.eqb fallback_provider "mock" then
                 bind (match messages with
                       | [] => Ok "unknown request"
                       | _ :: _ => last_content messages
                       end) (fun last_user_message =>
                 Ok (fallback_placeholder last_user_message))
               else
                 generate adapter messages (fallback_model (config self)) kwargs)
        | None => None
        end in
      match fallback with
      | Some result => Ok result
      | None => Ok error_msg
      end
  end.

(** *** The prompt of the Vertex AI adapter *)

(** The body of the loop of [_convert_messages_to_vertex_format]: a
    message with another role adds nothing. *)
Definition vertex_part (prompt_parts : list string) (msg : Message)
  : list string :=
  let role := default "user" (msg !! "role") in
  let content := default "" (msg !! "content") in
  if String.eqb role "system" then prompt_parts ++ ["Context: " +:+ content]
  else if String.eqb role "user" then prompt_parts ++ ["User: " +:+ content]
  else if String.eqb role "assistant" then
    prompt_parts ++ ["Assistant: " +:+ content]
  else prompt_parts.

Definition blank_line : string :=
  String "010"%char (String "010"%char EmptyString).

(** [_convert_messages_to_vertex_format(self, messages)] *)
Definition _convert_messages_to_vertex_format (messages : list Message)
  : string :=
  let prompt_parts := fold_left vertex_part messages [] in
  let full_prompt := PyStr.join blank_line prompt_parts in
  if negb (existsb (fun part => PyStr.contains "User:" part) prompt_parts) then
    full_prompt +:+ blank_line +:+ "User: Please provide a helpful response."
  else full_prompt.

(** *** Streaming *)

(** An asynchronous generator run to its end: the chunks it yielded, in
    order, and the exception that ended it, if one did. *)
Record Stream : Type := mkStream {
  chunks : list string;
  ended_by : option string
}.

(** The chunks [word + " "] for the words of a response. *)
Definition word_chunks (response : string) : list string :=
  map (fun word => word +:+ " ") (PyStr.split response).

(** [MockAdapter.stream_generate]: [generate] is awaited before the first
    chunk. *)
Definition MockAdapter_stream_generate (messages : list Message)
    (model : string) (kwargs : Kwargs) : Stream :=
  match MockAdapter_generate messages model kwargs with
  | Ok response => {| chunks := word_chunks response; ended_by := None |}
  | Raise e => {| chunks := []; ended_by := Some e |}
  end.

(** The router as [stream_route_request] uses it: its configuration, and
    for each key of [self.adapters] the adapter's [stream_generate]. *)
Record StreamingRouter : Type := mkStreamingRouter {
  streaming_config : AgentConfig;
  stream_generate : gmap string (list Message -> string -> Kwargs -> Stream)
}.

(** What two generators run one after the other yield. *)
Definition then_stream (first second : Stream) : Stream :=
  {| chunks := chunks first ++ chunks second; ended_by := ended_by second |}.

(** [stream_route_request(self, agent_type, messages, **kwargs)]. A primary
    stream that ends normally is followed by [return]; one that raises is
    logged and followed by the fallback, whose exception nothing catches. *)
Definition stream_route_request (self : StreamingRouter)
    (agent_type : option AgentType) (messages : list Message)
    (kwargs : Kwargs) : Stream :=
  let '(provider, model) := get_llm_for_agent (streaming_config self) agent_type in
  let kwargs :=
    match kwargs !! "timeout" with
    | None => <["timeout" := VInt (timeout_seconds (streaming_config self))]> kwargs
    | Some _ => kwargs
    end in
  let fallback_provider := fallback_llm (streaming_config self) in
  let fallback :=
    match stream_generate self !! fallback_provider with
    | Some stream =>
        stream messages (fallback_model (streaming_config self)) kwargs
    | None =>
        {| chunks := ["Error: No available LLM providers"]; ended_by := None |}
    end in
  match stream_generate self !! provider with
  | Some stream =>
      let primary := stream messages model kwargs in
      match ended_by primary with
      | None => primary
      | Some e => then_stream primary fallback
      end
  | None => fallback
  end.

(** The loop [async for chunk in stream: content += chunk], from the empty
    text: the text read, unless the stream raised. *)
Definition read_all (stream : Stream) : Result string :=
  match ended_by stream with
  | None => Ok (fold_left (fun content chunk => content +:+ chunk) (chunks stream) "")
  | Some e => Raise e
  end.

End LLMRouters.

(** ** document_planner.py *)

Module DocumentPlanners.
Import Py.

(** One dictionary of a plan's [sections] list. *)
Record PlanSection : Type := mkPlanSection {
  title : string;
  description : string;
  estimated_words : Z;
  priority : string
}.

(** A plan dictionary built by the planner itself. *)
Record PlanDict : Type := mkPlanDict {
  document_type : string;
  plan_title : string;
  sections : list PlanSection;
  estimated_time : Z
}.

(** [_create_basic_plan_structure] *)
Definition _create_basic_plan_structure : PlanDict :=
  {| document_type := "document";
     plan_title := "Document";
     sections :=
       [ {| title := "Introduction";
            description := "Document introduction";
            estimated_words := 150;
            priority := "high" |};
         {| title := "Main Content";
            description := "Main document content";
            estimated_words := 500;
            priority := "high" |};
         {| title := "Conclusion";
            description := "Document conclusion";
            estimated_words := 100;
            priority := "medium" |} ];
     estimated_time := 900 |}.

(** The body of the loop of [_extract_plan_from_text], on the pair of the
    title and the sections read so far. *)
Definition extract_line (st : string * list PlanSection) (line : string)
  : string * list PlanSection :=
  let '(title, sections) := st in
  let line := PyStr.strip line in
  if PyStr.startswith "Title:" line || PyStr.startswith "# " line then
    (PyStr.strip (PyStr.replace "# " "" (PyStr.replace "Title:" "" line)),
     sections)
  else if PyStr.startswith "- " line || PyStr.startswith "* " line then
    (title,
     sections ++
     [ {| title := PyStr.strip (PyStr.replace "* " "" (PyStr.replace "- " "" line));
          description := "";
          estimated_words := 200;
          priority := "medium" |} ])
  else st.

(** [_extract_plan_from_text(text)] *)
Definition _extract_plan_from_text (text : string) : PlanDict :=
  let lines := PyStr.split_char "010"%char text in
  let '(title, sections) := fold_left extract_line lines ("Document", []) in
  {| document_type := "document";
     plan_title := title;
     sections := sections;
     estimated_time := Z.of_nat (length sections) * 300 |}.

Section Parsing.

(** What [json.loads] returns, and [json.loads] itself: the parsed value,
    or [JSONDecodeError]. *)
Variable Json : Type.
Variable json_loads : string -> Result Json.

(** What [_parse_plan_response] returns: a value parsed from the response,
    or a dictionary of the planner's own. *)
Inductive PlanData : Type :=
| Parsed (j : Json)
| Built (d : PlanDict).

(** [_parse_plan_response(self, response)] *)
Definition _parse_plan_response (response : string) : Result PlanData :=
  try_except
    (if PyStr.startswith "{" (PyStr.strip response) then
       bind (json_loads response) (fun j => Ok (Parsed j))
     else
       let start := PyStr.find "{" response in
       let end_ := PyStr.rfind "}" response + 1 in
       if negb (start =? -1) && negb (end_ =? -1) then
         let json_str := PyStr.slice response start end_ in
         bind (json_loads json_str) (fun j => Ok (Parsed j))
       else
         Ok (Built (_extract_plan_from_text response)))
    (fun e => Ok (Built _create_basic_plan_structure)).

End Parsing.

Arguments Parsed {Json} j.
Arguments Built {Json} d.

End DocumentPlanners.

(** ** document_writer.py *)

Module DocumentWriters.
Import Py AgentConfigs LLMRouters.

(** A section dictionary of a plan, by the one key the writer's control
    depends on; [title] may be missing. *)
Record SectionDict : Type := mkSectionDict {
  section_title : option string
}.

(** [@dataclass DocumentPlan] of agent_states.py, without its two dates. *)
Record DocumentPlan : Type := mkDocumentPlan {
  document_type : string;
  title : string;
  sections : list SectionDict;
  estimated_time : Z;
  current_step : Z;
  total_steps : Z
}.

Definition set_current_step (plan : DocumentPlan) (step : Z) : DocumentPlan :=
  {| document_type := document_type plan;
     title := title plan;
     sections := sections plan;
     estimated_time := estimated_time plan;
     current_step := step;
     total_steps := total_steps plan |}.

Definition newline : string := String "010"%char EmptyString.

(** [_format_section_content(self, section, content)] *)
Definition _format_section_content (section : SectionDict) (content : string)
  : string :=
  let section_title := default "Section" (section_title section) in
  let formatted_content := newline +:+ "## " +:+ section_title +:+ newline +:+ newline in
  let formatted_content := formatted_content +:+ PyStr.strip content in
  let formatted_content := formatted_content +:+ newline +:+ newline in
  formatted_content.

(** The dictionary [_write_from_plan] and [_write_from_request] return. *)
Record Written : Type := mkWritten {
  content : string;
  words_written : nat;
  changes_made : nat;
  sections_completed : option nat
}.

(** One section of structured content. *)
Record StructuredSection : Type := mkStructuredSection {
  id : string;
  structured_title : string;
  structured_content : string;
  order : nat
}.

(** The dictionary of structured content; of its metadata, the time and
    the plan's identity are left out. *)
Record StructuredContent : Type := mkStructuredContent {
  structured_type : string;
  document_title : string;
  structured_sections : list StructuredSection;
  total_sections : nat
}.

(** The body of the loop of [_structure_content_with_plan], on the index
    and the sections made so far; [lines[1]] is there when the part has a
    line break. *)
Definition structure_part (st : nat * list StructuredSection) (part : string)
  : nat * list StructuredSection :=
  let '(i, sections) := st in
  (S i,
   if (i =? 0)%nat then
     if negb (PyStr.is_empty (PyStr.strip part)) then
       sections ++
       [ {| id := "section_" +:+ PyStr.str_nat i;
            structured_title := "Introduction";
            structured_content := PyStr.strip part;
            order := i |} ]
     else sections
   else
     let lines := PyStr.split_once "010"%char (PyStr.strip part) in
     let title := PyStr.strip (hd EmptyString lines) in
     let section_content :=
       match lines with
       | _ :: second :: _ => PyStr.strip second
       | _ => EmptyString
       end in
     sections ++
     [ {| id := "section_" +:+ PyStr.str_nat i;
          structured_title := title;
          structured_content := section_content;
          order := i |} ]).

(** [_structure_content_with_plan(self, content, plan)] *)
Definition _structure_content_with_plan (content : string) (plan : DocumentPlan)
  : StructuredContent :=
  let content_parts := PyStr.split_str (newline +:+ "##") content in
  let '(_, sections) := fold_left structure_part content_parts (0%nat, []) in
  {| structured_type := document_type plan;
     document_title := title plan;
     structured_sections := sections;
     total_sections := length sections |}.

(** [_structure_content_simple(self, content)] *)
Definition _structure_content_simple (content : string) : StructuredContent :=
  {| structured_type := "document";
     document_title := "Generated Document";
     structured_sections :=
       [ {| id := "section_0";
            structured_title := "Content";
            structured_content := content;
            order := 0 |} ];
     total_sections := 1 |}.

(** [_structure_content(self, content, plan)]: a plan with sections is
    true; neither function raises, so that the [except] branch is not
    there. *)
Definition _structure_content (content : string) (plan : option DocumentPlan)
  : StructuredContent :=
  match plan with
  | Some p =>
      match sections p with
      | _ :: _ => _structure_content_with_plan content p
      | [] => _structure_content_simple content
      end
  | None => _structure_content_simple content
  end.

(** [_calculate_word_count(self, structured_content)]: an empty content
    is skipped. *)
Definition _calculate_word_count (structured : StructuredContent) : nat :=
  fold_left
    (fun total_words section =>
       if negb (PyStr.is_empty (structured_content section))
       then (total_words + length (PyStr.split (structured_content section)))%nat
       else total_words)
    (structured_sections structured) 0%nat.

Section Writer.

(** The writer's router; whether it has a document service; and the
    prompts, texts built from the context, the section and the plan. *)
Variable llm_router : StreamingRouter.
Variable has_document_service : bool.
Variable section_prompt : string -> DocumentPlan -> list Message.
Variable direct_prompt : list Message.

(** [_build_section_writing_prompt(self, context, section, plan)] reads
    [section['title']]: [KeyError] when the key is missing. *)
Definition _build_section_writing_prompt (section : SectionDict)
    (plan : DocumentPlan) : Result (list Message) :=
  match section_title section with
  | Some t => Ok (section_prompt t plan)
  | None => Raise "KeyError: 'title'"
  end.

(** [_write_section(self, context, section, plan)]; the updates sent over
    the web socket catch their own exceptions and change no result. *)
Definition _write_section (section : SectionDict) (plan : DocumentPlan)
  : Result string :=
  bind (_build_section_writing_prompt section plan) (fun section_prompt =>
  bind (read_all (stream_route_request llm_router (Some WRITER) section_prompt ∅))
    (fun section_content =>
  let formatted_content := _format_section_content section section_content in
  Ok formatted_content)).

(** The state of the loop of [_write_from_plan]: [total_content],
    [total_words], [sections_completed], and the plan, whose
    [current_step] the loop assigns. *)
Record Progress : Type := mkProgress {
  total_content : string;
  total_words : nat;
  completed : nat;
  plan_now : DocumentPlan
}.

(** The loop [for i, section in enumerate(plan.sections)], from index [i]:
    its final state, or the exception that left it, and the plan as the
    loop left it. *)
Fixpoint write_sections (i : Z) (sections : list SectionDict) (st : Progress)
  : Result Progress * DocumentPlan :=
  match sections with
  | [] => (Ok st, plan_now st)
  | section :: rest =>
      if i <? current_step (plan_now st) then write_sections (i + 1) rest st
      else
        match _write_section section (plan_now st) with
        | Ok section_content =>
            write_sections (i + 1) rest
              {| total_content := total_content st +:+ section_content;
                 total_words :=
                   (total_words st + length (PyStr.split section_content))%nat;
                 completed := (completed st + 1)%nat;
                 plan_now := set_current_step (plan_now st) (i + 1) |}
        | Raise e => (Raise e, plan_now st)
        end
  end.

(** [_write_from_plan(self, context, plan)]: the result, and the plan as
    the call left it. *)
Definition _write_from_plan (plan : DocumentPlan)
  : Result Written * DocumentPlan :=
  let '(final, plan) :=
    write_sections 0 (sections plan)
      {| total_content := ""; total_words := 0; completed := 0;
         plan_now := plan |} in
  (bind final (fun st =>
   Ok {| content := total_content st;
         words_written := total_words st;
         changes_made := completed st;
         sections_completed := Some (completed st) |}),
   plan).

(** [_write_from_request(self, context)] *)
Definition _write_from_request : Result Written :=
  let writing_prompt := direct_prompt in
  bind (read_all (stream_route_request llm_router (Some WRITER) writing_prompt ∅))
    (fun content =>
  let word_count := length (PyStr.split content) in
  Ok {| content := content;
        words_written := word_count;
        changes_made := 1;
        sections_completed := None |}).

(** The dictionary [write_content] returns. [error] is the exception as
    this development names it (its class, then its message), where the
    code has [str(e)], the message alone. *)
Record WriteResult : Type := mkWriteResult {
  success : bool;
  error : option string;
  result_content : string;
  result_words_written : nat;
  result_changes_made : nat;
  result_sections_completed : option nat;
  document_updated : bool
}.

(** [write_content(self, context, plan)], with the plan as it is left.
    Saving the content and the notifications catch their own exceptions
    and change no result. A plan that is given is true. *)
Definition write_content (document_id : option Z) (plan : option DocumentPlan)
  : WriteResult * option DocumentPlan :=
  let failed (e : string) :=
    {| success := false;
       error := Some e;
       result_content := "";
       result_words_written := 0;
       result_changes_made := 0;
       result_sections_completed := None;
       document_updated := false |} in
  let succeeded (result : Written) :=
    {| success := true;
       error := None;
       result_content := content result;
       result_words_written := words_written result;
       result_changes_made := changes_made result;
       result_sections_completed :=
         Some (default 0%nat (sections_completed result));
       document_updated :=
         has_document_service
         && match document_id with
            | Some _ => true
            | None => false
            end |} in
  match plan with
  | Some p =>
      match _write_from_plan p with
      | (Ok result, p') => (succeeded result, Some p')
      | (Raise e, p') => (failed e, Some p')
      end
  | None =>
      match _write_from_request with
      | Ok result => (succeeded result, None)
      | Raise e => (failed e, None)
      end
  end.

End Writer.

End DocumentWriters.

(** ** document_reviewer.py *)

Module DocumentReviewers.
Import Py.

(** The regular expressions of [_extract_score] use literals, character
    classes, greedy repetition of a class, an optional non-capturing group
    and one capturing group. *)
Inductive regex : Type :=
| Lit (s : string)
| Star (cls : ascii -> bool)
| Plus (cls : ascii -> bool)
| Opt (r : regex)
| Group (r : regex)
| Seq (r1 r2 : regex).

(** The state of a match attempt: the text still to read, the characters
    of the capturing group while it is open (latest first), and the
    group's text once it has closed. *)
Record mstate : Type := mkMstate {
  rest : string;
  open_group : option string;
  group1 : option string
}.

Definition start_at (s : string) : mstate :=
  {| rest := s; open_group := None; group1 := None |}.

Definition push (c : ascii) (og : option string) : option string :=
  option_map (String c) og.

(** Read the literal [l]. *)
Fixpoint lit_match (l s : string) (og : option string)
  : option (string * option string) :=
  match l with
  | EmptyString => Some (s, og)
  | String a l' =>
      match s with
      | EmptyString => None
      | String b s' => if Ascii.eqb a b then lit_match l' s' (push b og) else None
      end
  end.

Section Matcher.

Variable R : Type.

(** [cls*], greedy: read as many characters of the class as there are and
    go on; when what follows fails, give the last one back and retry. *)
Fixpoint star_match (cls : ascii -> bool) (s : string) (og g1 : option string)
    (k : mstate -> option R) : option R :=
  match s with
  | EmptyString => k (mkMstate s og g1)
  | String c s' =>
      if cls c then
        match star_match cls s' (push c og) g1 k with
        | Some x => Some x
        | None => k (mkMstate s og g1)
        end
      else k (mkMstate s og g1)
  end.

(** A backtracking matcher: [rmatch r st k] reads [r] from [st] and hands
    each state it can end in, longest choice first, to [k], until [k]
    accepts one. *)
Fixpoint rmatch (r : regex) (st : mstate) (k : mstate -> option R) : option R :=
  match r with
  | Lit l =>
      match lit_match l (rest st) (open_group st) with
      | Some (s', og') => k (mkMstate s' og' (group1 st))
      | None => None
      end
  | Star cls => star_match cls (rest st) (open_group st) (group1 st) k
  | Plus cls =>
      match rest st with
      | EmptyString => None
      | String c s' =>
          if cls c then star_match cls s' (push c (open_group st)) (group1 st) k
          else None
      end
  | Opt r' =>
      match rmatch r' st k with
      | Some x => Some x
      | None => k st
      end
  | Group r' =>
      rmatch r' (mkMstate (rest st) (Some EmptyString) (group1 st))
        (fun st' =>
           k (mkMstate (rest st') None (option_map PyStr.rev (open_group st'))))
  | Seq r1 r2 => rmatch r1 st (fun st' => rmatch r2 st' k)
  end.

End Matcher.

(** A match object, as far as the code reads it: [group(1)]. *)
Definition match_at (r : regex) (s : string) : option (option string) :=
  rmatch (option string) r (start_at s) (fun st => Some (group1 st)).

(** [re.search(pattern, s)]: the match at the leftmost position that has
    one, the end of the text included. *)
Fixpoint search (r : regex) (s : string) : option (option string) :=
  match match_at r s with
  | Some g => Some g
  | None =>
      match s with
      | EmptyString => None
      | String _ s' => search r s'
      end
  end.

(** [[:\s]] *)
Definition colon_or_space (c : ascii) : bool :=
  Ascii.eqb c ":"%char || PyStr.isspace c.

(** [r'score[:\s]*(\d+)(?:/10)?'] *)
Definition pattern_score : regex :=
  Seq (Lit "score")
    (Seq (Star colon_or_space)
       (Seq (Group (Plus PyStr.isdigit)) (Opt (Lit "/10")))).

(** [r'(\d+)/10'] *)
Definition pattern_out_of_ten : regex :=
  Seq (Group (Plus PyStr.isdigit)) (Lit "/10").

(** [r'rating[:\s]*(\d+)'] *)
Definition pattern_rating : regex :=
  Seq (Lit "rating") (Seq (Star colon_or_space) (Group (Plus PyStr.isdigit))).

Definition patterns : list regex :=
  [pattern_score; pattern_out_of_ten; pattern_rating].

Definition digit_value (c : ascii) : Z := Z.of_N (PyStr.code c) - 48.

Fixpoint int_digits (s : string) (acc : Z) : Z :=
  match s with
  | EmptyString => acc
  | String c s' => int_digits s' (10 * acc + digit_value c)
  end.

Fixpoint all_digits (s : string) : bool :=
  match s with
  | EmptyString => true
  | String c s' => PyStr.isdigit c && all_digits s'
  end.

(** [int(x)] for what [match.group(1)] gives: [TypeError] for [None],
    [ValueError] for a text that is not a run of digits. *)
Definition int (x : option string) : Result Z :=
  match x with
  | None => Raise "TypeError: int() argument must be a string"
  | Some s =>
      if negb (PyStr.is_empty s) && all_digits s then Ok (int_digits s 0)
      else Raise "ValueError: invalid literal for int() with base 10"
  end.

(** The loop [for pattern in patterns] of [_extract_score] on the
    lower-cased response, down to the default. *)
Fixpoint extract_score_loop (ps : list regex) (lowered : string) : Result Z :=
  match ps with
  | [] => Ok 7
  | pattern :: ps' =>
      match search pattern lowered with
      | Some g => bind (int g) (fun score => Ok (Z.min (Z.max score 1) 10))
      | None => extract_score_loop ps' lowered
      end
  end.

(** [_extract_score(self, response)] *)
Definition _extract_score (response : string) : Result Z :=
  extract_score_loop patterns (PyStr.lower response).

(** *** The line extractors *)

(** The body of the loop of [_extract_feedback], on the pair of
    [in_feedback_section] and [feedback_lines]. The first branch ends with
    [continue], which at the end of the body changes nothing. *)
Definition feedback_line (st : bool * list string) (line : string)
  : bool * list string :=
  let '(in_feedback_section, feedback_lines) := st in
  let line := PyStr.strip line in
  if PyStr.any_in ["feedback"; "analysis"; "review"] (PyStr.lower line) then
    (true, feedback_lines)
  else if PyStr.any_in ["suggestion"; "improvement"; "strength"]
            (PyStr.lower line) then
    (false, feedback_lines)
  else if in_feedback_section && negb (PyStr.is_empty line) then
    (in_feedback_section, feedback_lines ++ [line])
  else st.

(** [_extract_feedback(self, response)]; [response[:200]] is the first 200
    characters. *)
Definition _extract_feedback (response : string) : string :=
  let lines := PyStr.split_char "010"%char response in
  let '(_, feedback_lines) := fold_left feedback_line lines (false, []) in
  match feedback_lines with
  | [] => PyStr.take 200 response
  | _ :: _ => PyStr.join (String "010"%char EmptyString) feedback_lines
  end.

(** The body of the loops that read the text of a bullet line and keep it
    when it has one of the keywords; [line[2:]] drops two characters. *)
Definition bullet_line (keywords : list string) (suggestions : list string)
    (line : string) : list string :=
  let line := PyStr.strip line in
  if PyStr.startswith "- " line || PyStr.startswith "* " line then
    let suggestion := PyStr.strip (PyStr.drop 2 line) in
    if PyStr.any_in keywords (PyStr.lower suggestion)
    then suggestions ++ [suggestion]
    else suggestions
  else suggestions.

(** The body of the loops that keep a stripped line when it has one of
    the keywords. *)
Definition keyword_line (keywords : list string) (found : list string)
    (line : string) : list string :=
  let line := PyStr.strip line in
  if PyStr.any_in keywords (PyStr.lower line) then found ++ [line] else found.

(** [_extract_suggestions(self, response)] *)
Definition _extract_suggestions (response : string) : list string :=
  let lines := PyStr.split_char "010"%char response in
  firstn 5
    (fold_left (bullet_line ["suggest"; "recommend"; "consider"; "try"])
       lines []).

(** [_extract_areas_for_improvement(self, response)] *)
Definition _extract_areas_for_improvement (response : string) : list string :=
  let lines := PyStr.split_char "010"%char response in
  firstn 3
    (fold_left (keyword_line ["improve"; "better"; "enhance"; "fix"]) lines []).

(** [_extract_strengths(self, response)] *)
Definition _extract_strengths (response : string) : list string :=
  let lines := PyStr.split_char "010"%char response in
  firstn 3
    (fold_left (keyword_line ["good"; "strong"; "excellent"; "well"]) lines []).

(** [_extract_grammar_issues(self, response)] *)
Definition _extract_grammar_issues (response : string) : list string :=
  let lines := PyStr.split_char "010"%char response in
  fold_left (keyword_line ["error"; "mistake"; "incorrect"; "issue"]) lines [].

(** [_extract_grammar_suggestions(self, response)] *)
Definition _extract_grammar_suggestions (response : string) : list string :=
  let lines := PyStr.split_char "010"%char response in
  fold_left (bullet_line ["change"; "replace"; "correct"]) lines [].

(** [_extract_missing_sections(self, response)] *)
Definition _extract_missing_sections (response : string) : list string :=
  let lines := PyStr.split_char "010"%char response in
  fold_left (keyword_line ["missing"; "absent"; "not found"; "lacking"])
    lines [].

(** The body of the loop of [_extract_improvement_suggestions]. *)
Definition improvement_line (suggestions : list string) (line : string)
  : list string :=
  let line := PyStr.strip line in
  if PyStr.startswith "- " line || PyStr.startswith "* " line
     || PyStr.startswith "1." line then
    let suggestion := PyStr.strip (PyStr.lstrip_chars "-*0123456789. " line) in
    if negb (PyStr.is_empty suggestion) then suggestions ++ [suggestion]
    else suggestions
  else suggestions.

(** [_extract_improvement_suggestions(self, response)] *)
Definition _extract_improvement_suggestions (response : string) : list string :=
  let lines := PyStr.split_char "010"%char response in
  firstn 10 (fold_left improvement_line lines []).

(** [_extract_completeness_score(self, response)] *)
Definition _extract_completeness_score (response : string) : Result Z :=
  _extract_score response.

(** *** The review *)

(** The dictionary of a parsed review. *)
Record Review : Type := mkReview {
  score : Z;
  feedback : string;
  suggestions : list string;
  areas_for_improvement : list string;
  strengths : list string
}.

(** [_create_fallback_review] *)
Definition _create_fallback_review : Review :=
  {| score := 7;
     feedback := "Content appears to be well-structured and informative.";
     suggestions :=
       ["Consider adding more specific examples"; "Review for clarity"];
     areas_for_improvement := ["Content organization"; "Detail level"];
     strengths := ["Clear writing style"; "Good structure"] |}.

(** [_parse_review_response(self, response)] *)
Definition _parse_review_response (response : string) : Result Review :=
  try_except
    (bind (_extract_score response) (fun score =>
     let feedback := _extract_feedback response in
     let suggestions := _extract_suggestions response in
     let areas_for_improvement := _extract_areas_for_improvement response in
     let strengths := _extract_strengths response in
     Ok {| score := score;
           feedback := feedback;
           suggestions := suggestions;
           areas_for_improvement := areas_for_improvement;
           strengths := strengths |}))
    (fun e => Ok _create_fallback_review).

(** The dictionary [review_content] returns: the keys [error],
    [areas_for_improvement] and [strengths] are there on one path only.
    [error] is the exception as this development names it, where the code
    has [str(e)]. *)
Record ReviewResult : Type := mkReviewResult {
  success : bool;
  error : option string;
  result_score : Z;
  result_feedback : string;
  result_suggestions : list string;
  result_areas_for_improvement : option (list string);
  result_strengths : option (list string);
  revision_needed : bool
}.

Section Review.

(** The reviewer's router, and [_build_review_prompt] for the context and
    plan of the call, as a function of the content. *)
Variable llm_router : LLMRouters.LLMRouter.
Variable _build_review_prompt : string -> list LLMRouters.Message.

(** [_get_current_content(self, context)] *)
Definition _get_current_content : string := "Document content placeholder".

(** [_comprehensive_review(self, content, context, plan)] *)
Definition _comprehensive_review (content : string) : Result Review :=
  let review_prompt := _build_review_prompt content in
  bind (LLMRouters.route_request llm_router (Some AgentConfigs.REVIEWER)
          review_prompt ∅)
    (fun review_response => _parse_review_response review_response).

(** [review_content(self, context, plan)] *)
Definition review_content : ReviewResult :=
  match _comprehensive_review _get_current_content with
  | Ok review_result =>
      {| success := true;
         error := None;
         result_score := score review_result;
         result_feedback := feedback review_result;
         result_suggestions := suggestions review_result;
         result_areas_for_improvement :=
           Some (areas_for_improvement review_result);
         result_strengths := Some (strengths review_result);
         revision_needed := score review_result <? 7 |}
  | Raise e =>
      {| success := false;
         error := Some e;
         result_score := 5;
         result_feedback := "Review failed";
         result_suggestions := [];
         result_areas_for_improvement := None;
         result_strengths := None;
         revision_needed := true |}
  end.

End Review.

End DocumentReviewers.

(** ** document_orchestrator.py *)

Module DocumentOrchestrators.
Import Py AgentStates AgentConfigs LLMRouters.

(** *** The analysis of a request *)

(** The dictionary an analysis is, as the orchestrator reads it: [intent],
    [action_needed] and [confidence] when the keys are there, and the
    truth of [analysis.get(key, False)] for the three flags. *)
Record Analysis : Type := mkAnalysis {
  intent : option string;
  action_needed : option string;
  confidence : option Q;
  requires_planning : bool;
  requires_writing : bool;
  requires_review : bool
}.

Definition simple_phrases : list string :=
  [ "hi"; "hello"; "hey"; "thanks"; "thank you"; "how are you";
    "good morning"; "good afternoon" ].

Definition document_creation_keywords : list string :=
  [ "write"; "create"; "draft"; "generate"; "make"; "compose"; "develop";
    "structure"; "template"; "outline"; "proposal"; "report"; "document";
    "content"; "text"; "letter"; "email"; "plan"; "strategy"; "summary" ].

Definition template_keywords : list string :=
  [ "template"; "structure"; "outline"; "format"; "example" ].

Definition question_patterns : list string :=
  [ "what"; "how"; "why"; "when"; "where"; "who"; "explain"; "tell me";
    "can you help"; "how does"; "what is"; "what are" ].

(** [self.context.user_message.lower().strip()] *)
Definition normalized (user_message : string) : string :=
  PyStr.strip (PyStr.lower user_message).

(** The tests of the [except] branch of [_analyze_request], each on the
    normalized message. *)
Definition is_simple_greeting (user_message : string) : bool :=
  (length (PyStr.split user_message) <=? 3)%nat
  && PyStr.any_in simple_phrases user_message.

Definition requires_document_creation (user_message : string) : bool :=
  PyStr.any_in document_creation_keywords user_message.

Definition is_template_request (user_message : string) : bool :=
  PyStr.any_in template_keywords user_message.

Definition is_question_only (user_message : string) : bool :=
  PyStr.any_in question_patterns user_message
  && negb (requires_document_creation user_message).

(** The [except] branch of [_analyze_request]: the analysis made from the
    user's message alone. *)
Definition fallback_analysis (raw_user_message : string) : Analysis :=
  let user_message := normalized raw_user_message in
  if is_simple_greeting user_message then
    {| intent := Some "conversation";
       action_needed := Some "respond";
       confidence := Some (8 # 10)%Q;
       requires_planning := false;
       requires_writing := false;
       requires_review := false |}
  else if requires_document_creation user_message then
    {| intent := Some "create_document";
       action_needed := Some "write";
       confidence := Some (7 # 10)%Q;
       requires_planning := false;
       requires_writing := true;
       requires_review := true |}
  else if is_question_only user_message then
    {| intent := Some "ask_question";
       action_needed := Some "respond";
       confidence := Some (6 # 10)%Q;
       requires_planning := false;
       requires_writing := false;
       requires_review := false |}
  else
    {| intent := Some "general_assistance";
       action_needed := Some "respond";
       confidence := Some (5 # 10)%Q;
       requires_planning := false;
       requires_writing := true;
       requires_review := true |}.

Section Analyze.

(** The [try] block of [_analyze_request] on the model's answer:
    [json.loads], then [eval] on [JSONDecodeError], then the two added
    keys; it gives the analysis or raises. *)
Variable parse_analysis : string -> Result Analysis.

(** [_build_analysis_prompt()], the messages sent to the model. *)
Variable analysis_prompt : list Message.


End Analyze.

(** *** Activities and the request pipeline *)

(** One dictionary of [process_activities]. *)
Record Activity : Type := mkActivity {
  act_agent : string;
  act_action : string;
  act_status : string;
  startTime : string;
  endTime : option string;
  act_input : option string;
  act_output : option string;
  act_error : option string;
  act_metadata : list (string * string)
}.

(** The result dictionary of [process_user_request]. *)
Inductive RequestResult : Type :=
| Success (response : string) (plan_updated preview_ready : bool)
    (messages : list AgentMessage) (processing_time : Q)
| Failure (error : string) (messages : list AgentMessage).

Definition success (r : RequestResult) : bool :=
  match r with
  | Success _ _ _ _ _ => true
  | Failure _ _ => false
  end.

(** [@dataclass AgentContext], without the plan; its metadata holds the
    one key [operation_id]. *)
Record AgentContext : Type := mkAgentContext {
  ctx_document_id : Z;
  conversation_id : option Z;
  user_message : option string;
  conversation_history : list Message;
  operation_id : Z
}.

(** What a request can read and change: the attributes of the orchestrator
    that [process_user_request] touches, the process-wide
    [agent_state_manager], the clock, and the lines given to
    [logger.error] by the callback loops. The clock is the sequence of
    times (in microseconds) that the calls of [datetime.utcnow()] return,
    with the number of calls made so far. An activity callback is an
    observer: given the activity it returns or raises. *)
Record World : Type := mkWorld {
  document_id : Z;
  context : option AgentContext;
  start_time : option Z;
  operation_count : Z;
  process_activities : list Activity;
  activity_callbacks : list (Activity -> Result unit);
  agent_state_manager : AgentStateManager;
  clock : nat -> Z;
  reads : nat;
  error_log : list string
}.

(** A step of the pipeline: from the world before it, the value it returns
    or the exception it raises, and the world it leaves. *)
Definition M (A : Type) : Type := World -> Result A * World.

Definition ret {A} (a : A) : M A := fun w => (Ok a, w).

Definition raise {A} (e : string) : M A := fun w => (Raise e, w).

Definition mbind_M {A B} (c : M A) (k : A -> M B) : M B :=
  fun w =>
    match c w with
    | (Ok a, w') => k a w'
    | (Raise e, w') => (Raise e, w')
    end.


Definition gets {A} (f : World -> A) : M A := fun w => (Ok (f w), w).

Definition modify (f : World -> World) : M unit := fun w => (Ok tt, f w).

Declare Scope orch_scope.
Delimit Scope orch_scope with orch.
Notation "x <- c ;; k" := (mbind_M c (fun x => k))
  (at level 100, c at next level, right associativity) : orch_scope.
Notation "c ;;; k" := (mbind_M c (fun _ => k))
  (at level 100, right associativity) : orch_scope.

Definition set_manager (m : AgentStateManager) (w : World) : World :=
  {| document_id := document_id w; context := context w;
     start_time := start_time w; operation_count := operation_count w;
     process_activities := process_activities w;
     activity_callbacks := activity_callbacks w;
     agent_state_manager := m; clock := clock w; reads := reads w;
     error_log := error_log w |}.

Definition set_activities (acts : list Activity) (w : World) : World :=
  {| document_id := document_id w; context := context w;
     start_time := start_time w; operation_count := operation_count w;
     process_activities := acts;
     activity_callbacks := activity_callbacks w;
     agent_state_manager := agent_state_manager w;
     clock := clock w; reads := reads w;
     error_log := error_log w |}.

Definition log_error (line : string) (w : World) : World :=
  {| document_id := document_id w; context := context w;
     start_time := start_time w; operation_count := operation_count w;
     process_activities := process_activities w;
     activity_callbacks := activity_callbacks w;
     agent_state_manager := agent_state_manager w;
     clock := clock w; reads := reads w;
     error_log := error_log w ++ [line] |}.

(** [datetime.utcnow()]: the next time of the clock. *)
Definition utcnow : M Z :=
  fun w =>
    (Ok (clock w (reads w)),
     {| document_id := document_id w; context := context w;
        start_time := start_time w; operation_count := operation_count w;
        process_activities := process_activities w;
        activity_callbacks := activity_callbacks w;
        agent_state_manager := agent_state_manager w;
        clock := clock w; reads := S (reads w);
        error_log := error_log w |}).


Section Pipeline.

(** [datetime.isoformat] *)
Variable isoformat : Z -> string.

Local Open Scope orch_scope.

(** [agent_state_manager.transition_to(new_state, agent_type, message)]:
    the clock is read only inside the method's [if], for a state that
    differs from the current one. *)
Definition transition (new_state : AgentState) (agent_type message : string)
  : M unit :=
  m <- gets agent_state_manager ;;
  if AgentState_eqb (current_state m) new_state then ret tt
  else
    now <- utcnow ;;
    modify (set_manager
              (snd (transition_to m (isoformat now) new_state agent_type
                      (Some message)))).


(** The loop [for callback in self.activity_callbacks] with its [try] and
    [except Exception]: a callback that raises is logged and the loop goes
    on. *)
Fixpoint notify (callbacks : list (Activity -> Result unit))
    (activity : Activity) (w : World) : World :=
  match callbacks with
  | [] => w
  | callback :: rest =>
      match callback activity with
      | Ok _ => notify rest activity w
      | Raise e =>
          notify rest activity
            (log_error ("Error in activity callback: " +:+ e) w)
      end
  end.

Definition notify_callbacks (activity : Activity) : M unit :=
  modify (fun w => notify (activity_callbacks w) activity w).

Definition ends (status : string) : bool :=
  String.eqb status "completed" || String.eqb status "error".

(** The time read for [endTime] when the status ends the activity. *)
Definition end_time (status : string) : M (option string) :=
  if ends status then (now <- utcnow ;; ret (Some (isoformat now)))
  else ret None.

(** [_emit_activity(agent, action, status, input_data, output_data, error)];
    no caller passes [metadata]. *)
Definition _emit_activity (agent action status : string)
    (input_data output_data error : option string) : M unit :=
  started <- utcnow ;;
  ended <- end_time status ;;
  let activity :=
    {| act_agent := agent;
       act_action := action;
       act_status := status;
       startTime := isoformat started;
       endTime := ended;
       act_input := input_data;
       act_output := output_data;
       act_error := error;
       act_metadata := [] |} in
  modify (fun w => set_activities (process_activities w ++ [activity]) w) ;;;
  notify_callbacks activity.

(** A non-empty text is true. *)
Definition nonempty (x : option string) : bool :=
  match x with
  | Some s => negb (PyStr.is_empty s)
  | None => false
  end.

(** The assignments [_update_activity_status] makes to the activity it
    found; [ended] is the time read when the status ends the activity. *)
Definition updated (ended : option string) (status : string)
    (output_data error : option string) (a : Activity) : Activity :=
  {| act_agent := act_agent a;
     act_action := act_action a;
     act_status := status;
     startTime := startTime a;
     endTime := match ended with
                | Some t => Some t
                | None => endTime a
                end;
     act_input := act_input a;
     act_output := if nonempty output_data then output_data else act_output a;
     act_error := if nonempty error then error else act_error a;
     act_metadata := act_metadata a |}.

Definition is_activity (agent action : string) (a : Activity) : bool :=
  String.eqb (act_agent a) agent && String.eqb (act_action a) action.

(** The loop of [_update_activity_status] over the activities, latest
    first: the first one of this agent and action is updated, and the loop
    ends there. It gives the list with that activity replaced, and the
    activity. *)
Fixpoint update_first (agent action : string) (f : Activity -> Activity)
    (latest_first : list Activity) : list Activity * option Activity :=
  match latest_first with
  | [] => ([], None)
  | a :: rest =>
      if is_activity agent action a then (f a :: rest, Some (f a))
      else
        let '(rest', found) := update_first agent action f rest in
        (a :: rest', found)
  end.

(** [_update_activity_status(agent, action, status, output_data, error)]:
    nothing happens, and the clock is not read, when no activity of this
    agent and action is there. *)
Definition _update_activity_status (agent action status : string)
    (output_data error : option string) : M unit :=
  activities <- gets process_activities ;;
  if existsb (is_activity agent action) activities then
    ended <- end_time status ;;
    let '(latest_first, found) :=
      update_first agent action (updated ended status output_data error)
        (List.rev activities) in
    modify (set_activities (List.rev latest_first)) ;;;
    match found with
    | Some activity => notify_callbacks activity
    | None => ret tt
    end
  else ret tt.

(** The steps awaited inside the [try] block, each of which may change the
    world and may raise, and the result of executing the plan. *)
Variable ExecutionResult : Type.
Variable analyze_request : M Analysis.
Variable _handle_planning : Analysis -> M bool.
Variable _execute_plan : Analysis -> M ExecutionResult.
Variable _determine_preview_update : ExecutionResult -> M bool.
Variable _generate_final_response :
  Analysis -> ExecutionResult -> bool -> M string.


(** [(datetime.utcnow() - self.start_time).total_seconds()]; the
    subtraction raises [TypeError] when [start_time] is [None]. *)
Definition processing_time : M Q :=
  now <- utcnow ;;
  started <- gets start_time ;;
  match started with
  | Some t => ret ((now - t) # 1000000)%Q
  | None =>
      raise "TypeError: unsupported operand type(s) for -: 'datetime.datetime' and 'NoneType'"
  end.






End Pipeline.

(** *** The preview decision of a request *)

(** The dictionary [_execute_plan] returns; [review_score] is there after
    a review. *)
Record ExecutionDict : Type := mkExecutionDict {
  content_generated : bool;
  content_reviewed : bool;
  changes_made : Z;
  review_score : option Z
}.

Section Preview.

(** [datetime.isoformat], and the time in microseconds that such a text
    stands for. *)
Variable isoformat : Z -> string.
Variable microseconds : string -> Z.

Local Open Scope orch_scope.

(** [agent_state_manager.add_message(message)] *)
Definition queue_message (m : AgentMessage) : M unit :=
  modify (fun w => set_manager (add_message (agent_state_manager w) m) w).

(** [_determine_preview_update(self, execution_result)], with the
    process-wide [preview_decision_engine] passed in and out.
    [total_seconds()] is given in whole seconds, rounded down: the
    decision only compares it with the whole number
    [min_update_interval]. Making the [AgentMessage] reads the clock for
    its [timestamp]. *)
Definition _determine_preview_update
    (preview_decision_engine : PreviewUpdateDecision)
    (execution_result : ExecutionDict) : M (bool * PreviewUpdateDecision) :=
  current_state <- gets (fun w => current_state (agent_state_manager w)) ;;
  let last_action :=
    if content_generated execution_result then WRITE_CONTENT
    else ANALYZE_REQUEST in
  time_since_last_update <-
    match last_update_time preview_decision_engine with
    | Some last => (now <- utcnow ;; ret ((now - microseconds last) / 1000000))
    | None => ret 0
    end ;;
  let should_update :=
    should_update_preview preview_decision_engine current_state last_action
      time_since_last_update (changes_made execution_result) false in
  if should_update then
    transition isoformat UPDATING_PREVIEW (agent_type_value ORCHESTRATOR)
      "Updating document preview" ;;;
    updated_at <- utcnow ;;
    let preview_decision_engine :=
      record_update preview_decision_engine (isoformat updated_at) in
    made_at <- utcnow ;;
    let update_message :=
      {| msg_agent_type := agent_type_value ORCHESTRATOR;
         message_type := "preview_updated";
         content := "Document preview has been updated";
         metadata := [("update_reason", "content_changes")];
         msg_timestamp := isoformat made_at |} in
    queue_message update_message ;;;
    ret (should_update, preview_decision_engine)
  else ret (should_update, preview_decision_engine).

End Preview.

(** *** Executing the plan *)

Section Execute.

Variable isoformat : Z -> string.

(** The plan object, which [_execute_plan] only hands on; the writer and
    the reviewer, by what they return for a context and a plan (the
    writer also leaves the plan as it is then); and the text that stands
    for a result dictionary as a message's metadata. Both catch their own
    exceptions. The times they read for themselves, when a document is
    saved or a web socket notified, are not counted in the clock of the
    world; the orchestrator is taken without a web socket manager, whose
    start notification would read it once more. *)
Variable Plan : Type.
Variable write_content :
  AgentContext -> option Plan -> DocumentWriters.WriteResult * option Plan.
Variable review_content :
  option AgentContext -> option Plan -> DocumentReviewers.ReviewResult.
Variable writing_metadata : DocumentWriters.WriteResult -> list (string * string).
Variable review_metadata :
  DocumentReviewers.ReviewResult -> list (string * string).

Local Open Scope orch_scope.

(** [self.context], whose attributes are read: [AttributeError] when it
    is [None]. *)
Definition current_context : M AgentContext :=
  context <- gets context ;;
  match context with
  | Some c => ret c
  | None =>
      raise "AttributeError: 'NoneType' object has no attribute 'user_message'"
  end.

(** [str(z)] for an integer. *)
Definition str_int (z : Z) : string := NilZero.string_of_int (Z.to_int z).

(** The writing phase of [_execute_plan]: the entries it puts into
    [result], and the plan as the writer left it. *)
Definition writing_phase (current_plan : option Plan) (analysis : Analysis)
  : M (Z * option Plan) :=
  context <- current_context ;;
  transition isoformat WRITING (agent_type_value WRITER) "Generating content" ;;;
  _emit_activity isoformat "writer" "Generating document content"
    "in_progress" (user_message context) None None ;;;
  let '(writing_result, current_plan) := write_content context current_plan in
  let words :=
    PyStr.str_nat (DocumentWriters.result_words_written writing_result) in
  (if DocumentWriters.success writing_result then
     _update_activity_status isoformat "writer" "Generating document content"
       "completed" (Some (words +:+ " words written")) None ;;;
     if DocumentWriters.document_updated writing_result then
       _emit_activity isoformat "orchestrator" "Saving content to document"
         "completed" None
         (Some ("Document updated with " +:+ words +:+ " words")) None
     else ret tt
   else
     _update_activity_status isoformat "writer" "Generating document content"
       "error" None
       (Some (default "Writing failed" (DocumentWriters.error writing_result)))) ;;;
  (if requires_review analysis then
     _emit_activity isoformat "orchestrator"
       "Writer completed, sending to reviewer" "completed" None
       (Some ("Content ready for review: " +:+ words +:+ " words")) None
   else ret tt) ;;;
  made_at <- utcnow ;;
  queue_message
    {| msg_agent_type := agent_type_value WRITER;
       message_type := "content_generated";
       content := "Generated " +:+ words +:+ " words";
       metadata := writing_metadata writing_result;
       msg_timestamp := isoformat made_at |} ;;;
  ret (Z.of_nat (DocumentWriters.result_changes_made writing_result),
       current_plan).

(** The review phase of [_execute_plan]: the score it puts into
    [result]. The context is handed on as it is, [None] or not. *)
Definition review_phase (current_plan : option Plan) : M Z :=
  transition isoformat REVIEWING (agent_type_value REVIEWER)
    "Reviewing content" ;;;
  _emit_activity isoformat "reviewer" "Reviewing content quality"
    "in_progress" None None None ;;;
  context <- gets context ;;
  let review_result := review_content context current_plan in
  let score := str_int (DocumentReviewers.result_score review_result) in
  (if DocumentReviewers.success review_result then
     _update_activity_status isoformat "reviewer" "Reviewing content quality"
       "completed" (Some ("Review score: " +:+ score +:+ "/10")) None
   else
     _update_activity_status isoformat "reviewer" "Reviewing content quality"
       "error" None
       (Some (default "Review failed" (DocumentReviewers.error review_result)))) ;;;
  _emit_activity isoformat "orchestrator"
    "Review completed, finalizing response" "completed" None
    (Some ("Review score: " +:+ score +:+ "/10, ready for final response"))
    None ;;;
  made_at <- utcnow ;;
  queue_message
    {| msg_agent_type := agent_type_value REVIEWER;
       message_type := "content_reviewed";
       content := "Content review complete. Score: " +:+ score +:+ "/10";
       metadata := review_metadata review_result;
       msg_timestamp := isoformat made_at |} ;;;
  ret (DocumentReviewers.result_score review_result).

(** [_execute_plan(self, analysis)], with [self.current_plan] passed in
    and out. *)
Definition _execute_plan (current_plan : option Plan) (analysis : Analysis)
  : M (ExecutionDict * option Plan) :=
  let is_simple_conversation :=
    negb (requires_planning analysis) && negb (requires_writing analysis)
    && negb (requires_review analysis) in
  (if is_simple_conversation then
     _emit_activity isoformat "orchestrator"
       "Preparing conversational response" "in_progress"
       (Some ("Intent: " +:+ default "conversation" (intent analysis)))
       None None ;;;
     _update_activity_status isoformat "orchestrator"
       "Preparing conversational response" "completed"
       (Some "Ready to generate response") None
   else ret tt) ;;;
  written <-
    (if requires_writing analysis then
       r <- writing_phase current_plan analysis ;;
       ret (true, fst r, snd r)
     else ret (false, 0, current_plan)) ;;
  let '(content_generated, changes_made, current_plan) := written in
  reviewed <-
    (if requires_review analysis then
       score <- review_phase current_plan ;;
       ret (true, Some score)
     else ret (false, None)) ;;
  let '(content_reviewed, review_score) := reviewed in
  ret ({| content_generated := content_generated;
          content_reviewed := content_reviewed;
          changes_made := changes_made;
          review_score := review_score |},
       current_plan).

End Execute.

End DocumentOrchestrators.

(** * Properties *)

(** ** The state manager and the preview decision *)

Module AgentStatesProps.
Import AgentStates.

Lemma AgentState_eqb_eq (a b : AgentState) : AgentState_eqb a b = true <-> a = b.
Proof. destruct a, b; simpl; split; intros H; try reflexivity; discriminate H. Qed.

Lemma AgentState_eqb_neq (a b : AgentState) : AgentState_eqb a b = false <-> a <> b.
Proof.
  rewrite <- AgentState_eqb_eq. destruct (AgentState_eqb a b); split; congruence.
Qed.

Lemma AgentAction_eqb_eq (a b : AgentAction) : AgentAction_eqb a b = true <-> a = b.
Proof. destruct a, b; simpl; split; intros H; try reflexivity; discriminate H. Qed.

Lemma state_in_In (x : AgentState) (xs : list AgentState) :
  state_in x xs = true <-> In x xs.
Proof.
  unfold state_in. rewrite existsb_exists. split.
  - intros [y [Hy E]]. apply AgentState_eqb_eq in E. now subst.
  - intros H. exists x. split; [assumption | now apply AgentState_eqb_eq].
Qed.

Lemma last_or_none_snoc {A} (xs : list A) (x : A) : last_or_none (xs ++ [x]) = Some x.
Proof. unfold last_or_none. apply last_snoc. Qed.

(** The query answers by the table, and only by it. *)
Lemma can_transition_to_table (m : AgentStateManager) (t : AgentState) :
  can_transition_to m t = true <-> In t (allowed_transitions (current_state m)).
Proof. unfold can_transition_to. apply state_in_In. Qed.

(** [Error] is left again, and the two resting states are not busy. *)
Example is_busy_states :
  map (fun s => is_busy (snd (transition_to AgentStates.init "t" s "a" None)))
      [IDLE; ANALYZING; PLANNING; WRITING; REVIEWING; UPDATING_PREVIEW;
       WAITING_FEEDBACK; ERROR]
  = [false; true; true; true; true; true; false; true].
Proof. reflexivity. Qed.

(** The entry a real transition from [s] appends. *)
Definition entry (now : string) (s t : AgentState) (agent_type : string)
    (message : option string) : Transition :=
  {| timestamp := now;
     from_state := Some s;
     to_state := state_value t;
     agent := agent_type;
     message := message |}.

Lemma transition_to_same (m : AgentStateManager) now agent_type message :
  transition_to m now (current_state m) agent_type message = (tt, m).
Proof.
  unfold transition_to.
  assert (E : AgentState_eqb (current_state m) (current_state m) = true)
    by now apply AgentState_eqb_eq.
  now rewrite E.
Qed.

Lemma transition_to_other (m : AgentStateManager) now t agent_type message :
  t <> current_state m ->
  transition_to m now t agent_type message =
  (tt,
   {| current_state := t;
      previous_states := previous_states m ++ [current_state m];
      state_history :=
        state_history m ++ [entry now (current_state m) t agent_type message];
      current_agent := Some agent_type;
      message_queue := message_queue m |}).
Proof.
  intros Hne. unfold transition_to.
  assert (E : AgentState_eqb (current_state m) t = false)
    by (apply AgentState_eqb_neq; congruence).
  rewrite E. simpl. rewrite last_or_none_snoc. reflexivity.
Qed.

(** After [transition_to] the manager is in the requested state, whatever
    the table says. *)
Lemma transition_to_reaches (m : AgentStateManager) now t agent_type message :
  current_state (snd (transition_to m now t agent_type message)) = t.
Proof.
  destruct (AgentState_eqb (current_state m) t) eqn:E.
  - apply AgentState_eqb_eq in E. subst t. now rewrite transition_to_same.
  - apply AgentState_eqb_neq in E. rewrite transition_to_other by congruence.
    reflexivity.
Qed.

(** C1, as stated, fails: from the initial state [IDLE] the table allows
    only [ANALYZING], yet a request for [WRITING] is applied (the state
    changes and the log grows). *)
Lemma illegal_transition_is_applied :
  let m := AgentStates.init in
  let m' := snd (transition_to m "2024-01-01T00:00:00" WRITING "writer"
                   (Some "Generating content")) in
  can_transition_to m WRITING = false
  /\ current_state m' <> current_state m
  /\ state_history m' <> state_history m.
Proof. simpl. repeat split; discriminate. Qed.

(** C1, amended: for a target [t] outside the table's row for the current
    state, the query [can_transition_to] answers [False] (a returned value;
    being a query it leaves state and log as they are), while
    [transition_to] does not consult the table: a request for [t] is still
    applied, with one log entry appended. *)
Theorem can_transition_to_reports_illegal
    (m : AgentStateManager) (t : AgentState) :
  ~ In t (allowed_transitions (current_state m)) ->
  can_transition_to m t = false
  /\ forall now agent_type message,
       t <> current_state m ->
       let m' := snd (transition_to m now t agent_type message) in
       current_state m' = t
       /\ state_history m' =
          state_history m ++ [entry now (current_state m) t agent_type message].
Proof.
  intros Hout. split.
  - unfold can_transition_to.
    destruct (state_in t (allowed_transitions (current_state m))) eqn:E;
      [ | reflexivity ].
    apply state_in_In in E. contradiction.
  - intros now agent_type message Hne m'. subst m'.
    rewrite transition_to_other by assumption. simpl. split; reflexivity.
Qed.

Lemma can_transition_to_reports_illegal_witness :
  can_transition_to AgentStates.init WRITING = false
  /\ forall now agent_type message,
       WRITING <> current_state AgentStates.init ->
       let m' := snd (transition_to AgentStates.init now WRITING agent_type message) in
       current_state m' = WRITING
       /\ state_history m' =
          state_history AgentStates.init
          ++ [entry now (current_state AgentStates.init) WRITING agent_type message].
Proof.
  apply (can_transition_to_reports_illegal AgentStates.init WRITING).
  simpl. intros [H | []]. discriminate H.
Defined.

(** C8: a request for the current state changes nothing (same state, no
    log entry); a request for another state appends exactly one entry,
    which records the time, the state left, the state entered, the acting
    agent and the reason. *)
Theorem transition_to_logs_real_transitions
    (m : AgentStateManager) (now : string) (t : AgentState)
    (agent_type : string) (message : option string) :
  let m' := snd (transition_to m now t agent_type message) in
  (t = current_state m -> m' = m)
  /\ (t <> current_state m ->
      current_state m' = t
      /\ state_history m' =
         state_history m ++ [entry now (current_state m) t agent_type message]).
Proof.
  intros m'. subst m'. split.
  - intros ->. now rewrite transition_to_same.
  - intros Hne. rewrite transition_to_other by assumption. simpl.
    split; reflexivity.
Qed.

Lemma transition_to_logs_real_transitions_witness :
  let m := AgentStates.init in
  let now := "2024-01-01T00:00:00" in
  (snd (transition_to m now IDLE "orchestrator" None) = m)
  /\ (state_history (snd (transition_to m now ANALYZING "orchestrator" (Some "Starting analysis")))
      = [entry now IDLE ANALYZING "orchestrator" (Some "Starting analysis")]).
Proof.
  split.
  - apply (transition_to_logs_real_transitions AgentStates.init
             "2024-01-01T00:00:00" IDLE "orchestrator" None).
    reflexivity.
  - apply (transition_to_logs_real_transitions AgentStates.init
             "2024-01-01T00:00:00" ANALYZING "orchestrator"
             (Some "Starting analysis")).
    discriminate.
Defined.

(** C5: the decision is true exactly when one of the five rules fires,
    read in the order of the code: the user asked; the state is [IDLE] or
    [WAITING_FEEDBACK]; more than 100 changes and at least 30 seconds; the
    last action wrote content and at least 30 seconds; the last action
    reviewed content. With 150 changes after 45 seconds it is true; with 50
    changes, a last action that neither wrote nor reviewed, a state outside
    the two forcing ones and [user_requested] left at its default, it is
    false. *)
Theorem should_update_preview_rules :
  (forall cs la t c ur,
     should_update_preview preview_init cs la t c ur =
       if ur then true
       else if AgentState_eqb cs IDLE || AgentState_eqb cs WAITING_FEEDBACK then true
       else if (c >? 100) && (t >=? 30) then true
       else if AgentAction_eqb la WRITE_CONTENT && (t >=? 30) then true
       else AgentAction_eqb la REVIEW_CONTENT)
  /\ (forall cs la t c ur,
        should_update_preview preview_init cs la t c ur = true <->
        (ur = true
         \/ cs = IDLE \/ cs = WAITING_FEEDBACK
         \/ (c > 100 /\ t >= 30)
         \/ (la = WRITE_CONTENT /\ t >= 30)
         \/ la = REVIEW_CONTENT))
  /\ (forall cs la ur, should_update_preview preview_init cs la 45 150 ur = true)
  /\ (forall cs la t,
        la <> WRITE_CONTENT -> la <> REVIEW_CONTENT ->
        cs <> IDLE -> cs <> WAITING_FEEDBACK ->
        should_update_preview_default preview_init cs la t 50 = false).
Proof.
  assert (Hform : forall cs la t c ur,
     should_update_preview preview_init cs la t c ur =
       if ur then true
       else if AgentState_eqb cs IDLE || AgentState_eqb cs WAITING_FEEDBACK then true
       else if (c >? 100) && (t >=? 30) then true
       else if AgentAction_eqb la WRITE_CONTENT && (t >=? 30) then true
       else AgentAction_eqb la REVIEW_CONTENT).
  { intros cs la t c ur. unfold should_update_preview, state_in. simpl.
    rewrite orb_false_r.
    destruct ur; [reflexivity | ].
    destruct (AgentState_eqb cs IDLE || AgentState_eqb cs WAITING_FEEDBACK);
      [reflexivity | ].
    destruct ((c >? 100) && (t >=? 30)); [reflexivity | ].
    destruct (AgentAction_eqb la WRITE_CONTENT && (t >=? 30)); [reflexivity | ].
    destruct (AgentAction_eqb la REVIEW_CONTENT); reflexivity. }
  split; [exact Hform | ]. split; [ | split ].
  - intros cs la t c ur. rewrite Hform.
    pose proof (AgentState_eqb_eq cs IDLE) as HI.
    pose proof (AgentState_eqb_eq cs WAITING_FEEDBACK) as HW.
    pose proof (AgentAction_eqb_eq la WRITE_CONTENT) as HA.
    pose proof (AgentAction_eqb_eq la REVIEW_CONTENT) as HR.
    pose proof (Z.gtb_spec c 100) as Hc.
    pose proof (Z.geb_spec t 30) as Ht.
    destruct ur; [ split; auto | ].
    destruct (AgentState_eqb cs IDLE); simpl; [ split; intros; auto; right; left; now apply HI | ].
    destruct (AgentState_eqb cs WAITING_FEEDBACK); simpl;
      [ split; intros; auto; right; right; left; now apply HW | ].
    destruct Hc as [Hc | Hc], Ht as [Ht | Ht], (AgentAction_eqb la WRITE_CONTENT),
      (AgentAction_eqb la REVIEW_CONTENT); simpl; split; intros H;
      try reflexivity; try discriminate H;
      try (right; right; right; left; split; lia);
      try (right; right; right; right; left; split; [now apply HA | lia]);
      try (right; right; right; right; right; now apply HR);
      destruct H as [H | [H | [H | [[H1 H2] | [[H1 H2] | H]]]]];
      try discriminate H; try (apply HI in H; discriminate H);
      try (apply HW in H; discriminate H); try lia;
      try (apply HA in H1; discriminate H1); try (apply HR in H; discriminate H).
  - intros cs la ur. rewrite Hform.
    destruct ur; [reflexivity | ].
    destruct (AgentState_eqb cs IDLE || AgentState_eqb cs WAITING_FEEDBACK);
      reflexivity.
  - intros cs la t Hw Hr Hi Hf. unfold should_update_preview_default.
    rewrite Hform.
    apply AgentState_eqb_neq in Hi, Hf. rewrite Hi, Hf. simpl.
    destruct (AgentAction_eqb la WRITE_CONTENT) eqn:EW;
      [ apply AgentAction_eqb_eq in EW; contradiction | ].
    destruct (AgentAction_eqb la REVIEW_CONTENT) eqn:ER;
      [ apply AgentAction_eqb_eq in ER; contradiction | ].
    reflexivity.
Qed.

Lemma should_update_preview_rules_witness :
  should_update_preview_default preview_init ANALYZING ANALYZE_REQUEST 0 50 = false
  /\ should_update_preview preview_init WRITING WRITE_CONTENT 45 150 false = true.
Proof.
  destruct should_update_preview_rules as (_ & _ & H150 & H50).
  split.
  - apply H50; discriminate.
  - apply H150.
Defined.

End AgentStatesProps.

(** ** The configuration manager *)

Module AgentConfigsProps.
Import Py AgentConfigs.

Lemma truthy_nonzero (z : Z) : z <> 0 -> truthy (Some z) = true.
Proof. intros H. simpl. apply negb_true_iff, Z.eqb_neq, H. Qed.

Lemma get_config_zero (m : AgentConfigManager) :
  get_config m (Some 0) = default_config m.
Proof. reflexivity. Qed.

Lemma get_set_config (m : AgentConfigManager) (c : AgentConfig) (d : option Z) :
  get_config (set_config m c d) d = c.
Proof.
  destruct d as [z | ]; [ | reflexivity ].
  unfold get_config, set_config.
  destruct (truthy (Some z)) eqn:E; simpl.
  - now rewrite lookup_insert_eq.
  - reflexivity.
Qed.

(** The provider of one of the four agents is not a known one. *)
Definition unknown_provider (c : AgentConfig) : Prop :=
  exists a, str_in (fst (get_llm_for_agent c (Some a))) valid_providers = false.

Lemma check_providers_unknown (c : AgentConfig) :
  unknown_provider c ->
  exists msg, check_providers c all_agent_types = Some (false, Some msg).
Proof.
  intros [a Ha]. unfold all_agent_types.
  cbn [check_providers get_llm_for_agent].
  destruct (str_in (orchestrator_llm c) valid_providers) eqn:E1;
    cbn [negb]; [ | eexists; reflexivity ].
  destruct (str_in (planner_llm c) valid_providers) eqn:E2;
    cbn [negb]; [ | eexists; reflexivity ].
  destruct (str_in (writer_llm c) valid_providers) eqn:E3;
    cbn [negb]; [ | eexists; reflexivity ].
  destruct (str_in (reviewer_llm c) valid_providers) eqn:E4;
    cbn [negb]; [ | eexists; reflexivity ].
  destruct a; cbn [get_llm_for_agent fst] in Ha; congruence.
Qed.

Lemma check_providers_false (c : AgentConfig) (r : bool * option string) :
  check_providers c all_agent_types = Some r -> fst r = false.
Proof.
  unfold all_agent_types. cbn [check_providers get_llm_for_agent].
  destruct (str_in (orchestrator_llm c) valid_providers); cbn [negb];
    [ | intros E; now inversion E ].
  destruct (str_in (planner_llm c) valid_providers); cbn [negb];
    [ | intros E; now inversion E ].
  destruct (str_in (writer_llm c) valid_providers); cbn [negb];
    [ | intros E; now inversion E ].
  destruct (str_in (reviewer_llm c) valid_providers); cbn [negb];
    [ | intros E; now inversion E ].
  discriminate.
Qed.

Lemma validate_config_rejects (m : AgentConfigManager) (c : AgentConfig) :
  unknown_provider c \/ max_retries c < 1 \/ timeout_seconds c < 5 ->
  fst (validate_config m c) = false.
Proof.
  intros H. unfold validate_config.
  destruct (check_providers c all_agent_types) as [r | ] eqn:E.
  - now apply (check_providers_false c).
  - destruct H as [H | [H | H]].
    + apply check_providers_unknown in H. destruct H as [msg H]. congruence.
    + apply Z.ltb_lt in H. now rewrite H.
    + destruct (max_retries c <? 1); [reflexivity | ].
      apply Z.ltb_lt in H. now rewrite H.
Qed.

Lemma from_dict_unknown_key (data : gmap string PyVal) (k : string) (v : PyVal) :
  data !! k = Some v -> k ∉ field_names ->
  exists e, from_dict data = Raise e.
Proof.
  intros Hk Hout. unfold from_dict.
  destruct (forallb (fun k => bool_decide (k ∈ field_names))
              (map fst (map_to_list data))) eqn:E.
  - exfalso. rewrite forallb_forall in E.
    assert (Hin : In k (map fst (map_to_list data))).
    { apply in_map_iff. exists (k, v). split; [ reflexivity | ].
      apply list_elem_of_In. now apply elem_of_map_to_list. }
    apply E in Hin. apply bool_decide_eq_true in Hin. contradiction.
  - eexists. reflexivity.
Qed.

(** The update [{"max_retries": 0}]. *)
Definition zero_retries : gmap string PyVal := {[ "max_retries" := VInt 0 ]}.

(** The default configuration with [max_retries] set to 0. *)
Definition config_zero_retries : AgentConfig :=
  {| orchestrator_llm := "google"; orchestrator_model := "gemini-2.5-pro";
     planner_llm := "google"; planner_model := "gemini-2.5-pro";
     writer_llm := "google"; writer_model := "gemini-2.5-pro";
     reviewer_llm := "google"; reviewer_model := "gemini-2.5-pro";
     fallback_llm := "mock"; fallback_model := "mock";
     max_retries := 0; timeout_seconds := 30 |}.

(** C9, as stated, fails: on a new manager the update [{"max_retries": 0}]
    for document 7 is accepted; the stored configuration changes to one
    with [max_retries = 0], which [validate_config] itself calls invalid. *)
Lemma update_config_accepts_zero_retries :
  update_config AgentConfigs.init zero_retries (Some 7)
  = Ok (set_config AgentConfigs.init config_zero_retries (Some 7))
  /\ get_config (set_config AgentConfigs.init config_zero_retries (Some 7)) (Some 7)
     <> get_config AgentConfigs.init (Some 7)
  /\ max_retries
       (get_config (set_config AgentConfigs.init config_zero_retries (Some 7)) (Some 7))
     < 1
  /\ validate_config AgentConfigs.init config_zero_retries
     = (false, Some "max_retries must be at least 1").
Proof.
  split; [ vm_compute; reflexivity | ].
  rewrite get_set_config. split; [ discriminate | ].
  split; [ simpl; lia | reflexivity ].
Qed.

(** C9, amended: [update_config] does not validate. Whenever the merged
    dictionary makes a configuration, that configuration is stored (and is
    what [get_config] then returns for the same document), whatever
    [validate_config] would say of it; when it makes none, the exception
    leaves the manager as it was. [validate_config] is a separate check,
    which changes nothing: it answers [False] when the provider of one of
    the four agents is outside the known set, when [max_retries < 1] and
    when [timeout_seconds < 5]. *)
Theorem update_config_stores_without_validation :
  (forall (m : AgentConfigManager) updates d c,
     from_dict (updates ∪ to_dict (get_config m d)) = Ok c ->
     update_config m updates d = Ok (set_config m c d)
     /\ get_config (set_config m c d) d = c)
  /\ (forall (m : AgentConfigManager) updates d e,
        from_dict (updates ∪ to_dict (get_config m d)) = Raise e ->
        update_config m updates d = Raise e)
  /\ (forall (m : AgentConfigManager) (updates : gmap string PyVal) d k v,
        updates !! k = Some v -> k ∉ field_names ->
        exists e, update_config m updates d = Raise e)
  /\ (forall (m : AgentConfigManager) c,
        unknown_provider c \/ max_retries c < 1 \/ timeout_seconds c < 5 ->
        fst (validate_config m c) = false).
Proof.
  split; [ | split; [ | split ] ].
  - intros m updates d c H. unfold update_config. rewrite H. simpl.
    split; [ reflexivity | apply get_set_config ].
  - intros m updates d e H. unfold update_config. now rewrite H.
  - intros m updates d k v Hk Hout.
    destruct (from_dict_unknown_key (updates ∪ to_dict (get_config m d)) k v)
      as [e He]; [ now apply lookup_union_Some_l | exact Hout | ].
    exists e. unfold update_config. now rewrite He.
  - apply validate_config_rejects.
Qed.

Lemma update_config_stores_without_validation_witness :
  update_config AgentConfigs.init zero_retries (Some 7)
  = Ok (set_config AgentConfigs.init config_zero_retries (Some 7))
  /\ fst (validate_config AgentConfigs.init config_zero_retries) = false.
Proof.
  split.
  - apply (proj1 update_config_stores_without_validation
             AgentConfigs.init zero_retries (Some 7) config_zero_retries).
    vm_compute. reflexivity.
  - apply (proj2 (proj2 (proj2 update_config_stores_without_validation))
             AgentConfigs.init config_zero_retries).
    right. left. simpl. lia.
Defined.

(** C10: with document identifier 0, [set_config] replaces the default
    configuration and stores no override, and [get_config(0)] is the
    default; with a nonzero identifier the configuration is stored under
    it, the default stays, and [get_config] returns what was stored. No
    call of [set_config] writes the key 0. *)
Theorem document_zero_is_the_default (m : AgentConfigManager) (c : AgentConfig) :
  set_config m c (Some 0)
  = {| default_config := c; _document_configs := _document_configs m |}
  /\ get_config m (Some 0) = default_config m
  /\ get_config (set_config m c (Some 0)) (Some 0) = c
  /\ (forall z, z <> 0 ->
        set_config m c (Some z)
        = {| default_config := default_config m;
             _document_configs := <[z := c]> (_document_configs m) |}
        /\ get_config (set_config m c (Some z)) (Some z) = c
        /\ get_config m (Some z)
           = default (default_config m) (_document_configs m !! z))
  /\ (forall d, _document_configs (set_config m c d) !! 0
                = _document_configs m !! 0).
Proof.
  split; [ reflexivity | ]. split; [ reflexivity | ]. split; [ reflexivity | ].
  split.
  - intros z Hz. unfold set_config, get_config.
    rewrite (truthy_nonzero z Hz). simpl.
    rewrite lookup_insert_eq.
    split; [ reflexivity | ]. split; [ reflexivity | ].
    destruct (_document_configs m !! z); reflexivity.
  - intros [z | ]; [ | reflexivity ].
    unfold set_config. destruct (truthy (Some z)) eqn:E; [ | reflexivity ].
    simpl. apply lookup_insert_ne. intros ->. discriminate E.
Qed.

Lemma document_zero_is_the_default_witness :
  set_config AgentConfigs.init config_zero_retries (Some 7)
  = {| default_config := default_AgentConfig;
       _document_configs := <[7 := config_zero_retries]> ∅ |}.
Proof.
  destruct (document_zero_is_the_default AgentConfigs.init config_zero_retries)
    as (_ & _ & _ & H & _).
  apply (H 7). discriminate.
Defined.

End AgentConfigsProps.

(** ** The provider router *)

Module LLMRoutersProps.
Import Py AgentConfigs LLMRouters.

(** The two apologies are not empty. *)
Lemma error_msg_nonempty : error_msg <> "".
Proof. discriminate. Qed.

Lemma fallback_placeholder_nonempty (m : string) : fallback_placeholder m <> "".
Proof. discriminate. Qed.

(** The primary provider gives no answer: it has no adapter, or its
    adapter raises. *)
Definition primary_fails (self : LLMRouter) (agent_type : option AgentType)
    (messages : list Message) (kwargs : Kwargs) : Prop :=
  let '(provider, model) := get_llm_for_agent (config self) agent_type in
  match adapters self !! provider with
  | None => True
  | Some adapter =>
      exists e, generate adapter messages model (with_timeout self kwargs) = Raise e
  end.

(** The fallback gives no answer: it has no adapter; or it is the mock and
    the last message has no content to quote; or its adapter raises. *)
Definition fallback_fails (self : LLMRouter) (messages : list Message)
    (kwargs : Kwargs) : Prop :=
  let fallback_provider := fallback_llm (config self) in
  match adapters self !! fallback_provider with
  | None => True
  | Some adapter =>
      if String.eqb fallback_provider "mock" then
        messages <> [] /\ exists e, last_content messages = Raise e
      else
        exists e,
          generate adapter messages (fallback_model (config self))
            (with_timeout self kwargs) = Raise e
  end.




(** The answer is [s]; what remains is to say where it came from. *)
Ltac answers := eexists; split; [ reflexivity | ].

(** The second half of [route_request], the same whether the primary
    adapter raised or was missing. *)
Ltac fallback_half self messages kwargs :=
  destruct (adapters self !! fallback_llm (config self)) as [fb | ] eqn:Ef;
    [ | answers; now left ];
  destruct (String.eqb (fallback_llm (config self)) "mock");
    [ destruct messages as [ | m0 ms ]; simpl;
        [ answers; right; left; eexists; reflexivity | ];
      destruct (last_content (m0 :: ms)) as [c | e']; simpl;
        [ answers; right; left; eexists; reflexivity | answers; now left ]
    | destruct (generate fb messages (fallback_model (config self))
                  (with_timeout self kwargs)) as [s' | e'] eqn:Eg'; simpl;
        [ exists s'; split; [ reflexivity | ]; right; right;
          exists (fallback_llm (config self)), fb,
            (fallback_model (config self)); split; assumption
        | answers; now left ] ].

Lemma route_request_cases (self : LLMRouter) (agent_type : option AgentType)
    (messages : list Message) (kwargs : Kwargs) :
  exists s,
    route_request self agent_type messages kwargs = Ok s
    /\ (s = error_msg
        \/ (exists m, s = fallback_placeholder m)
        \/ (exists name adapter model,
              adapters self !! name = Some adapter
              /\ generate adapter messages model (with_timeout self kwargs) = Ok s)).
Proof.
  unfold route_request.
  destruct (get_llm_for_agent (config self) agent_type) as [provider model].
  destruct (adapters self !! provider) as [adapter | ] eqn:Ep.
  - destruct (generate adapter messages model (with_timeout self kwargs))
      as [s | e] eqn:Eg; simpl.
    + exists s. split; [ reflexivity | ]. right. right.
      exists provider, adapter, model. split; assumption.
    + fallback_half self messages kwargs.
  - simpl. fallback_half self messages kwargs.
Qed.

Lemma route_request_both_fail (self : LLMRouter) (agent_type : option AgentType)
    (messages : list Message) (kwargs : Kwargs) :
  primary_fails self agent_type messages kwargs ->
  fallback_fails self messages kwargs ->
  route_request self agent_type messages kwargs = Ok error_msg.
Proof.
  unfold primary_fails, fallback_fails, route_request.
  destruct (get_llm_for_agent (config self) agent_type) as [provider model].
  intros Hp Hf.
  assert (E1 : match adapters self !! provider with
               | Some adapter =>
                   returned (generate adapter messages model (with_timeout self kwargs))
               | None => None
               end = None).
  { destruct (adapters self !! provider) as [adapter | ]; [ | reflexivity ].
    destruct Hp as [e ->]. reflexivity. }
  rewrite E1.
  destruct (adapters self !! fallback_llm (config self)) as [fb | ];
    [ | reflexivity ].
  destruct (String.eqb (fallback_llm (config self)) "mock").
  - destruct Hf as [Hne [e He]].
    destruct messages as [ | m0 ms ]; [ congruence | ].
    rewrite He. reflexivity.
  - destruct Hf as [e ->]. reflexivity.
Qed.


(** An adapter that always raises. *)
Definition failing_adapter : LLMAdapter :=
  {| generate := fun _ _ _ => Raise "timeout" |}.

(** A router whose Google adapter raises and whose fallback provider,
    Claude, raises too. *)
Definition broken_router : LLMRouter :=
  LLMRouters.init
    {| orchestrator_llm := "google"; orchestrator_model := "gemini-2.5-pro";
       planner_llm := "google"; planner_model := "gemini-2.5-pro";
       writer_llm := "google"; writer_model := "gemini-2.5-pro";
       reviewer_llm := "google"; reviewer_model := "gemini-2.5-pro";
       fallback_llm := "claude"; fallback_model := "claude-3";
       max_retries := 3; timeout_seconds := 30 |}
    None (Some failing_adapter) (Some failing_adapter).


End LLMRoutersProps.

(** ** Facts about the string operations *)

Module PyStrProps.
Import PyStr.

(** The operations on some texts, as Python evaluates them. *)
Example split_words : split "  write   this  " = ["write"; "this"].
Proof. reflexivity. Qed.

Example strip_both_ends : strip "  a b  " = "a b".
Proof. reflexivity. Qed.

Example find_and_rfind :
  find "{" "ab{c}" = 2 /\ rfind "}" "ab{c}}" = 5 /\ find "{" "abc" = -1.
Proof. repeat split; reflexivity. Qed.

Example slice_between : slice "ab{c}}x" 2 6 = "{c}}" /\ slice "abc" 2 0 = "".
Proof. split; reflexivity. Qed.

Example replace_all : replace "- " "" "- Intro - x" = "Intro x".
Proof. reflexivity. Qed.

Example substring_inside_a_word : contains "hi" "write this" = true.
Proof. reflexivity. Qed.

(** The characters of a text. *)
Fixpoint chars (s : string) : list ascii :=
  match s with
  | EmptyString => []
  | String c s' => c :: chars s'
  end.

Lemma chars_rev_append (s acc : string) (c : ascii) :
  In c (chars (rev_append s acc)) <-> In c (chars s) \/ In c (chars acc).
Proof.
  revert acc. induction s as [ | a s IH ]; intros acc; simpl.
  - tauto.
  - rewrite IH. simpl. tauto.
Qed.

Lemma chars_rev (s : string) (c : ascii) : In c (chars (rev s)) <-> In c (chars s).
Proof. unfold rev. rewrite chars_rev_append. simpl. tauto. Qed.

Lemma chars_lstrip (s : string) (c : ascii) :
  In c (chars (lstrip s)) -> In c (chars s).
Proof.
  induction s as [ | a s IH ]; simpl; [ tauto | ].
  destruct (isspace a); simpl; tauto.
Qed.

Lemma chars_strip (s : string) (c : ascii) :
  In c (chars (strip s)) -> In c (chars s).
Proof.
  unfold strip, rstrip. intros H.
  apply (proj1 (chars_rev _ _)) in H. apply chars_lstrip in H.
  apply (proj1 (chars_rev _ _)) in H. now apply chars_lstrip in H.
Qed.

Lemma startswith_char (c : ascii) (s : string) :
  startswith (String c EmptyString) s = true -> In c (chars s).
Proof.
  destruct s as [ | b s ]; simpl; [ discriminate | ].
  destruct (Ascii.eqb c b) eqn:E; [ | discriminate ].
  apply Ascii.eqb_eq in E. intros _. now left.
Qed.

Lemma find_from_lower (sub s : string) (i : Z) :
  find_from sub s i = -1 \/ i <= find_from sub s i.
Proof.
  revert i. induction s as [ | a s IH ]; intros i; simpl.
  - destruct (startswith sub ""); [ right; lia | now left ].
  - destruct (startswith sub (String a s)); [ right; lia | ].
    destruct (IH (i + 1)) as [H | H]; [ now left | right; lia ].
Qed.

Lemma find_from_char_found (c : ascii) (s : string) (i : Z) :
  0 <= i -> In c (chars s) -> find_from (String c EmptyString) s i <> -1.
Proof.
  revert i. induction s as [ | a s IH ]; intros i Hi Hin; simpl in *.
  - contradiction.
  - destruct (Ascii.eqb c a) eqn:E; [ lia | ].
    destruct Hin as [-> | Hin].
    + rewrite Ascii.eqb_refl in E. discriminate.
    + apply IH; [ lia | assumption ].
Qed.

(** A text whose stripped form begins with [c] has [c] in it. *)
Lemma find_strip_startswith (c : ascii) (s : string) :
  startswith (String c EmptyString) (strip s) = true ->
  find (String c EmptyString) s <> -1.
Proof.
  intros H. apply find_from_char_found; [ lia | ].
  now apply chars_strip, startswith_char.
Qed.

Lemma rfind_from_lower (sub s : string) (i : Z) :
  0 <= i -> -1 <= rfind_from sub s i.
Proof.
  revert i. induction s as [ | a s IH ]; intros i Hi; simpl.
  - destruct (startswith sub ""); lia.
  - specialize (IH (i + 1) ltac:(lia)).
    destruct (rfind_from sub s (i + 1) =? -1) eqn:E.
    + destruct (startswith sub (String a s)); lia.
    + lia.
Qed.

Lemma rfind_lower (sub s : string) : -1 <= rfind sub s.
Proof. apply rfind_from_lower. lia. Qed.

Lemma chars_app (a b : string) : chars (a +:+ b) = chars a ++ chars b.
Proof. induction a as [ | c a IH ]; simpl; [ reflexivity | now rewrite IH ]. Qed.

Lemma chars_inj (a b : string) : chars a = chars b -> a = b.
Proof.
  revert b. induction a as [ | c a IH ]; intros [ | d b ]; simpl;
    try discriminate; [ reflexivity | ].
  intros H. inversion H. f_equal. now apply IH.
Qed.

Lemma lower_app (a b : string) : lower (a +:+ b) = lower a +:+ lower b.
Proof. induction a as [ | c a IH ]; simpl; [ reflexivity | now rewrite IH ]. Qed.






End PyStrProps.

(** ** The planner's parsing *)

Module DocumentPlannersProps.
Import Py DocumentPlanners.

(** A response without list markers, title or brace. *)
Definition plain_refusal : string := "I could not create a plan.".

(** C6, as stated, fails: the response [plain_refusal] is no structured
    data ([json.loads] is never even called on it), and parsing gives a
    plan with no section and [estimated_time = 0], not the plan of three
    sections. *)
Lemma parse_plan_response_without_brace :
  _parse_plan_response unit (fun _ => Raise "JSONDecodeError") plain_refusal
  = Ok (Built {| document_type := "document";
                 plan_title := "Document";
                 sections := [];
                 estimated_time := 0 |})
  /\ Built (Json := unit)
       {| document_type := "document"; plan_title := "Document";
          sections := []; estimated_time := 0 |}
     <> Built _create_basic_plan_structure.
Proof. split; [ vm_compute; reflexivity | discriminate ]. Qed.

Section Parsing.

Variable Json : Type.
Variable json_loads : string -> Result Json.

Lemma parse_whole_fails (response e : string) :
  PyStr.startswith "{" (PyStr.strip response) = true ->
  json_loads response = Raise e ->
  _parse_plan_response Json json_loads response
  = Ok (Built _create_basic_plan_structure).
Proof.
  intros Hs Hj. unfold _parse_plan_response. rewrite Hs, Hj. reflexivity.
Qed.

Lemma parse_embedded_fails (response e : string) :
  PyStr.startswith "{" (PyStr.strip response) = false ->
  PyStr.find "{" response <> -1 ->
  json_loads (PyStr.slice response (PyStr.find "{" response)
                (PyStr.rfind "}" response + 1)) = Raise e ->
  _parse_plan_response Json json_loads response
  = Ok (Built _create_basic_plan_structure).
Proof.
  intros Hs Hf Hj. unfold _parse_plan_response. rewrite Hs.
  apply Z.eqb_neq in Hf. rewrite Hf.
  pose proof (PyStrProps.rfind_lower "}" response) as Hr.
  assert (E : (PyStr.rfind "}" response + 1 =? -1) = false)
    by (apply Z.eqb_neq; lia).
  rewrite E. simpl. rewrite Hj. reflexivity.
Qed.

Lemma parse_without_brace (response : string) :
  PyStr.find "{" response = -1 ->
  _parse_plan_response Json json_loads response
  = Ok (Built (_extract_plan_from_text response)).
Proof.
  intros Hf. unfold _parse_plan_response.
  destruct (PyStr.startswith "{" (PyStr.strip response)) eqn:Hs.
  - apply PyStrProps.find_strip_startswith in Hs. contradiction.
  - rewrite Hf. reflexivity.
Qed.

Lemma parse_never_raises (response : string) :
  exists d, _parse_plan_response Json json_loads response = Ok d.
Proof.
  unfold _parse_plan_response.
  destruct (PyStr.startswith "{" (PyStr.strip response)).
  - destruct (json_loads response); simpl; eexists; reflexivity.
  - destruct (negb (PyStr.find "{" response =? -1)
              && negb (PyStr.rfind "}" response + 1 =? -1)).
    + destruct (json_loads _); simpl; eexists; reflexivity.
    + simpl. eexists; reflexivity.
Qed.

End Parsing.

(** C6, amended: parsing never raises. A response in which a brace occurs
    and on whose text [json.loads] fails (the whole response when, stripped,
    it begins with the brace; otherwise the text from the first opening
    brace to the last closing one) yields the fallback plan: exactly the
    three sections "Introduction", "Main Content", "Conclusion", in that
    order, with [estimated_time = 900]. A response with no opening brace is
    not given to [json.loads] at all: it yields what the line heuristics of
    [_extract_plan_from_text] read from it. *)
Theorem parse_plan_response_fallback
    (Json : Type) (json_loads : string -> Result Json) (response : string) :
  (exists d, _parse_plan_response Json json_loads response = Ok d)
  /\ (forall e,
        PyStr.startswith "{" (PyStr.strip response) = true ->
        json_loads response = Raise e ->
        _parse_plan_response Json json_loads response
        = Ok (Built _create_basic_plan_structure))
  /\ (forall e,
        PyStr.startswith "{" (PyStr.strip response) = false ->
        PyStr.find "{" response <> -1 ->
        json_loads (PyStr.slice response (PyStr.find "{" response)
                      (PyStr.rfind "}" response + 1)) = Raise e ->
        _parse_plan_response Json json_loads response
        = Ok (Built _create_basic_plan_structure))
  /\ (PyStr.find "{" response = -1 ->
      _parse_plan_response Json json_loads response
      = Ok (Built (_extract_plan_from_text response)))
  /\ map title (sections _create_basic_plan_structure)
     = ["Introduction"; "Main Content"; "Conclusion"]
  /\ estimated_time _create_basic_plan_structure = 900.
Proof.
  split; [ apply parse_never_raises | ].
  split; [ intros e; apply parse_whole_fails | ].
  split; [ intros e; apply parse_embedded_fails | ].
  split; [ apply parse_without_brace | ].
  split; reflexivity.
Qed.

(** A [json.loads] that accepts only the text of an empty object. *)
Definition loads_empty_object (s : string) : Result unit :=
  if String.eqb s "{}" then Ok tt else Raise "JSONDecodeError".

Lemma parse_plan_response_fallback_witness :
  _parse_plan_response unit loads_empty_object "Here is the plan: {title: Report"
  = Ok (Built _create_basic_plan_structure)
  /\ _parse_plan_response unit loads_empty_object "{not json"
     = Ok (Built _create_basic_plan_structure).
Proof.
  split.
  - destruct (parse_plan_response_fallback unit loads_empty_object
                "Here is the plan: {title: Report") as (_ & _ & H & _).
    apply (H "JSONDecodeError");
      [ vm_compute; reflexivity | vm_compute; discriminate | vm_compute; reflexivity ].
  - destruct (parse_plan_response_fallback unit loads_empty_object
                "{not json") as (_ & H & _).
    apply (H "JSONDecodeError"); vm_compute; reflexivity.
Defined.

End DocumentPlannersProps.

(** ** The reviewer's score *)

Module DocumentReviewersProps.
Import Py DocumentReviewers.

(** *** What a successful match has read *)

(** [cls*] from [st] can end in [st']: it has read some characters of the
    class, pushing each on the open group. *)
Inductive star_run (cls : ascii -> bool) : mstate -> mstate -> Prop :=
| star_stop st : star_run cls st st
| star_step c s og g1 st' :
    cls c = true ->
    star_run cls (mkMstate s (push c og) g1) st' ->
    star_run cls (mkMstate (String c s) og g1) st'.

(** [r] from [st] can end in [st']. *)
Fixpoint run (r : regex) (st st' : mstate) : Prop :=
  match r with
  | Lit l =>
      lit_match l (rest st) (open_group st) = Some (rest st', open_group st')
      /\ group1 st' = group1 st
  | Star cls => star_run cls st st'
  | Plus cls =>
      exists c s,
        rest st = String c s /\ cls c = true
        /\ star_run cls (mkMstate s (push c (open_group st)) (group1 st)) st'
  | Opt r' => run r' st st' \/ st' = st
  | Group r' =>
      exists st1,
        run r' (mkMstate (rest st) (Some EmptyString) (group1 st)) st1
        /\ st' = mkMstate (rest st1) None (option_map PyStr.rev (open_group st1))
  | Seq r1 r2 => exists st1, run r1 st st1 /\ run r2 st1 st'
  end.

Lemma mstate_eta (st : mstate) :
  mkMstate (rest st) (open_group st) (group1 st) = st.
Proof. now destruct st. Qed.

Lemma star_match_sound {R} cls s og g1 (k : mstate -> option R) x :
  star_match R cls s og g1 k = Some x ->
  exists st', star_run cls (mkMstate s og g1) st' /\ k st' = Some x.
Proof.
  revert og. induction s as [ | c s IH ]; intros og; simpl.
  - intros H. eexists. split; [ apply star_stop | exact H ].
  - destruct (cls c) eqn:Ec.
    + destruct (star_match R cls s (push c og) g1 k) as [y | ] eqn:E.
      * intros Hx. inversion Hx; subst y.
        destruct (IH _ E) as [st' [Hrun Hk]].
        exists st'. split; [ now apply star_step | exact Hk ].
      * intros H. eexists. split; [ apply star_stop | exact H ].
    + intros H. eexists. split; [ apply star_stop | exact H ].
Qed.

(** The matcher accepts only what [run] allows. *)
Lemma rmatch_sound {R} (r : regex) :
  forall st (k : mstate -> option R) x,
    rmatch R r st k = Some x ->
    exists st', run r st st' /\ k st' = Some x.
Proof.
  induction r as [ l | cls | cls | r IH | r IH | r1 IH1 r2 IH2 ];
    intros st k x; simpl.
  - destruct (lit_match l (rest st) (open_group st)) as [[s' og'] | ] eqn:E;
      [ | discriminate ].
    intros H. exists (mkMstate s' og' (group1 st)). simpl. auto.
  - intros H. apply star_match_sound in H. now rewrite mstate_eta in H.
  - destruct (rest st) as [ | c s ] eqn:Er; [ discriminate | ].
    destruct (cls c) eqn:Ec; [ | discriminate ].
    intros H. apply star_match_sound in H. destruct H as [st' [Hrun Hk]].
    exists st'. split; [ | exact Hk ]. exists c, s. auto.
  - destruct (rmatch R r st k) as [y | ] eqn:E.
    + intros Hx. inversion Hx; subst y.
      destruct (IH _ _ _ E) as [st' [Hrun Hk]]. exists st'. auto.
    + intros H. exists st. auto.
  - intros H. apply IH in H. destruct H as [st1 [Hrun Hk]].
    eexists. split; [ | exact Hk ]. exists st1. auto.
  - intros H. apply IH1 in H. destruct H as [st1 [Hrun1 H]].
    apply IH2 in H. destruct H as [st' [Hrun2 Hk]].
    exists st'. split; [ | exact Hk ]. exists st1. auto.
Qed.

(** *** The captured group is a number *)

(** The open group holds at least one character, all of them digits. *)
Definition digits_open (st : mstate) : Prop :=
  exists acc, open_group st = Some acc
              /\ acc <> EmptyString /\ all_digits acc = true.

Lemma star_run_digits st st' :
  star_run PyStr.isdigit st st' -> digits_open st -> digits_open st'.
Proof.
  induction 1 as [ st | c s og g1 st' Hc Hrun IH ]; intros Hd; [ exact Hd | ].
  apply IH. destruct Hd as [acc [Ho [Hne Hall]]]. simpl in Ho. subst og.
  exists (String c acc). simpl. rewrite Hc, Hall. repeat split. discriminate.
Qed.

Lemma all_digits_rev_append (s acc : string) :
  all_digits s = true -> all_digits acc = true ->
  all_digits (PyStr.rev_append s acc) = true.
Proof.
  revert acc. induction s as [ | c s IH ]; intros acc Hs Ha; simpl in *.
  - exact Ha.
  - apply andb_true_iff in Hs. destruct Hs as [Hc Hs].
    apply IH; [ exact Hs | ]. simpl. now rewrite Hc, Ha.
Qed.

Lemma rev_append_nonempty (s acc : string) :
  acc <> EmptyString -> PyStr.rev_append s acc <> EmptyString.
Proof.
  revert acc. induction s as [ | c s IH ]; intros acc Ha; simpl.
  - exact Ha.
  - apply IH. discriminate.
Qed.

Lemma rev_nonempty (s : string) : s <> EmptyString -> PyStr.rev s <> EmptyString.
Proof.
  destruct s as [ | c s ]; [ congruence | ]. intros _. unfold PyStr.rev. simpl.
  apply rev_append_nonempty. discriminate.
Qed.

(** A closed group that [int] reads as a number. *)
Definition number_captured (st : mstate) : Prop :=
  exists d, group1 st = Some d /\ d <> EmptyString /\ all_digits d = true.

Lemma run_digit_group st st' :
  run (Group (Plus PyStr.isdigit)) st st' -> number_captured st'.
Proof.
  simpl. intros [st1 [[c [s [Hr [Hc Hrun]]]] ->]].
  apply star_run_digits in Hrun.
  - destruct Hrun as [acc [Ho [Hne Hall]]]. exists (PyStr.rev acc).
    simpl. rewrite Ho. simpl. split; [ reflexivity | ].
    split; [ now apply rev_nonempty | ].
    unfold PyStr.rev. now apply all_digits_rev_append.
  - exists (String c EmptyString). simpl. rewrite Hc. repeat split. discriminate.
Qed.

Lemma run_opt_lit_keeps l st st' :
  run (Opt (Lit l)) st st' -> group1 st' = group1 st.
Proof. simpl. intros [[_ H] | ->]; [ exact H | reflexivity ]. Qed.

Lemma match_at_captures_number (p : regex) (s : string) (g : option string) :
  In p patterns -> match_at p s = Some g ->
  exists d, g = Some d /\ d <> EmptyString /\ all_digits d = true.
Proof.
  unfold match_at. intros Hp H. apply rmatch_sound in H.
  destruct H as [st' [Hrun Hk]]. inversion Hk; subst g. clear Hk.
  destruct Hp as [<- | [<- | [<- | []]]].
  - destruct Hrun as (st1 & _ & st2 & _ & st3 & Hg & Ho).
    apply run_digit_group in Hg. apply run_opt_lit_keeps in Ho.
    unfold number_captured in Hg. now rewrite <- Ho in Hg.
  - destruct Hrun as (st1 & Hg & _ & Hl).
    apply run_digit_group in Hg. unfold number_captured in Hg.
    now rewrite <- Hl in Hg.
  - destruct Hrun as (st1 & _ & st2 & _ & Hg).
    now apply run_digit_group in Hg.
Qed.

Lemma search_captures_number (p : regex) (s : string) (g : option string) :
  In p patterns -> search p s = Some g ->
  exists d, g = Some d /\ d <> EmptyString /\ all_digits d = true.
Proof.
  intros Hp. induction s as [ | c s IH ]; simpl.
  - destruct (match_at p "") as [g' | ] eqn:E; [ | discriminate ].
    intros H. inversion H; subst g'. now apply (match_at_captures_number p "").
  - destruct (match_at p (String c s)) as [g' | ] eqn:E; [ | exact IH ].
    intros H. inversion H; subst g'.
    now apply (match_at_captures_number p (String c s)).
Qed.

Lemma int_of_number (d : string) :
  d <> EmptyString -> all_digits d = true -> int (Some d) = Ok (int_digits d 0).
Proof.
  intros Hne Hall. unfold int. rewrite Hall.
  destruct d; [ congruence | reflexivity ].
Qed.

(** [min(max(score, 1), 10)] *)
Definition clamp (score : Z) : Z := Z.min (Z.max score 1) 10.

Lemma clamp_range (score : Z) : 1 <= clamp score <= 10.
Proof. unfold clamp. lia. Qed.

(** The loop over a list of the patterns ends in a clamped number or in
    the default. *)
Lemma extract_score_loop_range (ps : list regex) (lowered : string) :
  (forall p, In p ps -> In p patterns) ->
  exists n, extract_score_loop ps lowered = Ok n /\ 1 <= n <= 10.
Proof.
  induction ps as [ | p ps IH ]; intros Hps; simpl.
  - exists 7. split; [ reflexivity | lia ].
  - destruct (search p lowered) as [g | ] eqn:E.
    + destruct (search_captures_number p lowered g) as (d & -> & Hne & Hall);
        [ apply Hps; now left | exact E | ].
      rewrite (int_of_number d Hne Hall). simpl.
      eexists. split; [ reflexivity | apply clamp_range ].
    + apply IH. intros q Hq. apply Hps. now right.
Qed.



(** *** The shape of the text a pattern matches *)

Import PyStrProps.






















(** *** A text that contains [Score: 9/10] *)



(** *** A text that contains [rating: 13] *)









(** *** The first match *)









(** The patterns are tried in the order of the list, not in the order of
    the text. *)
Example first_pattern_before_first_position :
  _extract_score "7/10 overall. Score: 3" = Ok 3.
Proof. vm_compute. reflexivity. Qed.




End DocumentReviewersProps.

(** ** The orchestrator *)

Module DocumentOrchestratorsProps.
Import Py AgentStates AgentConfigs LLMRouters DocumentOrchestrators.

(** *** The rule-based analysis *)

(** The three flags of an analysis: planning, writing, review. *)
Definition flags (a : Analysis) : bool * bool * bool :=
  (requires_planning a, requires_writing a, requires_review a).








(** The tests are substring tests: "hi" occurs in "this". *)
Example short_request_read_as_greeting :
  is_simple_greeting (normalized "write this") = true
  /\ flags (fallback_analysis "write this") = (false, false, false).
Proof. vm_compute. split; reflexivity. Qed.



(** *** The request pipeline *)

Section Pipeline.

Variable isoformat : Z -> string.
Variable ExecutionResult : Type.
Variable analyze_request : M Analysis.
Variable _handle_planning : Analysis -> M bool.
Variable _execute_plan : Analysis -> M ExecutionResult.
Variable _determine_preview_update : ExecutionResult -> M bool.
Variable _generate_final_response :
  Analysis -> ExecutionResult -> bool -> M string.

(** The callback loop only writes to the error log. *)
Lemma notify_manager callbacks activity w :
  agent_state_manager (notify callbacks activity w) = agent_state_manager w.
Proof.
  revert w. induction callbacks as [ | cb rest IH ]; intros w; simpl.
  - reflexivity.
  - destruct (cb activity); rewrite IH; reflexivity.
Qed.

Lemma notify_activities callbacks activity w :
  process_activities (notify callbacks activity w) = process_activities w.
Proof.
  revert w. induction callbacks as [ | cb rest IH ]; intros w; simpl.
  - reflexivity.
  - destruct (cb activity); rewrite IH; reflexivity.
Qed.










End Pipeline.



End DocumentOrchestratorsProps.

(** * Further properties *)

(** ** The state manager over sequences of calls *)

Module AgentStatesInvariants.
Import AgentStates AgentStatesProps.

(** One call of a method that changes the manager. *)
Inductive call : Type :=
| TransitionTo (now : string) (new_state : AgentState) (agent_type : string)
    (message : option string)
| AddMessage (m : AgentMessage)
| GetMessages (clear : bool).

Definition perform (self : AgentStateManager) (c : call) : AgentStateManager :=
  match c with
  | TransitionTo now new_state agent_type message =>
      snd (transition_to self now new_state agent_type message)
  | AddMessage m => add_message self m
  | GetMessages clear => snd (get_messages self clear)
  end.

(** The manager a new one becomes by a sequence of calls. *)
Definition after (calls : list call) : AgentStateManager :=
  fold_left perform calls AgentStates.init.

(** A log entry records a change of state. *)
Definition real_transition (e : Transition) : Prop :=
  exists s, from_state e = Some s /\ to_state e <> state_value s.

(** What holds of a manager between calls. *)
Record consistent (m : AgentStateManager) : Prop := mkConsistent {
  history_from : map from_state (state_history m) = map Some (previous_states m);
  history_to :
    map to_state (state_history m)
    = map state_value (tl (previous_states m ++ [current_state m]));
  history_real : Forall real_transition (state_history m);
  history_agent : option_map agent (last (state_history m)) = current_agent m;
  history_last :
    forall e, last (state_history m) = Some e ->
              to_state e = state_value (current_state m);
  history_none : state_history m = [] -> current_state m = IDLE
}.

(** The messages the clearing calls of [get_messages] return, in order. *)
Fixpoint handed_out (self : AgentStateManager) (calls : list call)
  : list AgentMessage :=
  match calls with
  | [] => []
  | c :: rest =>
      match c with
      | GetMessages true => fst (get_messages self true)
      | _ => []
      end ++ handed_out (perform self c) rest
  end.

(** The messages given to [add_message], in order. *)
Fixpoint added (calls : list call) : list AgentMessage :=
  match calls with
  | [] => []
  | AddMessage m :: rest => m :: added rest
  | _ :: rest => added rest
  end.

(** A chain of transitions that [can_transition_to] allows. *)
Inductive allowed_path : AgentState -> AgentState -> Prop :=
| path_here (s : AgentState) : allowed_path s s
| path_step (s t u : AgentState) :
    state_in t (allowed_transitions s) = true ->
    allowed_path t u -> allowed_path s u.

Lemma state_value_inj (s t : AgentState) : state_value s = state_value t -> s = t.
Proof. destruct s, t; simpl; intros H; try reflexivity; discriminate H. Qed.

Lemma tl_snoc {A} (xs : list A) (x y : A) :
  tl ((xs ++ [x]) ++ [y]) = tl (xs ++ [x]) ++ [y].
Proof. destruct xs; reflexivity. Qed.

Lemma consistent_init : consistent AgentStates.init.
Proof. split; try reflexivity; try discriminate. constructor. Qed.

Lemma consistent_perform (m : AgentStateManager) (c : call) :
  consistent m -> consistent (perform m c).
Proof.
  intros [Hf Ht Hr Ha Hl Hn]. destruct c as [now t a msg | x | clear].
  - cbn [perform].
    destruct (AgentState_eqb (current_state m) t) eqn:E.
    + apply AgentState_eqb_eq in E. subst t. rewrite transition_to_same.
      now split.
    + apply AgentState_eqb_neq in E.
      rewrite transition_to_other by congruence. cbn [snd].
      split; cbn [state_history previous_states current_state current_agent].
      * rewrite !map_app, Hf. reflexivity.
      * rewrite tl_snoc, !map_app, Ht. reflexivity.
      * apply Forall_app. split; [ exact Hr | ].
        constructor; [ | constructor ].
        exists (current_state m). split; [ reflexivity | ].
        cbn [entry to_state]. intros H. apply state_value_inj in H. congruence.
      * rewrite last_snoc. reflexivity.
      * intros e. rewrite last_snoc. intros H. inversion H. reflexivity.
      * intros H. destruct (state_history m); discriminate H.
  - now split.
  - cbn [perform]. destruct clear; now split.
Qed.

Lemma consistent_fold (calls : list call) (m : AgentStateManager) :
  consistent m -> consistent (fold_left perform calls m).
Proof.
  revert m. induction calls as [ | c calls IH]; intros m H; [ exact H | ].
  apply IH, consistent_perform, H.
Qed.

Lemma handed_out_fold (calls : list call) (m : AgentStateManager) :
  handed_out m calls ++ message_queue (fold_left perform calls m)
  = message_queue m ++ added calls.
Proof.
  revert m. induction calls as [ | c calls IH]; intros m.
  - cbn. now rewrite app_nil_r.
  - cbn [handed_out added fold_left]. rewrite <- app_assoc, IH.
    destruct c as [now t a msg | x | [ | ]]; cbn [perform].
    + destruct (AgentState_eqb (current_state m) t) eqn:E.
      * apply AgentState_eqb_eq in E. subst t. now rewrite transition_to_same.
      * apply AgentState_eqb_neq in E.
        rewrite transition_to_other by congruence. reflexivity.
    + cbn. now rewrite <- app_assoc.
    + reflexivity.
    + reflexivity.
Qed.

(** X1: whatever sequence of calls a new manager has served, its log and
    its list of previous states agree entry by entry: the log has one
    entry per previous state, an entry's [from_state] is that state and its
    [to_state] the value of the state that followed it; no entry records a
    transition from a state to itself; and [get_state_info] reports as
    last transition the one into the current state, made by the current
    agent (none only while the manager has never left [IDLE]). *)
Theorem state_history_mirrors_previous_states (calls : list call) :
  let m := after calls in
  length (state_history m) = length (previous_states m)
  /\ map from_state (state_history m) = map Some (previous_states m)
  /\ map to_state (state_history m)
     = map state_value (tl (previous_states m ++ [current_state m]))
  /\ Forall real_transition (state_history m)
  /\ match last_transition (get_state_info m) with
     | Some e =>
         to_state e = info_current_state (get_state_info m)
         /\ Some (agent e) = info_current_agent (get_state_info m)
     | None =>
         current_state m = IDLE /\ info_current_agent (get_state_info m) = None
     end.
Proof.
  intros m.
  destruct (consistent_fold calls AgentStates.init consistent_init)
    as [Hf Ht Hr Ha Hl Hn].
  fold (after calls) in Hf, Ht, Hr, Ha, Hl, Hn. fold m in Hf, Ht, Hr, Ha, Hl, Hn.
  split.
  { rewrite <- (length_map from_state), Hf. apply length_map. }
  split; [ exact Hf | ]. split; [ exact Ht | ]. split; [ exact Hr | ].
  cbn [get_state_info last_transition info_current_state info_current_agent].
  unfold last_or_none.
  destruct (last (state_history m)) as [e | ] eqn:E.
  - split; [ now apply Hl | ]. rewrite <- Ha. reflexivity.
  - split; [ | now rewrite <- Ha ].
    apply Hn. destruct (state_history m) as [ | x xs] eqn:Hh using rev_ind;
      [ reflexivity | ].
    rewrite last_snoc in E. discriminate E.
Qed.

(** X2: every message given to [add_message] is handed out exactly once
    and in the order of arrival: after any sequence of calls, the
    messages returned by the clearing calls of [get_messages], followed
    by those still queued, are the messages added. Transitions and
    non-clearing reads neither drop nor repeat a message. *)
Theorem messages_are_handed_out_once (calls : list call) :
  handed_out AgentStates.init calls ++ message_queue (after calls)
  = added calls.
Proof. unfold after. now rewrite handed_out_fold. Qed.

(** X3: the table of [can_transition_to] has no dead end and no
    unreachable state: from every state every state is reached by a chain
    of allowed transitions; and it never allows the transition from a
    state to itself. *)
Theorem allowed_transitions_connected (m : AgentStateManager) (t : AgentState) :
  allowed_path (current_state m) t
  /\ can_transition_to m (current_state m) = false.
Proof.
  split; [ | unfold can_transition_to; now destruct (current_state m) ].
  assert (Hin : forall s, allowed_path s IDLE).
  { assert (Hu : allowed_path UPDATING_PREVIEW IDLE)
      by (eapply (path_step _ IDLE); [ reflexivity | constructor ]).
    assert (Hw : allowed_path WRITING IDLE)
      by (eapply (path_step _ UPDATING_PREVIEW); [ reflexivity | exact Hu ]).
    assert (Ha : allowed_path ANALYZING IDLE)
      by (eapply (path_step _ WRITING); [ reflexivity | exact Hw ]).
    intros []; try assumption.
    - constructor.
    - eapply (path_step _ WRITING); [ reflexivity | exact Hw ].
    - eapply (path_step _ UPDATING_PREVIEW); [ reflexivity | exact Hu ].
    - eapply (path_step _ IDLE); [ reflexivity | constructor ].
    - eapply (path_step _ IDLE); [ reflexivity | constructor ]. }
  assert (Hout : forall u, allowed_path ANALYZING u -> allowed_path IDLE u)
    by (intros u; apply (path_step _ ANALYZING); reflexivity).
  assert (Ht : allowed_path IDLE t).
  { assert (Hw : forall u, allowed_path WRITING u -> allowed_path IDLE u)
      by (intros u H; apply Hout; eapply (path_step _ WRITING);
          [ reflexivity | exact H ]).
    assert (Hr : forall u, allowed_path REVIEWING u -> allowed_path IDLE u)
      by (intros u H; apply Hw; eapply (path_step _ REVIEWING);
          [ reflexivity | exact H ]).
    destruct t.
    - constructor.
    - apply Hout. constructor.
    - apply Hout. eapply (path_step _ PLANNING); [ reflexivity | constructor ].
    - apply Hw. constructor.
    - apply Hr. constructor.
    - apply Hw. eapply (path_step _ UPDATING_PREVIEW); [ reflexivity | constructor ].
    - apply Hr. eapply (path_step _ WAITING_FEEDBACK); [ reflexivity | constructor ].
    - apply Hout. eapply (path_step _ ERROR); [ reflexivity | constructor ]. }
  clear Hout. revert Ht. generalize (Hin (current_state m)).
  generalize (current_state m). intros s Hs. induction Hs as [ | s x u Hx Hs IH].
  - trivial.
  - intros H. eapply path_step; [ exact Hx | now apply IH ].
Qed.

(** X4: the preview decision is monotone: a call that answers [True]
    still answers [True] when more time has passed since the last update
    or more content has changed, everything else being equal. *)
Theorem should_update_preview_monotone (self : PreviewUpdateDecision)
    (s : AgentState) (a : AgentAction) (t t' c c' : Z) (u : bool) :
  t <= t' -> c <= c' ->
  should_update_preview self s a t c u = true ->
  should_update_preview self s a t' c' u = true.
Proof.
  intros Ht Hc. unfold should_update_preview.
  destruct u; [ trivial | ].
  destruct (state_in s (force_update_triggers self)); [ trivial | ].
  destruct (AgentAction_eqb a REVIEW_CONTENT);
    [ intros _; repeat match goal with |- (if ?b then _ else _) = _ => destruct b end;
      reflexivity | ].
  destruct (c >? 100) eqn:E1, (t >=? min_update_interval self) eqn:E2;
    cbn [andb]; try (destruct (AgentAction_eqb a WRITE_CONTENT); discriminate).
  - assert (E1' : (c' >? 100) = true) by lia.
    assert (E2' : (t' >=? min_update_interval self) = true) by lia.
    now rewrite E1', E2'.
  - assert (E2' : (t' >=? min_update_interval self) = true) by lia.
    rewrite E2'. destruct (AgentAction_eqb a WRITE_CONTENT); [ | discriminate ].
    intros _. now destruct (c' >? 100).
Qed.

Lemma should_update_preview_monotone_witness :
  should_update_preview preview_init WRITING WRITE_CONTENT 45 250 false = true.
Proof.
  apply (should_update_preview_monotone preview_init WRITING WRITE_CONTENT
           30 45 0 250 false); [ lia | lia | reflexivity ].
Defined.

End AgentStatesInvariants.

(** ** Configurations: round trip, updates, validation *)

Module AgentConfigsUpdates.
Import Py AgentConfigs AgentConfigsProps.

Lemma from_dict_to_dict (c : AgentConfig) : from_dict (to_dict c) = Ok c.
Proof. destruct c. vm_compute. reflexivity. Qed.

Lemma to_dict_keys (c : AgentConfig) (k : string) :
  k ∈ field_names <-> is_Some (to_dict c !! k).
Proof.
  split.
  - intros Hk. unfold field_names in Hk.
    repeat (apply elem_of_cons in Hk as [-> | Hk]; [ eexists; reflexivity | ]).
    now apply elem_of_nil in Hk.
  - intros [v Hv]. destruct (decide (k ∈ field_names)) as [ | Hout]; [ assumption | ].
    exfalso. unfold to_dict in Hv.
    rewrite (not_elem_of_list_to_map_1 _ k) in Hv; [ discriminate | exact Hout ].
Qed.

Lemma from_dict_keys (data : gmap string PyVal) (c : AgentConfig) (k : string) :
  from_dict data = Ok c -> is_Some (data !! k) -> k ∈ field_names.
Proof.
  intros H [v Hv]. destruct (decide (k ∈ field_names)) as [ | Hout]; [ assumption | ].
  destruct (from_dict_unknown_key data k v Hv Hout) as [e He]. congruence.
Qed.

Lemma from_dict_fields (data : gmap string PyVal) (c : AgentConfig)
    (k : string) (v : PyVal) :
  from_dict data = Ok c -> data !! k = Some v -> to_dict c !! k = Some v.
Proof.
  intros H Hv.
  assert (Hk : k ∈ field_names) by (eapply from_dict_keys; eauto).
  unfold from_dict in H.
  destruct (forallb _ _); [ | discriminate H ].
  destruct (str_field data "orchestrator_llm" _) as [x1 | ] eqn:E1; [ | discriminate H ].
  destruct (str_field data "orchestrator_model" _) as [x2 | ] eqn:E2; [ | discriminate H ].
  destruct (str_field data "planner_llm" _) as [x3 | ] eqn:E3; [ | discriminate H ].
  destruct (str_field data "planner_model" _) as [x4 | ] eqn:E4; [ | discriminate H ].
  destruct (str_field data "writer_llm" _) as [x5 | ] eqn:E5; [ | discriminate H ].
  destruct (str_field data "writer_model" _) as [x6 | ] eqn:E6; [ | discriminate H ].
  destruct (str_field data "reviewer_llm" _) as [x7 | ] eqn:E7; [ | discriminate H ].
  destruct (str_field data "reviewer_model" _) as [x8 | ] eqn:E8; [ | discriminate H ].
  destruct (str_field data "fallback_llm" _) as [x9 | ] eqn:E9; [ | discriminate H ].
  destruct (str_field data "fallback_model" _) as [x10 | ] eqn:E10; [ | discriminate H ].
  destruct (int_field data "max_retries" _) as [x11 | ] eqn:E11; [ | discriminate H ].
  destruct (int_field data "timeout_seconds" _) as [x12 | ] eqn:E12; [ | discriminate H ].
  cbn [bind] in H. injection H as <-.
  unfold str_field in E1, E2, E3, E4, E5, E6, E7, E8, E9, E10.
  unfold int_field in E11, E12.
  unfold field_names in Hk.
  repeat (apply elem_of_cons in Hk as [-> | Hk];
          [ match goal with
            | E : context [ data !! ?k ] |- _ !! ?k = _ =>
                rewrite Hv in E; destruct v; inversion E; reflexivity
            end | ]).
  now apply elem_of_nil in Hk.
Qed.

Lemma str_in_valid (p : string) :
  str_in p valid_providers = true
  <-> p = "openai" \/ p = "claude" \/ p = "google" \/ p = "mock".
Proof.
  unfold str_in, valid_providers. cbn [map all_providers provider_value existsb].
  rewrite !orb_true_iff, !String.eqb_eq. intuition discriminate.
Qed.

(** X5: a configuration survives the round trip through its dictionary. *)
Theorem from_dict_inverts_to_dict (c : AgentConfig) :
  from_dict (to_dict c) = Ok c
  /\ forall k, is_Some (to_dict c !! k) <-> k ∈ field_names.
Proof.
  split; [ apply from_dict_to_dict | ]. intros k. symmetry. apply to_dict_keys.
Qed.

(** X6: when [update_config] returns, the configuration it stored for the
    document is the one the document had, with exactly the updates
    applied: its dictionary is the old dictionary overridden by
    [updates]. *)
Theorem update_config_applies_updates (m m' : AgentConfigManager)
    (updates : gmap string PyVal) (d : option Z) :
  update_config m updates d = Ok m' ->
  m' = set_config m (get_config m' d) d
  /\ to_dict (get_config m' d) = updates ∪ to_dict (get_config m d).
Proof.
  unfold update_config. intros H.
  destruct (from_dict (updates ∪ to_dict (get_config m d))) as [c | e] eqn:E;
    [ | discriminate H ].
  cbn [bind] in H. injection H as <-. rewrite get_set_config.
  split; [ reflexivity | ].
  apply map_eq. intros k.
  destruct ((updates ∪ to_dict (get_config m d)) !! k) as [v | ] eqn:Hk.
  - now apply (from_dict_fields _ _ _ _ E).
  - destruct (to_dict c !! k) as [v | ] eqn:Hc; [ | reflexivity ].
    assert (Hin : k ∈ field_names) by (apply (to_dict_keys c); eauto).
    apply (to_dict_keys (get_config m d)) in Hin. destruct Hin as [x Hx].
    apply lookup_union_None in Hk. destruct Hk as [_ Hk]. congruence.
Qed.

Lemma update_config_applies_updates_witness :
  to_dict config_zero_retries = zero_retries ∪ to_dict default_AgentConfig.
Proof.
  apply (update_config_applies_updates AgentConfigs.init
           (set_config AgentConfigs.init config_zero_retries (Some 7))
           zero_retries (Some 7)).
  vm_compute. reflexivity.
Defined.

(** X7: an update for a document (a nonzero identifier) leaves the default
    configuration and what every other document gets as they were; an
    update of the default leaves every stored document configuration as
    it was. *)
Theorem update_config_touches_one_entry (m m' : AgentConfigManager)
    (updates : gmap string PyVal) (d : option Z) :
  update_config m updates d = Ok m' ->
  if truthy d then
    default_config m' = default_config m
    /\ forall z, Some z <> d -> get_config m' (Some z) = get_config m (Some z)
  else _document_configs m' = _document_configs m.
Proof.
  unfold update_config. intros H.
  destruct (from_dict _) as [c | e]; [ | discriminate H ].
  cbn [bind] in H. injection H as <-.
  destruct d as [z0 | ]; [ | reflexivity ].
  unfold set_config. destruct (truthy (Some z0)) eqn:E; [ | reflexivity ].
  split; [ reflexivity | ].
  intros z Hz. unfold get_config. cbn [default_config _document_configs].
  rewrite lookup_insert_ne by congruence. reflexivity.
Qed.

Lemma update_config_touches_one_entry_witness :
  default_config (set_config AgentConfigs.init config_zero_retries (Some 7))
  = default_AgentConfig.
Proof.
  apply (update_config_touches_one_entry AgentConfigs.init
           (set_config AgentConfigs.init config_zero_retries (Some 7))
           zero_retries (Some 7)).
  vm_compute. reflexivity.
Defined.

(** X8: an update with no entries is accepted and changes what no call of
    [get_config] returns, yet it is not without effect: for a document it
    stores a copy of the configuration the document had, so that a later
    change of the default no longer reaches this document. *)
Theorem empty_update_pins_configuration (m : AgentConfigManager) (z : Z) :
  z <> 0 ->
  exists m',
    update_config m ∅ (Some z) = Ok m'
    /\ (forall d, get_config m' d = get_config m d)
    /\ (forall c, get_config (set_config m' c None) (Some z)
                  = get_config m (Some z))
    /\ (_document_configs m !! z = None ->
        forall c, get_config (set_config m c None) (Some z) = c).
Proof.
  intros Hz. eexists. split.
  { unfold update_config. rewrite (left_id ∅ (∪)), from_dict_to_dict.
    reflexivity. }
  assert (Ht := truthy_nonzero z Hz).
  split; [ | split ].
  - intros [z' | ]; [ | unfold set_config; now rewrite Ht ].
    destruct (decide (z' = z)) as [-> | Hne].
    + apply get_set_config.
    + unfold set_config, get_config. rewrite Ht.
      cbn [default_config _document_configs].
      rewrite lookup_insert_ne by congruence. reflexivity.
  - intros c. unfold set_config at 1. unfold get_config at 1. rewrite Ht.
    unfold set_config. rewrite Ht. cbn [default_config _document_configs].
    rewrite lookup_insert_eq. reflexivity.
  - intros Hnone c. unfold set_config, get_config. rewrite Ht.
    cbn [default_config _document_configs]. now rewrite Hnone.
Qed.

Lemma empty_update_pins_configuration_witness :
  exists m',
    update_config AgentConfigs.init ∅ (Some 7) = Ok m'
    /\ get_config (set_config m' config_zero_retries None) (Some 7)
       = default_AgentConfig.
Proof.
  destruct (empty_update_pins_configuration AgentConfigs.init 7)
    as (m' & H & _ & Hp & _); [ discriminate | ].
  exists m'. split; [ exact H | apply Hp ].
Defined.

(** X9: [validate_config] accepts a configuration exactly when the
    provider of each of the four agents is one of the four known names,
    [max_retries >= 1] and [timeout_seconds >= 5]; the fallback provider
    is not looked at. It answers [(True, None)] or [False] with a
    message, never anything else. *)
Theorem validate_config_accepts_exactly (m : AgentConfigManager)
    (c : AgentConfig) :
  (validate_config m c = (true, None)
   <-> (forall a, let p := fst (get_llm_for_agent c (Some a)) in
                  p = "openai" \/ p = "claude" \/ p = "google" \/ p = "mock")
       /\ 1 <= max_retries c /\ 5 <= timeout_seconds c)
  /\ (validate_config m c = (true, None)
      \/ exists msg, validate_config m c = (false, Some msg)).
Proof.
  unfold validate_config, all_agent_types.
  cbn [check_providers get_llm_for_agent].
  pose proof (str_in_valid (orchestrator_llm c)) as H1.
  pose proof (str_in_valid (planner_llm c)) as H2.
  pose proof (str_in_valid (writer_llm c)) as H3.
  pose proof (str_in_valid (reviewer_llm c)) as H4.
  assert (Hall : (forall a, let p := fst (get_llm_for_agent c (Some a)) in
                   p = "openai" \/ p = "claude" \/ p = "google" \/ p = "mock")
                 <-> str_in (orchestrator_llm c) valid_providers = true
                     /\ str_in (planner_llm c) valid_providers = true
                     /\ str_in (writer_llm c) valid_providers = true
                     /\ str_in (reviewer_llm c) valid_providers = true).
  { rewrite H1, H2, H3, H4. split.
    - intros H. repeat split;
        [ apply (H ORCHESTRATOR) | apply (H PLANNER) | apply (H WRITER)
        | apply (H REVIEWER) ].
    - intros (A & B & C & D) []; assumption. }
  rewrite Hall. clear Hall H1 H2 H3 H4.
  destruct (str_in (orchestrator_llm c) valid_providers); cbn [negb];
    [ | split; [ split; [ discriminate | intros [(? & _) _]; discriminate ]
               | right; eexists; reflexivity ] ].
  destruct (str_in (planner_llm c) valid_providers); cbn [negb];
    [ | split; [ split; [ discriminate | intros [(_ & ? & _) _]; discriminate ]
               | right; eexists; reflexivity ] ].
  destruct (str_in (writer_llm c) valid_providers); cbn [negb];
    [ | split; [ split; [ discriminate | intros [(_ & _ & ? & _) _]; discriminate ]
               | right; eexists; reflexivity ] ].
  destruct (str_in (reviewer_llm c) valid_providers); cbn [negb];
    [ | split; [ split; [ discriminate | intros [(_ & _ & _ & ?) _]; discriminate ]
               | right; eexists; reflexivity ] ].
  destruct (max_retries c <? 1) eqn:E1.
  { split; [ split; [ discriminate | intros (_ & ? & _); lia ]
           | right; eexists; reflexivity ]. }
  destruct (timeout_seconds c <? 5) eqn:E2.
  { split; [ split; [ discriminate | intros (_ & _ & ?); lia ]
           | right; eexists; reflexivity ]. }
  split; [ | now left ].
  split; [ intros _ | reflexivity ]. repeat split; lia.
Qed.

End AgentConfigsUpdates.

(** ** More facts about the string operations *)

Module PyStrFacts.
Import PyStr PyStrProps.

Lemma string_app_cons (x : ascii) (a b : string) :
  String x a +:+ b = String x (a +:+ b).
Proof. reflexivity. Qed.

Lemma string_app_nil_r (a : string) : a +:+ "" = a.
Proof. induction a as [ | x a IH]; [ reflexivity | ]. rewrite string_app_cons. now f_equal. Qed.

Lemma string_app_assoc (a b c : string) : (a +:+ b) +:+ c = a +:+ (b +:+ c).
Proof.
  induction a as [ | x a IH ]; [ reflexivity | ].
  rewrite !string_app_cons. f_equal. exact IH.
Qed.

(** The text with the given characters. *)
Fixpoint text (l : list ascii) : string :=
  match l with
  | [] => EmptyString
  | c :: l' => String c (text l')
  end.

Lemma chars_text (l : list ascii) : chars (text l) = l.
Proof. induction l as [ | c l IH]; [ reflexivity | ]. simpl. now f_equal. Qed.

Lemma text_chars (s : string) : text (chars s) = s.
Proof. induction s as [ | c s IH]; [ reflexivity | ]. simpl. now f_equal. Qed.

Lemma text_app (a b : list ascii) : text (a ++ b) = text a +:+ text b.
Proof. apply chars_inj. now rewrite chars_app, !chars_text. Qed.

Lemma chars_rev_append_list (s acc : string) :
  chars (rev_append s acc) = List.rev (chars s) ++ chars acc.
Proof.
  revert acc. induction s as [ | c s IH]; intros acc; [ reflexivity | ].
  cbn [rev_append chars List.rev]. rewrite IH, <- app_assoc. reflexivity.
Qed.

Lemma chars_rev_list (s : string) : chars (rev s) = List.rev (chars s).
Proof. unfold rev. rewrite chars_rev_append_list. apply app_nil_r. Qed.

Lemma rev_rev (s : string) : rev (rev s) = s.
Proof. apply chars_inj. rewrite !chars_rev_list. apply rev_involutive. Qed.

Lemma rev_app (a b : string) : rev (a +:+ b) = rev b +:+ rev a.
Proof.
  apply chars_inj. rewrite chars_rev_list, !chars_app, !chars_rev_list.
  apply rev_app_distr.
Qed.

(** [x] occurs in [s]. *)
Definition occurs_in (x s : string) : Prop := exists a b, s = a +:+ x +:+ b.

Lemma occurs_in_refl (s : string) : occurs_in s s.
Proof. exists "", "". cbn. now rewrite string_app_nil_r. Qed.

Lemma occurs_in_trans (x y z : string) :
  occurs_in x y -> occurs_in y z -> occurs_in x z.
Proof.
  intros (a & b & ->) (c & d & ->). exists (c +:+ a), (b +:+ d).
  now rewrite !string_app_assoc.
Qed.

Lemma startswith_app (p s : string) :
  startswith p s = true <-> exists b, s = p +:+ b.
Proof.
  revert s. induction p as [ | x p IH]; intros s.
  - cbn. split; [ intros _; now exists s | reflexivity ].
  - destruct s as [ | y s]; cbn [startswith].
    + split; [ discriminate | intros [b H]; discriminate H ].
    + destruct (Ascii.eqb x y) eqn:E.
      * apply Ascii.eqb_eq in E. subst y. rewrite IH. split.
        -- intros [b ->]. now exists b.
        -- intros [b H]. rewrite string_app_cons in H. injection H as ->. now exists b.
      * apply Ascii.eqb_neq in E. split; [ discriminate | ].
        intros [b H]. rewrite string_app_cons in H. congruence.
Qed.

Lemma contains_occurs (k s : string) : contains k s = true <-> occurs_in k s.
Proof.
  induction s as [ | c s IH].
  - cbn [contains]. rewrite orb_false_r, startswith_app. split.
    + intros [b H]. now exists "", b.
    + intros (a & b & H). destruct a; [ now exists b | discriminate H ].
  - cbn [contains]. rewrite orb_true_iff, IH, startswith_app. split.
    + intros [[b H] | (a & b & H)].
      * now exists "", b.
      * exists (String c a), b. rewrite string_app_cons. now f_equal.
    + intros (a & b & H). destruct a as [ | x a].
      * left. now exists b.
      * right. rewrite string_app_cons in H. injection H as _ H. now exists a, b.
Qed.

Lemma lower_occurs (x s : string) :
  occurs_in x s -> occurs_in (lower x) (lower s).
Proof. intros (a & b & ->). exists (lower a), (lower b). now rewrite !lower_app. Qed.

Lemma any_in_occurs (ks : list string) (s : string) :
  any_in ks s = true <-> exists k, In k ks /\ occurs_in k s.
Proof.
  unfold any_in. rewrite existsb_exists. split; intros (k & Hk & H); exists k;
    (split; [ exact Hk | now apply contains_occurs ]).
Qed.

(** A keyword found in a part of the text is found in the text. *)
Lemma any_in_lower_mono (ks : list string) (x s : string) :
  occurs_in x s -> any_in ks (lower x) = true -> any_in ks (lower s) = true.
Proof.
  intros Hx. rewrite !any_in_occurs. intros (k & Hk & H). exists k.
  split; [ exact Hk | ]. eapply occurs_in_trans; [ exact H | now apply lower_occurs ].
Qed.

Lemma split_char_go_occurs (sep : ascii) (s tok l : string) :
  In l (split_char_go sep s tok) -> occurs_in l (rev tok +:+ s).
Proof.
  revert tok. induction s as [ | c s IH]; intros tok; cbn [split_char_go].
  - intros [<- | []]. rewrite string_app_nil_r. apply occurs_in_refl.
  - destruct (Ascii.eqb c sep).
    + intros [<- | H].
      * exists "", (String c s). reflexivity.
      * apply IH in H. cbn in H. destruct H as (a & b & H).
        exists (rev tok +:+ String c a), b.
        rewrite string_app_assoc, string_app_cons. now rewrite <- H.
    + intros H. apply IH in H.
      replace (rev tok +:+ String c s) with (rev (String c tok) +:+ s); [ exact H | ].
      change (String c tok) with (String c "" +:+ tok).
      rewrite rev_app, string_app_assoc. reflexivity.
Qed.

(** Each piece of [s.split(sep)] occurs in [s]. *)
Lemma split_char_occurs (sep : ascii) (s l : string) :
  In l (split_char sep s) -> occurs_in l s.
Proof. intros H. apply split_char_go_occurs in H. exact H. Qed.

Lemma lstrip_suffix (s : string) : exists a, s = a +:+ lstrip s.
Proof.
  induction s as [ | c s [a IH]]; [ now exists "" | ].
  cbn [lstrip]. destruct (isspace c).
  - exists (String c a). rewrite string_app_cons. now f_equal.
  - now exists "".
Qed.

Lemma rstrip_prefix (s : string) : exists b, s = rstrip s +:+ b.
Proof.
  unfold rstrip. destruct (lstrip_suffix (rev s)) as [a H].
  exists (rev a). rewrite <- rev_app, <- H. symmetry. apply rev_rev.
Qed.

Lemma strip_occurs (s : string) : occurs_in (strip s) s.
Proof.
  unfold strip. destruct (lstrip_suffix s) as [a Ha].
  destruct (rstrip_prefix (lstrip s)) as [b Hb].
  exists a, b. now rewrite <- Hb.
Qed.

Lemma drop_suffix (n : nat) (s : string) : exists a, s = a +:+ drop n s.
Proof.
  revert s. induction n as [ | n IH]; intros s; [ now exists "" | ].
  destruct s as [ | c s]; [ now exists "" | ].
  destruct (IH s) as [a H]. exists (String c a). cbn [drop].
  rewrite string_app_cons. now f_equal.
Qed.

Lemma drop_occurs (n : nat) (s : string) : occurs_in (drop n s) s.
Proof.
  destruct (drop_suffix n s) as [a H]. exists a, "".
  now rewrite string_app_nil_r.
Qed.

Lemma lstrip_chars_occurs (cs s : string) : occurs_in (lstrip_chars cs s) s.
Proof.
  induction s as [ | c s IH]; [ apply occurs_in_refl | ].
  cbn [lstrip_chars]. destruct (char_in c cs); [ | apply occurs_in_refl ].
  destruct IH as (a & b & H). exists (String c a), b.
  rewrite string_app_cons. now f_equal.
Qed.

End PyStrFacts.

(** ** The reviewer's line extractors and the review *)

Module DocumentReviewersLines.
Import Py PyStr PyStrProps PyStrFacts AgentConfigs LLMRouters LLMRoutersProps.
Import DocumentReviewers DocumentReviewersProps.

(** The lines of a response. *)
Definition lines_of (response : string) : list string :=
  split_char "010"%char response.

Lemma stripped_line_occurs (response line : string) :
  In line (lines_of response) -> occurs_in (strip line) response.
Proof.
  intros H. eapply occurs_in_trans; [ apply strip_occurs | ].
  now apply split_char_occurs in H.
Qed.

(** The text of a bullet line: what follows its two first characters. *)
Definition bullet_text (line : string) : string := strip (drop 2 (strip line)).

Definition is_bullet (line : string) : bool :=
  startswith "- " (strip line) || startswith "* " (strip line).

Lemma bullet_text_occurs (response line : string) :
  In line (lines_of response) -> occurs_in (bullet_text line) response.
Proof.
  intros H. unfold bullet_text.
  eapply occurs_in_trans; [ apply strip_occurs | ].
  eapply occurs_in_trans; [ apply drop_occurs | ].
  now apply stripped_line_occurs.
Qed.

Lemma bullet_line_fold (ks : list string) (lines acc : list string) (s : string) :
  In s (fold_left (bullet_line ks) lines acc) ->
  In s acc
  \/ exists line, In line lines /\ is_bullet line = true
                  /\ s = bullet_text line /\ any_in ks (lower s) = true.
Proof.
  revert acc. induction lines as [ | l lines IH]; intros acc; cbn [fold_left].
  - now left.
  - intros H. apply IH in H. destruct H as [H | (line & Hl & H)].
    + unfold bullet_line in H. fold (is_bullet l) in H.
      destruct (is_bullet l) eqn:Eb; [ | now left ].
      fold (bullet_text l) in H.
      destruct (any_in ks (lower (bullet_text l))) eqn:Ek; [ | now left ].
      apply in_app_or in H. destruct H as [H | [<- | []]]; [ now left | ].
      right. exists l. repeat split; try assumption. now left.
    + right. exists line. split; [ now right | exact H ].
Qed.

Lemma keyword_line_fold (ks : list string) (lines acc : list string) (s : string) :
  In s (fold_left (keyword_line ks) lines acc) ->
  In s acc
  \/ exists line, In line lines /\ s = strip line /\ any_in ks (lower s) = true.
Proof.
  revert acc. induction lines as [ | l lines IH]; intros acc; cbn [fold_left].
  - now left.
  - intros H. apply IH in H. destruct H as [H | (line & Hl & H)].
    + unfold keyword_line in H.
      destruct (any_in ks (lower (strip l))) eqn:Ek; [ | now left ].
      apply in_app_or in H. destruct H as [H | [<- | []]]; [ now left | ].
      right. exists l. repeat split; try assumption. now left.
    + right. exists line. split; [ now right | exact H ].
Qed.

Lemma In_firstn {A} (n : nat) (l : list A) (x : A) : In x (firstn n l) -> In x l.
Proof.
  revert l. induction n as [ | n IH]; intros [ | y l]; cbn; try tauto.
  intros [-> | H]; [ now left | right; now apply IH ].
Qed.

Lemma any_in_nonempty (ks : list string) (s : string) :
  ~ In "" ks -> any_in ks (lower s) = true -> s <> "".
Proof.
  intros Hks H ->. apply any_in_occurs in H. destruct H as (k & Hk & a & b & H).
  cbn in H. destruct a; [ | discriminate H ]. destruct k; [ | discriminate H ].
  contradiction.
Qed.

(** What a list of keyword lines is to the response. *)
Definition keyword_lines (ks : list string) (response : string)
    (found : list string) : Prop :=
  Forall (fun s => (exists line, In line (lines_of response) /\ s = strip line)
                   /\ any_in ks (lower s) = true
                   /\ occurs_in s response /\ s <> "") found
  /\ (any_in ks (lower response) = false -> found = []).

(** The first [n] elements, or all of them. *)
Definition capped {A} (n : option nat) (l : list A) : list A :=
  match n with
  | Some n => firstn n l
  | None => l
  end.

Lemma In_capped {A} (n : option nat) (l : list A) (x : A) :
  In x (capped n l) -> In x l.
Proof. destruct n; [ apply In_firstn | trivial ]. Qed.

Lemma keyword_lines_fold (ks : list string) (response : string) (n : option nat) :
  ~ In "" ks ->
  keyword_lines ks response
    (capped n (fold_left (keyword_line ks) (lines_of response) [])).
Proof.
  intros Hks.
  assert (H : forall s,
             In s (capped n (fold_left (keyword_line ks) (lines_of response) [])) ->
             (exists line, In line (lines_of response) /\ s = strip line)
             /\ any_in ks (lower s) = true
             /\ occurs_in s response /\ s <> "").
  { intros s Hs. apply In_capped, keyword_line_fold in Hs.
    destruct Hs as [[] | (line & Hl & -> & Hk)].
    split; [ now exists line | ]. split; [ exact Hk | ].
    split; [ now apply stripped_line_occurs | now apply (any_in_nonempty ks) ]. }
  split.
  - apply Forall_forall. intros s Hs. apply H. now apply list_elem_of_In in Hs.
  - intros Hno.
    destruct (capped n (fold_left (keyword_line ks) (lines_of response) []))
      as [ | s l]; [ reflexivity | exfalso ].
    destruct (H s) as (_ & Hk & Ho & _); [ now left | ].
    rewrite (any_in_lower_mono ks s response Ho Hk) in Hno. discriminate Hno.
Qed.

(** What a list of bullet texts is to the response. *)
Definition bullet_texts (ks : list string) (response : string)
    (found : list string) : Prop :=
  Forall (fun s =>
            (exists line, In line (lines_of response)
                          /\ is_bullet line = true /\ s = bullet_text line)
            /\ any_in ks (lower s) = true
            /\ occurs_in s response /\ s <> "") found.

Lemma bullet_texts_fold (ks : list string) (response : string) (n : option nat) :
  ~ In "" ks ->
  bullet_texts ks response
    (capped n (fold_left (bullet_line ks) (lines_of response) [])).
Proof.
  intros Hks. apply Forall_forall. intros s Hs. apply list_elem_of_In in Hs.
  apply In_capped, bullet_line_fold in Hs.
  destruct Hs as [[] | (line & Hl & Hb & -> & Hk)].
  split; [ now exists line | ]. split; [ exact Hk | ].
  split; [ now apply bullet_text_occurs | now apply (any_in_nonempty ks) ].
Qed.

(** X10: [_extract_suggestions] returns at most five texts. Each of them,
    and each text [_extract_grammar_suggestions] returns, is the text of a
    bullet line of the response (a line that, stripped, begins with "- "
    or "* "), has one of the function's keywords in lower case, is not
    empty and occurs in the response as it is. *)
Theorem extract_suggestions_are_bullet_texts (response : string) :
  (length (_extract_suggestions response) <= 5)%nat
  /\ bullet_texts ["suggest"; "recommend"; "consider"; "try"] response
       (_extract_suggestions response)
  /\ bullet_texts ["change"; "replace"; "correct"] response
       (_extract_grammar_suggestions response).
Proof.
  split; [ apply firstn_le_length | ]. split.
  - apply (bullet_texts_fold _ response (Some 5%nat)). cbn. intuition discriminate.
  - apply (bullet_texts_fold _ response None). cbn. intuition discriminate.
Qed.

(** X11: [_extract_areas_for_improvement] and [_extract_strengths] return
    at most three texts each; each text is a stripped line of the response
    that has one of the function's keywords in lower case; and a response
    without any of the keywords yields the empty list. *)
Theorem extract_areas_and_strengths (response : string) :
  (length (_extract_areas_for_improvement response) <= 3)%nat
  /\ keyword_lines ["improve"; "better"; "enhance"; "fix"] response
       (_extract_areas_for_improvement response)
  /\ (length (_extract_strengths response) <= 3)%nat
  /\ keyword_lines ["good"; "strong"; "excellent"; "well"] response
       (_extract_strengths response).
Proof.
  split; [ apply firstn_le_length | ]. split.
  { apply (keyword_lines_fold _ response (Some 3%nat)). cbn. intuition discriminate. }
  split; [ apply firstn_le_length | ].
  apply (keyword_lines_fold _ response (Some 3%nat)). cbn. intuition discriminate.
Qed.

(** X12: [_extract_grammar_issues] and [_extract_missing_sections] return
    stripped lines of the response that have one of the keywords, and
    nothing for a response without them; no cap applies. *)
Theorem extract_issues_and_missing_sections (response : string) :
  keyword_lines ["error"; "mistake"; "incorrect"; "issue"] response
    (_extract_grammar_issues response)
  /\ keyword_lines ["missing"; "absent"; "not found"; "lacking"] response
       (_extract_missing_sections response).
Proof.
  split.
  - apply (keyword_lines_fold _ response None). cbn. intuition discriminate.
  - apply (keyword_lines_fold _ response None). cbn. intuition discriminate.
Qed.


Lemma improvement_line_fold (lines acc : list string) (s : string) :
  In s (fold_left improvement_line lines acc) ->
  In s acc
  \/ exists line, In line lines
                  /\ s = strip (lstrip_chars "-*0123456789. " (strip line))
                  /\ s <> "".
Proof.
  revert acc. induction lines as [ | l lines IH]; intros acc; cbn [fold_left].
  - now left.
  - intros H. apply IH in H. destruct H as [H | (line & Hl & H)].
    + unfold improvement_line in H.
      destruct (startswith "- " (strip l) || startswith "* " (strip l)
                || startswith "1." (strip l)); [ | now left ].
      destruct (strip (lstrip_chars "-*0123456789. " (strip l))) as [ | c x] eqn:E;
        cbn [is_empty negb] in H; [ now left | ].
      apply in_app_or in H. destruct H as [H | [<- | []]]; [ now left | ].
      right. exists l. split; [ now left | ]. rewrite E. split; [ reflexivity | discriminate ].
    + right. exists line. split; [ now right | exact H ].
Qed.

(** X13: [_extract_improvement_suggestions] returns at most ten texts,
    none of them empty, each occurring in the response as it is. *)
Theorem extract_improvement_suggestions_capped (response : string) :
  (length (_extract_improvement_suggestions response) <= 10)%nat
  /\ Forall (fun s => s <> "" /\ occurs_in s response)
       (_extract_improvement_suggestions response).
Proof.
  unfold _extract_improvement_suggestions. split; [ apply firstn_le_length | ].
  apply Forall_forall. intros s Hs. apply list_elem_of_In in Hs.
  apply In_firstn, improvement_line_fold in Hs.
  destruct Hs as [[] | (line & Hl & -> & Hne)]. split; [ exact Hne | ].
  eapply occurs_in_trans; [ apply strip_occurs | ].
  eapply occurs_in_trans; [ apply lstrip_chars_occurs | ].
  now apply stripped_line_occurs.
Qed.

Lemma feedback_fold_nonempty (lines : list string) (b : bool) (acc : list string) :
  Forall (fun l => l <> "") acc ->
  Forall (fun l => l <> "") (snd (fold_left feedback_line lines (b, acc))).
Proof.
  revert b acc. induction lines as [ | l lines IH]; intros b acc H; [ exact H | ].
  cbn [fold_left]. unfold feedback_line at 2.
  destruct (any_in _ (lower (strip l))); [ now apply IH | ].
  destruct (any_in _ (lower (strip l))); [ now apply IH | ].
  destruct (strip l) as [ | c x] eqn:E; cbn [is_empty negb].
  - rewrite andb_false_r. now apply IH.
  - rewrite andb_true_r. destruct b; [ | now apply IH ].
    apply IH. apply Forall_app. split; [ exact H | ].
    constructor; [ discriminate | constructor ].
Qed.

Lemma feedback_fold_quiet (lines : list string) :
  (forall line, In line lines ->
     any_in ["feedback"; "analysis"; "review"] (lower (strip line)) = false) ->
  fold_left feedback_line lines (false, []) = (false, []).
Proof.
  induction lines as [ | l lines IH]; intros H; [ reflexivity | ].
  cbn [fold_left].
  assert (E : feedback_line (false, []) l = (false, [])).
  { unfold feedback_line. rewrite (H l) by now left.
    now destruct (any_in _ (lower (strip l))). }
  rewrite E. apply IH. intros line Hl. apply H. now right.
Qed.

Lemma join_nonempty (sep x : string) (xs : list string) :
  x <> "" -> join sep (x :: xs) <> "".
Proof.
  intros H. cbn [join]. destruct xs; [ exact H | ].
  destruct x; [ congruence | discriminate ].
Qed.

(** X14: the feedback is empty only for an empty response; and a response
    in which none of the words "feedback", "analysis", "review" occurs (in
    any case) is answered by its own first 200 characters. *)
Theorem extract_feedback_falls_back (response : string) :
  (_extract_feedback response = "" <-> response = "")
  /\ (any_in ["feedback"; "analysis"; "review"] (lower response) = false ->
      _extract_feedback response = take 200 response).
Proof.
  split.
  - split; [ | intros ->; reflexivity ].
    unfold _extract_feedback.
    pose proof (feedback_fold_nonempty (split_char "010" response) false []
                  (List.Forall_nil _)) as Hne.
    destruct (fold_left feedback_line (split_char "010" response) (false, []))
      as [b [ | l ls]].
    + destruct response; [ reflexivity | discriminate ].
    + intros H. exfalso. cbn [snd] in Hne.
      apply (join_nonempty (String "010" "") l ls); [ | exact H ].
      now inversion Hne.
  - intros Hno. unfold _extract_feedback.
    rewrite feedback_fold_quiet; [ reflexivity | ].
    intros line Hl.
    destruct (any_in _ (lower (strip line))) eqn:E; [ | reflexivity ].
    rewrite (any_in_lower_mono _ (strip line) response) in Hno;
      [ discriminate Hno | now apply stripped_line_occurs | exact E ].
Qed.

Lemma extract_feedback_falls_back_witness :
  _extract_feedback "Clear and well organised." = "Clear and well organised.".
Proof.
  apply (proj2 (extract_feedback_falls_back "Clear and well organised.")).
  reflexivity.
Defined.

Lemma extract_score_returns (response : string) :
  exists n, _extract_score response = Ok n /\ 1 <= n <= 10.
Proof. apply extract_score_loop_range. trivial. Qed.

Lemma parse_review_response_ok (response : string) :
  exists n,
    1 <= n <= 10
    /\ _extract_score response = Ok n
    /\ _parse_review_response response
       = Ok {| score := n;
               feedback := _extract_feedback response;
               suggestions := _extract_suggestions response;
               areas_for_improvement := _extract_areas_for_improvement response;
               strengths := _extract_strengths response |}.
Proof.
  destruct (extract_score_returns response) as (n & Hn & Hr).
  exists n. split; [ exact Hr | ]. split; [ exact Hn | ].
  unfold _parse_review_response. now rewrite Hn.
Qed.


(** X16: [review_content] always reports success: its [except] branch is
    never taken, because the router and the parser always return. The
    score is from 1 to 10, [revision_needed] says that it is below 7, and
    at most five suggestions and three areas and strengths are given.
    When the reviewer's provider and the fallback both give no answer, the
    router's apology is what gets reviewed: the result is a successful
    review with score 7 and no revision needed. *)
Theorem review_content_always_succeeds (llm_router : LLMRouter)
    (_build_review_prompt : string -> list Message) :
  let r := review_content llm_router _build_review_prompt in
  success r = true
  /\ error r = None
  /\ 1 <= result_score r <= 10
  /\ revision_needed r = (result_score r <? 7)
  /\ (length (result_suggestions r) <= 5)%nat
  /\ (exists areas found,
        result_areas_for_improvement r = Some areas
        /\ result_strengths r = Some found
        /\ (length areas <= 3)%nat /\ (length found <= 3)%nat)
  /\ (primary_fails llm_router (Some REVIEWER)
        (_build_review_prompt _get_current_content) ∅ ->
      fallback_fails llm_router (_build_review_prompt _get_current_content) ∅ ->
      result_score r = 7 /\ revision_needed r = false
      /\ result_feedback r = error_msg /\ result_suggestions r = []).
Proof.
  intros r. subst r. unfold review_content, _comprehensive_review.
  destruct (route_request_cases llm_router (Some REVIEWER)
              (_build_review_prompt _get_current_content) ∅) as (s & Hs & _).
  assert (Hfail :
            primary_fails llm_router (Some REVIEWER)
              (_build_review_prompt _get_current_content) ∅ ->
            fallback_fails llm_router
              (_build_review_prompt _get_current_content) ∅ ->
            s = error_msg).
  { intros Hp Hf. rewrite (route_request_both_fail _ _ _ _ Hp Hf) in Hs.
    now inversion Hs. }
  rewrite Hs. cbn [bind].
  destruct (parse_review_response_ok s) as (n & Hn & He & ->).
  cbn [success error result_score revision_needed result_suggestions
       result_feedback result_areas_for_improvement result_strengths
       score feedback suggestions areas_for_improvement strengths].
  split; [ reflexivity | ]. split; [ reflexivity | ]. split; [ exact Hn | ].
  split; [ reflexivity | ].
  split; [ apply firstn_le_length | ].
  split.
  { eexists _, _. split; [ reflexivity | ]. split; [ reflexivity | ].
    split; apply firstn_le_length. }
  intros Hp Hf. specialize (Hfail Hp Hf). subst s.
  assert (n = 7) as -> by (vm_compute in He; now inversion He).
  repeat split; vm_compute; reflexivity.
Qed.

(** A prompt of one message, the content itself. *)
Definition content_prompt (content : string) : list Message :=
  [ {[ "role" := "user"; "content" := content ]} ].

Lemma review_content_always_succeeds_witness :
  success (review_content broken_router content_prompt) = true
  /\ result_score (review_content broken_router content_prompt) = 7
  /\ revision_needed (review_content broken_router content_prompt) = false.
Proof.
  destruct (review_content_always_succeeds broken_router content_prompt)
    as (Hs & _ & _ & _ & _ & _ & H).
  split; [ exact Hs | ].
  destruct H as (H7 & Hr & _).
  - vm_compute. exists "timeout". reflexivity.
  - vm_compute. exists "timeout". reflexivity.
  - split; [ exact H7 | exact Hr ].
Defined.

End DocumentReviewersLines.

(** ** Words and chunks *)

Module PyStrWords.
Import PyStr PyStrProps PyStrFacts.

(** A text without white space, and a word: such a text that is not
    empty. *)
Definition space_free (w : string) : Prop :=
  forall c, In c (chars w) -> isspace c = false.

Definition is_word (w : string) : Prop := w <> "" /\ space_free w.

(** The texts of a list one after the other. *)
Definition flatten (l : list string) : string :=
  fold_right String.append "" l.

Lemma fold_left_append (l : list string) (acc : string) :
  fold_left (fun content chunk => content +:+ chunk) l acc = acc +:+ flatten l.
Proof.
  revert acc. induction l as [ | x l IH]; intros acc; cbn [fold_left flatten fold_right].
  - now rewrite string_app_nil_r.
  - rewrite IH, string_app_assoc. reflexivity.
Qed.

Lemma is_word_rev (t : string) : is_word t -> is_word (rev t).
Proof.
  intros [Hne Hs]. split.
  - intros H. apply Hne. rewrite <- (rev_rev t), H. reflexivity.
  - intros c Hc. apply Hs. now apply (proj1 (chars_rev t c)).
Qed.

Lemma split_go_words (s : string) (tok : option string) :
  (forall t, tok = Some t -> is_word t) -> Forall is_word (split_go s tok).
Proof.
  revert tok. induction s as [ | c s IH]; intros tok Htok; cbn [split_go].
  - destruct tok as [t | ]; [ | constructor ].
    constructor; [ | constructor ]. apply is_word_rev. now apply Htok.
  - destruct (isspace c) eqn:E.
    + destruct tok as [t | ].
      * constructor; [ apply is_word_rev; now apply Htok | ].
        apply IH. discriminate.
      * apply IH. discriminate.
    + apply IH. intros t Ht. injection Ht as <-. split; [ discriminate | ].
      intros x [<- | Hx]; [ exact E | ].
      destruct tok as [t | ]; cbn [default] in Hx; [ | destruct Hx ].
      now apply (Htok t eq_refl).
Qed.

(** The pieces of [s.split()] are words. *)
Lemma split_words_are_words (s : string) : Forall is_word (split s).
Proof. apply split_go_words. discriminate. Qed.

Lemma split_go_space (a b : string) (c : ascii) (tok : option string) :
  isspace c = true ->
  split_go (a +:+ String c b) tok = split_go a tok ++ split_go b None.
Proof.
  intros Hc. revert tok. induction a as [ | x a IH]; intros tok.
  - cbn [String.append split_go]. change ("" +:+ String c b) with (String c b).
    cbn [split_go]. rewrite Hc. now destruct tok.
  - rewrite string_app_cons. cbn [split_go]. destruct (isspace x).
    + destruct tok; rewrite IH; reflexivity.
    + apply IH.
Qed.

(** Splitting into words goes through a white-space character. *)
Lemma split_space (a b : string) (c : ascii) :
  isspace c = true -> split (a +:+ String c b) = split a ++ split b.
Proof. apply split_go_space. Qed.

Lemma split_go_word (w r : string) (tok : option string) :
  space_free w ->
  split_go (w +:+ r) tok
  = split_go r match w with
               | EmptyString => tok
               | String _ _ => Some (rev_append w (default "" tok))
               end.
Proof.
  revert tok. induction w as [ | c w IH]; intros tok Hw; [ reflexivity | ].
  rewrite string_app_cons. cbn [split_go].
  rewrite (Hw c) by now left.
  rewrite IH by (intros x Hx; apply Hw; now right).
  destruct w; reflexivity.
Qed.

Lemma split_word (w : string) : is_word w -> split w = [w].
Proof.
  intros [Hne Hs]. unfold split.
  rewrite <- (string_app_nil_r w) at 1. rewrite split_go_word by exact Hs.
  destruct w as [ | c w]; [ congruence | ].
  cbn [split_go default]. fold (rev (String c w)). now rewrite rev_rev.
Qed.

Lemma split_flatten_chunks (ws : list string) :
  Forall is_word ws ->
  split (flatten (map (fun word => word +:+ " ") ws)) = ws.
Proof.
  induction 1 as [ | w ws Hw _ IH]; [ reflexivity | ].
  cbn [map flatten fold_right]. fold (flatten (map (fun word => word +:+ " ") ws)).
  rewrite string_app_assoc. change (" " +:+ ?x) with (String " " x).
  rewrite split_space by reflexivity. rewrite IH, split_word by exact Hw.
  reflexivity.
Qed.

End PyStrWords.

(** ** Streaming through the router *)

Module LLMStreams.
Import Py PyStr PyStrProps PyStrFacts PyStrWords AgentConfigs LLMRouters.

(** What a reader of the stream has got when it ends: all chunks in one
    text. *)
Definition received (s : Stream) : string := flatten (chunks s).

(** The stream of the primary provider, if it has an adapter. *)
Definition primary_stream (self : StreamingRouter)
    (agent_type : option AgentType) (messages : list Message)
    (kwargs : Kwargs) : option Stream :=
  let '(provider, model) := get_llm_for_agent (streaming_config self) agent_type in
  match stream_generate self !! provider with
  | Some stream =>
      Some (stream messages model
              match kwargs !! "timeout" with
              | None =>
                  <["timeout" := VInt (timeout_seconds (streaming_config self))]>
                    kwargs
              | Some _ => kwargs
              end)
  | None => None
  end.

(** The stream of the fallback provider, if it has an adapter. *)
Definition fallback_stream (self : StreamingRouter) (messages : list Message)
    (kwargs : Kwargs) : option Stream :=
  match stream_generate self !! fallback_llm (streaming_config self) with
  | Some stream =>
      Some (stream messages (fallback_model (streaming_config self))
              match kwargs !! "timeout" with
              | None =>
                  <["timeout" := VInt (timeout_seconds (streaming_config self))]>
                    kwargs
              | Some _ => kwargs
              end)
  | None => None
  end.

(** X17: what the primary provider has yielded is never taken back: its
    chunks begin the routed stream. A primary stream that ends normally is
    the routed stream. When it raises, or the provider has no adapter, the
    fallback's chunks follow and the routed stream ends as the fallback's
    does, so that an exception of the fallback reaches the reader; with no
    fallback adapter one chunk, the text "Error: No available LLM
    providers", follows instead. *)
Theorem stream_route_request_keeps_chunks (self : StreamingRouter)
    (agent_type : option AgentType) (messages : list Message)
    (kwargs : Kwargs) :
  let routed := stream_route_request self agent_type messages kwargs in
  let yielded :=
    match primary_stream self agent_type messages kwargs with
    | Some primary => chunks primary
    | None => []
    end in
  (exists rest, chunks routed = yielded ++ rest)
  /\ (forall primary,
        primary_stream self agent_type messages kwargs = Some primary ->
        ended_by primary = None -> routed = primary)
  /\ ((forall primary,
         primary_stream self agent_type messages kwargs = Some primary ->
         ended_by primary <> None) ->
      match fallback_stream self messages kwargs with
      | Some fallback =>
          chunks routed = yielded ++ chunks fallback
          /\ ended_by routed = ended_by fallback
      | None =>
          chunks routed = yielded ++ ["Error: No available LLM providers"]
          /\ ended_by routed = None
      end).
Proof.
  cbv zeta. unfold stream_route_request, primary_stream, fallback_stream.
  destruct (get_llm_for_agent (streaming_config self) agent_type)
    as [provider model].
  set (kw := match kwargs !! "timeout" with
             | None => _
             | Some _ => kwargs
             end).
  destruct (stream_generate self !! provider) as [stream | ].
  - destruct (ended_by (stream messages model kw)) as [e | ] eqn:E.
    + split; [ eexists; reflexivity | ].
      split; [ intros primary H; injection H as <-; congruence | ].
      intros _.
      destruct (stream_generate self !! fallback_llm (streaming_config self));
        split; reflexivity.
    + split; [ exists []; now rewrite app_nil_r | ].
      split; [ intros primary H; now injection H as <- | ].
      intros H. exfalso. now apply (H _ eq_refl).
  - split; [ eexists; reflexivity | ].
    split; [ discriminate | ].
    intros _.
    destruct (stream_generate self !! fallback_llm (streaming_config self));
      split; reflexivity.
Qed.

(** A router whose Google stream breaks after two chunks, with the mock
    as fallback. *)
Definition breaking_router : StreamingRouter :=
  {| streaming_config := default_AgentConfig;
     stream_generate :=
       {[ "google" := fun _ _ _ =>
                        {| chunks := ["Dear "; "reader "];
                           ended_by := Some "connection reset" |};
          "mock" := MockAdapter_stream_generate ]} |}.

Lemma stream_route_request_keeps_chunks_witness :
  chunks (stream_route_request breaking_router (Some WRITER) [] ∅)
  = ["Dear "; "reader "] ++ ["Mock "; "response "; "to: "; "Hello... "].
Proof.
  destruct (stream_route_request_keeps_chunks breaking_router (Some WRITER) [] ∅)
    as (_ & _ & H).
  apply H. intros primary Hp. vm_compute in Hp. injection Hp as <-. discriminate.
Defined.

(** X18: the mock adapter streams its answer word by word: each chunk is
    a word of the answer followed by one space; the reader that joins the
    chunks gets a text with the same words as the answer (runs of white
    space have become single spaces). Nothing is streamed when
    [generate] raises. *)
Theorem mock_stream_has_the_words (messages : list Message) (model : string)
    (kwargs : Kwargs) :
  match MockAdapter_generate messages model kwargs with
  | Ok response =>
      ended_by (MockAdapter_stream_generate messages model kwargs) = None
      /\ split (received (MockAdapter_stream_generate messages model kwargs))
         = split response
      /\ Forall (fun chunk => exists word, chunk = word +:+ " " /\ is_word word)
           (chunks (MockAdapter_stream_generate messages model kwargs))
  | Raise e =>
      MockAdapter_stream_generate messages model kwargs
      = {| chunks := []; ended_by := Some e |}
  end.
Proof.
  unfold MockAdapter_stream_generate, received.
  destruct (MockAdapter_generate messages model kwargs) as [response | e];
    [ | reflexivity ].
  cbn [chunks ended_by]. split; [ reflexivity | ]. unfold word_chunks. split.
  - apply split_flatten_chunks, split_words_are_words.
  - apply Forall_forall. intros chunk Hc. apply list_elem_of_In in Hc.
    apply in_map_iff in Hc. destruct Hc as (word & <- & Hw).
    exists word. split; [ reflexivity | ].
    pose proof (split_words_are_words response) as H.
    rewrite Forall_forall in H. apply H. now apply list_elem_of_In.
Qed.

End LLMStreams.

(** ** The writer *)

Module DocumentWritersProps.
Import Py PyStr PyStrProps PyStrFacts PyStrWords AgentConfigs LLMRouters.
Import DocumentWriters.

Lemma format_begins_with_newline (section : SectionDict) (content : string) :
  exists rest, _format_section_content section content = String "010" rest.
Proof. eexists. reflexivity. Qed.

Lemma split_app_format (total : string) (section : SectionDict) (content : string) :
  length (split (total +:+ _format_section_content section content))
  = (length (split total)
     + length (split (_format_section_content section content)))%nat.
Proof.
  destruct (format_begins_with_newline section content) as [rest ->].
  rewrite split_space by reflexivity. rewrite length_app.
  change (String "010" rest) with ("" +:+ String "010" rest).
  rewrite split_space by reflexivity. reflexivity.
Qed.

Section Writer.

Variable llm_router : StreamingRouter.
Variable section_prompt : string -> DocumentPlan -> list Message.

Lemma write_section_formats (section : SectionDict) (plan : DocumentPlan)
    (text : string) :
  _write_section llm_router section_prompt section plan = Ok text ->
  exists content, text = _format_section_content section content.
Proof.
  unfold _write_section.
  destruct (_build_section_writing_prompt _ _ _) as [p | e]; [ | discriminate ].
  cbn [bind]. destruct (read_all _) as [c | e]; [ | discriminate ].
  cbn [bind]. intros H. injection H as <-. now exists c.
Qed.

(** The sections from index [i] that the loop writes, for a plan at step
    [step]. *)
Definition to_write (step i : Z) (sections : list SectionDict)
  : list SectionDict :=
  List.skipn (Z.to_nat (step - i)) sections.

Lemma write_sections_returns (sections : list SectionDict) (i : Z)
    (st r : Progress) (p' : DocumentPlan) :
  write_sections llm_router section_prompt i sections st = (Ok r, p') ->
  p' = plan_now r
  /\ completed r
     = (completed st
        + length (to_write (current_step (plan_now st)) i sections))%nat
  /\ plan_now r
     = match sections with
       | [] => plan_now st
       | _ :: _ =>
           if current_step (plan_now st) <? i + Z.of_nat (length sections)
           then set_current_step (plan_now st) (i + Z.of_nat (length sections))
           else plan_now st
       end
  /\ (total_words st = length (split (total_content st)) ->
      total_words r = length (split (total_content r))).
Proof.
  revert i st. induction sections as [ | section rest IH]; intros i st.
  - cbn [write_sections]. intros H. injection H as <- <-.
    unfold to_write. rewrite skipn_nil. cbn [length]. rewrite Nat.add_0_r.
    repeat split; trivial.
  - cbn [write_sections]. unfold to_write.
    destruct (i <? current_step (plan_now st)) eqn:E.
    + apply Z.ltb_lt in E.
      intros H. apply IH in H. destruct H as (-> & Hc & Hp & Hw).
      split; [ reflexivity | ]. split; [ | split; [ | exact Hw ] ].
      * rewrite Hc. unfold to_write.
        replace (Z.to_nat (current_step (plan_now st) - i))
          with (S (Z.to_nat (current_step (plan_now st) - (i + 1)))) by lia.
        reflexivity.
      * rewrite Hp. destruct rest as [ | s' rest'].
        -- cbn [length]. change (Z.of_nat 1) with 1.
           assert (E' : (current_step (plan_now st) <? i + 1) = false) by lia.
           now rewrite E'.
        -- replace (i + 1 + Z.of_nat (length (s' :: rest')))
             with (i + Z.of_nat (length (section :: s' :: rest')))
             by (clear; cbn [length]; rewrite !Nat2Z.inj_succ; lia).
           reflexivity.
    + destruct (_write_section llm_router section_prompt section (plan_now st))
        as [text | e] eqn:Ew; [ | discriminate ].
      apply Z.ltb_ge in E.
      intros H. apply IH in H. cbn [plan_now completed total_words total_content
                                     set_current_step current_step] in H.
      destruct H as (-> & Hc & Hp & Hw).
      split; [ reflexivity | ]. split; [ | split ].
      * rewrite Hc. unfold to_write.
        replace (Z.to_nat (i + 1 - (i + 1))) with 0%nat by (clear; lia).
        replace (Z.to_nat (current_step (plan_now st) - i)) with 0%nat
          by (clear - E; lia).
        cbn [skipn length]. rewrite skipn_O. clear. lia.
      * rewrite Hp.
        assert (E' : (current_step (plan_now st)
                      <? i + Z.of_nat (length (section :: rest))) = true)
          by (apply Z.ltb_lt; clear - E; cbn [length]; rewrite Nat2Z.inj_succ; lia).
        rewrite E'. destruct rest as [ | s' rest'].
        -- cbn [length]. unfold set_current_step. cbn. reflexivity.
        -- assert (E2 : (i + 1 <? i + 1 + Z.of_nat (length (s' :: rest'))) = true)
             by (apply Z.ltb_lt; clear; cbn [length]; rewrite Nat2Z.inj_succ; lia).
           rewrite E2. unfold set_current_step. cbn -[Z.add Z.of_nat length].
           f_equal. clear. cbn [length]. rewrite !Nat2Z.inj_succ. lia.
      * intros H0. apply Hw.
        destruct (write_section_formats _ _ _ Ew) as [c ->].
        rewrite split_app_format, H0. reflexivity.
Qed.

Lemma write_sections_skips (sections : list SectionDict) (i : Z) (st : Progress) :
  i + Z.of_nat (length sections) <= current_step (plan_now st) ->
  write_sections llm_router section_prompt i sections st = (Ok st, plan_now st).
Proof.
  revert i. induction sections as [ | section rest IH]; intros i H; [ reflexivity | ].
  cbn [write_sections]. cbn [length] in H.
  rewrite Nat2Z.inj_succ in H.
  assert (E : (i <? current_step (plan_now st)) = true) by (apply Z.ltb_lt; lia).
  rewrite E. apply IH. lia.
Qed.

Lemma write_from_plan_returns (plan plan' : DocumentPlan) (result : Written) :
  _write_from_plan llm_router section_prompt plan = (Ok result, plan') ->
  words_written result = length (split (content result))
  /\ changes_made result
     = length (to_write (current_step plan) 0 (sections plan))
  /\ sections_completed result = Some (changes_made result)
  /\ plan'
     = match sections plan with
       | [] => plan
       | _ :: _ =>
           if current_step plan <? Z.of_nat (length (sections plan))
           then set_current_step plan (Z.of_nat (length (sections plan)))
           else plan
       end.
Proof.
  unfold _write_from_plan.
  destruct (write_sections llm_router section_prompt 0 (sections plan) _)
    as [[st | e] p] eqn:E; cbn [bind]; [ | discriminate ].
  intros H. injection H as <- <-.
  apply write_sections_returns in E.
  cbn [plan_now completed total_words total_content] in E.
  destruct E as (-> & Hc & Hp & Hw).
  cbn [words_written content changes_made sections_completed].
  split; [ now apply Hw | ]. split; [ exact Hc | ]. split; [ reflexivity | ].
  exact Hp.
Qed.

(** X19: when [_write_from_plan] returns, the number of words it reports
    is the number of words of the content it returns; the number of
    changes and of completed sections is the number of sections from the
    plan's step on; and the plan's step has moved to the end of the
    sections if any was left to write. *)
Theorem write_from_plan_counts (plan plan' : DocumentPlan) (result : Written) :
  _write_from_plan llm_router section_prompt plan = (Ok result, plan') ->
  words_written result = length (split (content result))
  /\ changes_made result
     = length (to_write (current_step plan) 0 (sections plan))
  /\ sections_completed result = Some (changes_made result)
  /\ plan'
     = match sections plan with
       | [] => plan
       | _ :: _ =>
           if current_step plan <? Z.of_nat (length (sections plan))
           then set_current_step plan (Z.of_nat (length (sections plan)))
           else plan
       end.
Proof. apply write_from_plan_returns. Qed.

Lemma write_from_plan_nothing_left (plan : DocumentPlan) :
  Z.of_nat (length (sections plan)) <= current_step plan ->
  _write_from_plan llm_router section_prompt plan
  = (Ok {| content := ""; words_written := 0; changes_made := 0;
           sections_completed := Some 0%nat |}, plan).
Proof.
  intros H. unfold _write_from_plan.
  rewrite write_sections_skips by (cbn [plan_now]; lia). reflexivity.
Qed.

(** X20: a plan is written once. After [_write_from_plan] has returned,
    a second call with the plan as the first left it writes nothing: it
    returns an empty content with no words and no changes, and leaves
    the plan as it is. *)
Theorem write_from_plan_writes_once (plan plan' : DocumentPlan)
    (result : Written) :
  _write_from_plan llm_router section_prompt plan = (Ok result, plan') ->
  _write_from_plan llm_router section_prompt plan'
  = (Ok {| content := ""; words_written := 0; changes_made := 0;
           sections_completed := Some 0%nat |}, plan').
Proof.
  intros H. apply write_from_plan_returns in H. destruct H as (_ & _ & _ & ->).
  destruct (sections plan) as [ | s l] eqn:Es.
  - unfold _write_from_plan. rewrite Es. reflexivity.
  - destruct (current_step plan <? Z.of_nat (length (s :: l))) eqn:E.
    + apply write_from_plan_nothing_left.
      cbn [set_current_step sections current_step]. rewrite Es. lia.
    + apply write_from_plan_nothing_left. rewrite Es.
      apply Z.ltb_ge in E. exact E.
Qed.

Lemma write_sections_stops (done rest : list SectionDict) (bad : SectionDict)
    (i : Z) (st : Progress) :
  (forall messages,
     ended_by (stream_route_request llm_router (Some WRITER) messages ∅) = None) ->
  Forall (fun s => section_title s <> None) done ->
  section_title bad = None ->
  current_step (plan_now st) <= i ->
  write_sections llm_router section_prompt i (done ++ bad :: rest) st
  = (Raise "KeyError: 'title'",
     match done with
     | [] => plan_now st
     | _ :: _ => set_current_step (plan_now st) (i + Z.of_nat (length done))
     end).
Proof.
  intros Hr Hd Hb. revert i st.
  induction Hd as [ | s done Hs _ IH]; intros i st Hi.
  - cbn [app write_sections].
    assert (E : (i <? current_step (plan_now st)) = false) by (apply Z.ltb_ge; lia).
    rewrite E. unfold _write_section, _build_section_writing_prompt.
    rewrite Hb. reflexivity.
  - cbn [app write_sections].
    assert (E : (i <? current_step (plan_now st)) = false) by (apply Z.ltb_ge; lia).
    rewrite E. unfold _write_section, _build_section_writing_prompt.
    destruct (section_title s) as [t | ]; [ | congruence ]. cbn [bind].
    unfold read_all. rewrite Hr. cbn [bind].
    rewrite IH by (cbn [plan_now set_current_step current_step]; lia).
    cbn [plan_now]. f_equal. destruct done as [ | s' done'].
    + reflexivity.
    + unfold set_current_step. cbn -[Z.add Z.of_nat length]. f_equal.
      clear. cbn [length]. rewrite !Nat2Z.inj_succ. lia.
Qed.

End Writer.

(** X21: a section without a title fails the whole write, and what was
    written before it is lost from the result but not from the plan. With
    a router whose stream never raises, and a plan at step 0 whose
    sections are [done], all with titles, then one without: the result
    of [write_content] is the failure with error "KeyError: 'title'" and
    an empty content, while the plan's step has moved past the sections
    of [done], which a later call will therefore skip. *)
Theorem write_content_failure_keeps_progress (llm_router : StreamingRouter)
    (has_document_service : bool)
    (section_prompt : string -> DocumentPlan -> list Message)
    (direct_prompt : list Message) (document_id : option Z)
    (plan : DocumentPlan) (done rest : list SectionDict) (bad : SectionDict) :
  (forall messages,
     ended_by (stream_route_request llm_router (Some WRITER) messages ∅) = None) ->
  sections plan = done ++ bad :: rest ->
  Forall (fun s => section_title s <> None) done ->
  section_title bad = None ->
  current_step plan = 0 ->
  write_content llm_router has_document_service section_prompt direct_prompt
    document_id (Some plan)
  = ({| success := false;
        error := Some "KeyError: 'title'";
        result_content := "";
        result_words_written := 0;
        result_changes_made := 0;
        result_sections_completed := None;
        document_updated := false |},
     Some match done with
          | [] => plan
          | _ :: _ => set_current_step plan (Z.of_nat (length done))
          end).
Proof.
  intros Hr Hs Hd Hb H0. unfold write_content, _write_from_plan.
  rewrite Hs.
  rewrite (write_sections_stops llm_router section_prompt done rest bad 0 _ Hr Hd Hb)
    by (cbn [plan_now]; lia).
  cbn [plan_now bind]. destruct done; reflexivity.
Qed.

(** A router whose Google adapter streams the same two chunks whatever it
    is asked, and the prompt that is just the section's title. *)
Definition steady_router : StreamingRouter :=
  {| streaming_config := default_AgentConfig;
     stream_generate :=
       {[ "google" := fun _ _ _ =>
                        {| chunks := ["Some "; "text "]; ended_by := None |} ]} |}.

Definition title_prompt (t : string) (plan : DocumentPlan) : list Message :=
  [ {[ "role" := "user"; "content" := t ]} ].

(** A plan of two sections. *)
Definition two_sections : DocumentPlan :=
  {| document_type := "report";
     title := "Annual report";
     sections := [ {| section_title := Some "Summary" |};
                   {| section_title := Some "Outlook" |} ];
     estimated_time := 600;
     current_step := 0;
     total_steps := 2 |}.

(** What writing [two_sections] with [steady_router] returns. *)
Definition two_sections_written : Written :=
  {| content :=
       newline +:+ "## Summary" +:+ newline +:+ newline +:+ "Some text"
       +:+ newline +:+ newline
       +:+ newline +:+ "## Outlook" +:+ newline +:+ newline +:+ "Some text"
       +:+ newline +:+ newline;
     words_written := 8;
     changes_made := 2;
     sections_completed := Some 2%nat |}.

Lemma write_from_plan_counts_witness :
  words_written two_sections_written
  = length (split (content two_sections_written)).
Proof.
  apply (write_from_plan_counts steady_router title_prompt two_sections
           (set_current_step two_sections 2) two_sections_written).
  vm_compute. reflexivity.
Defined.

Lemma write_from_plan_writes_once_witness :
  _write_from_plan steady_router title_prompt (set_current_step two_sections 2)
  = (Ok {| content := ""; words_written := 0; changes_made := 0;
           sections_completed := Some 0%nat |},
     set_current_step two_sections 2).
Proof.
  apply (write_from_plan_writes_once steady_router title_prompt two_sections
           (set_current_step two_sections 2) two_sections_written).
  vm_compute. reflexivity.
Defined.

(** A plan whose second section has no title. *)
Definition untitled_second : DocumentPlan :=
  {| document_type := "report";
     title := "Annual report";
     sections := [ {| section_title := Some "Summary" |};
                   {| section_title := None |} ];
     estimated_time := 600;
     current_step := 0;
     total_steps := 2 |}.

Lemma write_content_failure_keeps_progress_witness :
  write_content steady_router true title_prompt [] (Some 7) (Some untitled_second)
  = ({| success := false;
        error := Some "KeyError: 'title'";
        result_content := "";
        result_words_written := 0;
        result_changes_made := 0;
        result_sections_completed := None;
        document_updated := false |},
     Some (set_current_step untitled_second 1)).
Proof.
  apply (write_content_failure_keeps_progress steady_router true title_prompt []
           (Some 7) untitled_second [ {| section_title := Some "Summary" |} ] []
           {| section_title := None |}).
  - intros messages. reflexivity.
  - reflexivity.
  - constructor; [ discriminate | constructor ].
  - reflexivity.
  - reflexivity.
Defined.

End DocumentWritersProps.

(** ** Activities, the streamed response and the preview decision *)

Module DocumentOrchestratorsSteps.
Import Py PyStr PyStrProps PyStrFacts PyStrWords.
Import AgentStates AgentStatesProps AgentConfigs LLMRouters.
Import DocumentOrchestrators DocumentOrchestratorsProps.

Local Open Scope orch_scope.


Lemma update_first_latest (agent action : string) (f : Activity -> Activity)
    (pre post : list Activity) (a : Activity) :
  existsb (is_activity agent action) pre = false ->
  is_activity agent action a = true ->
  update_first agent action f (pre ++ a :: post)
  = (pre ++ f a :: post, Some (f a)).
Proof.
  intros Hpre Ha. induction pre as [ | x pre IH]; cbn [app update_first].
  - now rewrite Ha.
  - cbn [existsb] in Hpre. apply orb_false_iff in Hpre. destruct Hpre as [Hx Hpre].
    rewrite Hx, (IH Hpre). reflexivity.
Qed.

Lemma latest_match {A} (p : A -> bool) (l : list A) :
  existsb p l = true ->
  exists before a after,
    l = before ++ a :: after /\ p a = true /\ existsb p after = false.
Proof.
  induction l as [ | x l IH] using rev_ind; [ discriminate | ].
  rewrite existsb_app. cbn [existsb]. rewrite orb_false_r.
  destruct (p x) eqn:Ex.
  - intros _. exists l, x, []. auto.
  - rewrite orb_false_r. intros H. destruct (IH H) as (before & a & after & -> & Ha & Hn).
    exists before, a, (after ++ [x]). rewrite <- app_assoc. split; [ reflexivity | ].
    split; [ exact Ha | ]. rewrite existsb_app, Hn. cbn. now rewrite Ex.
Qed.

Lemma existsb_rev {A} (p : A -> bool) (l : list A) :
  existsb p (List.rev l) = existsb p l.
Proof.
  induction l as [ | x l IH]; [ reflexivity | ].
  cbn [List.rev existsb]. rewrite existsb_app, IH. cbn. rewrite orb_false_r.
  apply orb_comm.
Qed.

Section Activities.

Variable isoformat : Z -> string.

(** The time an ending status reads, at the clock of [w]. *)
Definition ended_at (status : string) (w : World) : option string :=
  if ends status then Some (isoformat (clock w (reads w))) else None.

Lemma update_status_latest (agent action status : string)
    (output_data error : option string) (w : World)
    (before after : list Activity) (a : Activity) :
  process_activities w = before ++ a :: after ->
  is_activity agent action a = true ->
  existsb (is_activity agent action) after = false ->
  exists w',
    _update_activity_status isoformat agent action status output_data error w
    = (Ok tt, w')
    /\ process_activities w'
       = before ++ updated (ended_at status w) status output_data error a :: after
    /\ agent_state_manager w' = agent_state_manager w.
Proof.
  intros Hp Ha Hn.
  unfold _update_activity_status, mbind_M at 1. unfold gets at 1. rewrite Hp.
  rewrite existsb_app. cbn [existsb]. rewrite Ha, orb_true_r.
  rewrite rev_app_distr. cbn [List.rev]. rewrite <- app_assoc. cbn [app].
  unfold end_time, ended_at.
  destruct (ends status); unfold mbind_M, utcnow, ret;
    rewrite update_first_latest by (rewrite ?existsb_rev; assumption);
    unfold modify, notify_callbacks, modify; eexists; (split; [ reflexivity | ]);
    rewrite notify_activities, notify_manager;
    cbn [process_activities set_activities agent_state_manager clock reads];
    rewrite rev_app_distr; cbn [List.rev]; rewrite !rev_involutive, <- app_assoc;
    auto.
Qed.

(** X22: [_update_activity_status] never adds or removes an activity and
    leaves the state manager alone. It changes one activity at most, the
    latest one of the agent and action: later activities and all others
    stay as they are, and the changed one keeps its agent, action, start
    time and input. Without such an activity nothing at all happens: the
    clock is not even read. *)
Theorem update_activity_status_changes_latest (agent action status : string)
    (output_data error : option string) (w : World) :
  exists w',
    _update_activity_status isoformat agent action status output_data error w
    = (Ok tt, w')
    /\ agent_state_manager w' = agent_state_manager w
    /\ length (process_activities w') = length (process_activities w)
    /\ map (fun a => (act_agent a, act_action a, startTime a, act_input a))
         (process_activities w')
       = map (fun a => (act_agent a, act_action a, startTime a, act_input a))
           (process_activities w)
    /\ if existsb (is_activity agent action) (process_activities w) then
         exists before a after,
           process_activities w = before ++ a :: after
           /\ is_activity agent action a = true
           /\ existsb (is_activity agent action) after = false
           /\ process_activities w'
              = before
                ++ updated (ended_at status w) status output_data error a
                :: after
       else w' = w.
Proof.
  destruct (existsb (is_activity agent action) (process_activities w)) eqn:E.
  - destruct (latest_match _ _ E) as (before & a & after & Hp & Ha & Hn).
    destruct (update_status_latest agent action status output_data error w
                before after a Hp Ha Hn) as (w' & Hr & Hp' & Hm).
    exists w'. split; [ exact Hr | ]. split; [ exact Hm | ].
    rewrite Hp', Hp. split; [ now rewrite !length_app | ].
    split; [ now rewrite !map_app | ].
    exists before, a, after. auto.
  - exists w. unfold _update_activity_status, mbind_M, gets. rewrite E.
    auto.
Qed.


End Activities.

Section Streaming.

Variable isoformat : Z -> string.
Variable ExecutionResult : Type.
Variable analyze_request : M Analysis.
Variable _handle_planning : Analysis -> M bool.
Variable _execute_plan : Analysis -> M ExecutionResult.
Variable _determine_preview_update : ExecutionResult -> M bool.
Variable _generate_final_response :
  Analysis -> ExecutionResult -> bool -> M string.




End Streaming.

Section Preview.

Variable isoformat : Z -> string.
Variable microseconds : string -> Z.

Lemma determine_preview_update_fresh (engine : PreviewUpdateDecision)
    (execution_result : ExecutionDict) (w : World) :
  last_update_time engine = None ->
  0 < min_update_interval engine ->
  state_in (current_state (agent_state_manager w))
    (force_update_triggers engine) = false ->
  _determine_preview_update isoformat microseconds engine execution_result w
  = (Ok (false, engine), w).
Proof.
  intros Hn Hi Hs.
  unfold _determine_preview_update, mbind_M at 1. unfold gets at 1.
  rewrite Hn. unfold mbind_M at 1. unfold ret at 1.
  unfold should_update_preview. rewrite Hs.
  assert (E : (0 >=? min_update_interval engine) = false)
    by (rewrite Z.geb_leb; apply Z.leb_gt; exact Hi).
  rewrite E, !andb_false_r.
  now destruct (content_generated execution_result).
Qed.

(** X25: a preview engine that has never recorded an update does not
    start: as long as the state manager is in none of the engine's
    forcing states ([IDLE] and [WAITING_FEEDBACK] for the engine as it is
    made), [_determine_preview_update] answers [False] whatever was
    generated or changed, and leaves the engine, the state manager and
    the clock as they were; so the next call finds the same engine. *)
Theorem preview_update_never_starts (engine : PreviewUpdateDecision)
    (execution_result : ExecutionDict) (w : World) :
  last_update_time engine = None ->
  0 < min_update_interval engine ->
  state_in (current_state (agent_state_manager w))
    (force_update_triggers engine) = false ->
  _determine_preview_update isoformat microseconds engine execution_result w
  = (Ok (false, engine), w).
Proof. apply determine_preview_update_fresh. Qed.

(** A world whose state manager is writing. *)
Definition writing_world : World :=
  {| document_id := 7;
     context := None;
     start_time := None;
     operation_count := 1;
     process_activities := [];
     activity_callbacks := [];
     agent_state_manager :=
       snd (transition_to AgentStates.init "2024-01-01T00:00:00" WRITING
              "writer" (Some "Generating content"));
     clock := Z.of_nat;
     reads := 0;
     error_log := [] |}.

End Preview.

Lemma preview_update_never_starts_witness :
  _determine_preview_update (fun _ => "2024-01-01T00:00:01") (fun _ => 0)
    preview_init
    {| content_generated := true; content_reviewed := false;
       changes_made := 500; review_score := None |}
    writing_world
  = (Ok (false, preview_init), writing_world).
Proof.
  apply (preview_update_never_starts (fun _ => "2024-01-01T00:00:01")
           (fun _ => 0) preview_init).
  - reflexivity.
  - reflexivity.
  - reflexivity.
Defined.

End DocumentOrchestratorsSteps.

(** ** The plan read from a text, and the Vertex AI prompt *)

Module DocumentPlannersText.
Import Py PyStr PyStrProps PyStrFacts DocumentPlanners.

(** A stripped line that names the title, and one that names a section. *)
Definition is_title_line (line : string) : bool :=
  startswith "Title:" line || startswith "# " line.

Definition is_section_line (line : string) : bool :=
  startswith "- " line || startswith "* " line.

(** The section made from a section line. *)
Definition section_of (line : string) : PlanSection :=
  {| title := strip (replace "* " "" (replace "- " "" line));
     description := "";
     estimated_words := 200;
     priority := "medium" |}.

(** The title taken from a title line. *)
Definition title_of (line : string) : string :=
  strip (replace "# " "" (replace "Title:" "" line)).

Lemma title_line_is_no_section_line (line : string) :
  is_title_line line = true -> is_section_line line = false.
Proof.
  unfold is_title_line, is_section_line.
  destruct line as [ | c line]; [ discriminate | ]. cbn [startswith].
  destruct (Ascii.eqb "-" c) eqn:E1;
    [ apply Ascii.eqb_eq in E1; subst c; discriminate | ].
  destruct (Ascii.eqb "*" c) eqn:E2;
    [ apply Ascii.eqb_eq in E2; subst c; discriminate | ].
  reflexivity.
Qed.

Lemma default_last_cons {A} (a t : A) (l : list A) :
  default a (last l) = default t (last (a :: l)).
Proof.
  destruct l as [ | x xs]; [ reflexivity | ].
  change (last (a :: x :: xs)) with (last (x :: xs)).
  destruct (last (x :: xs)) eqn:El; [ reflexivity | ].
  apply last_None in El. discriminate El.
Qed.

Lemma extract_line_fold (lines : list string) (t : string)
    (acc : list PlanSection) :
  fold_left extract_line lines (t, acc)
  = (default t
       (last (map title_of (List.filter is_title_line (map strip lines)))),
     acc ++ map section_of (List.filter is_section_line (map strip lines))).
Proof.
  revert t acc. induction lines as [ | l lines IH]; intros t acc.
  - cbn. now rewrite app_nil_r.
  - cbn [fold_left map List.filter]. unfold extract_line at 2.
    fold (is_title_line (strip l)). fold (is_section_line (strip l)).
    fold (title_of (strip l)). fold (section_of (strip l)).
    destruct (is_title_line (strip l)) eqn:Et.
    + rewrite (title_line_is_no_section_line _ Et), IH. f_equal. cbn [map].
      apply default_last_cons.
    + destruct (is_section_line (strip l)) eqn:Es; rewrite IH.
      * cbn [map]. now rewrite <- app_assoc.
      * reflexivity.
Qed.

(** The lines of a text. *)
Definition text_lines (text : string) : list string := split_char "010"%char text.

Lemma section_line_has_marker (line : string) :
  is_section_line line = true ->
  In "-"%char (chars line) \/ In "*"%char (chars line).
Proof.
  unfold is_section_line. destruct line as [ | c line]; [ discriminate | ].
  cbn [startswith chars].
  destruct (Ascii.eqb "-" c) eqn:E1;
    [ apply Ascii.eqb_eq in E1; subst c; intros _; left; now left | ].
  destruct (Ascii.eqb "*" c) eqn:E2;
    [ apply Ascii.eqb_eq in E2; subst c; intros _; right; now left | ].
  discriminate.
Qed.

Lemma occurs_in_chars (x s : string) (c : ascii) :
  occurs_in x s -> In c (chars x) -> In c (chars s).
Proof.
  intros (a & b & ->) H. rewrite !chars_app. apply in_or_app. right.
  apply in_or_app. now left.
Qed.

(** X26: the plan read from a text has one section for each line that,
    stripped, begins with "- " or "* ", in the order of the lines, each
    with 200 estimated words, medium priority and no description; its
    estimated time is 300 seconds for each section; its title is taken
    from the last line that begins with "Title:" or "# ", and is
    "Document" without one. A text in which neither "-" nor "*" occurs
    gives a plan without sections and with estimated time 0. *)
Theorem extract_plan_from_text_reads_the_lines (text : string) :
  let d := _extract_plan_from_text text in
  document_type d = "document"
  /\ sections d
     = map section_of
         (List.filter is_section_line (map strip (text_lines text)))
  /\ estimated_time d = 300 * Z.of_nat (length (sections d))
  /\ plan_title d
     = default "Document"
         (last (map title_of
                  (List.filter is_title_line (map strip (text_lines text)))))
  /\ ((forall c, In c (chars text) -> c <> "-"%char /\ c <> "*"%char) ->
      sections d = [] /\ estimated_time d = 0).
Proof.
  cbv zeta. unfold _extract_plan_from_text. fold (text_lines text).
  rewrite extract_line_fold. cbn [app document_type sections estimated_time plan_title].
  split; [ reflexivity | ]. split; [ reflexivity | ].
  split; [ apply Z.mul_comm | ]. split; [ reflexivity | ].
  intros Hno.
  assert (E : List.filter is_section_line (map strip (text_lines text)) = []).
  { destruct (List.filter is_section_line (map strip (text_lines text)))
      as [ | x xs] eqn:E; [ reflexivity | exfalso ].
    assert (Hx : In x (List.filter is_section_line (map strip (text_lines text))))
      by (rewrite E; now left).
    apply filter_In in Hx. destruct Hx as [Hx Hs].
    apply in_map_iff in Hx. destruct Hx as (l & <- & Hl).
    assert (Ho : occurs_in (strip l) text).
    { eapply occurs_in_trans; [ apply strip_occurs | ].
      now apply split_char_occurs in Hl. }
    destruct (section_line_has_marker _ Hs) as [H | H];
      apply (occurs_in_chars _ _ _ Ho), Hno in H; destruct H; congruence. }
  rewrite E. split; reflexivity.
Qed.

Lemma extract_plan_from_text_reads_the_lines_witness :
  sections (_extract_plan_from_text "I could not create a plan.") = []
  /\ estimated_time (_extract_plan_from_text "I could not create a plan.") = 0.
Proof.
  apply (extract_plan_from_text_reads_the_lines "I could not create a plan.").
  intros c Hc. cbn in Hc.
  repeat (destruct Hc as [<- | Hc]; [ split; discriminate | ]). destruct Hc.
Defined.

End DocumentPlannersText.

Module VertexPrompts.
Import Py PyStr PyStrProps PyStrFacts AgentConfigs LLMRouters.

Lemma join_occurs (sep x : string) (xs : list string) :
  In x xs -> occurs_in x (join sep xs).
Proof.
  induction xs as [ | y xs IH]; [ intros [] | ].
  intros [-> | H]; cbn [join]; destruct xs as [ | z xs].
  - apply occurs_in_refl.
  - exists "", (sep +:+ join sep (z :: xs)). reflexivity.
  - destruct H.
  - destruct (IH H) as (a & b & E). exists (y +:+ sep +:+ a), b.
    rewrite E, !string_app_assoc. reflexivity.
Qed.

(** A message of a role with its content. *)
Definition message (role content : string) : Message :=
  {[ "role" := role; "content" := content ]}.

(** X27: the prompt made for Vertex AI always has the text "User:" in it:
    when no part made from the messages has it, the generic request is
    added at the end. The test is on the text of the parts, not on the
    roles: a single system message whose content has "User:" in it gives
    a prompt of that context alone, without any user turn. *)
Theorem vertex_prompt_has_user_text (messages : list Message) :
  contains "User:" (_convert_messages_to_vertex_format messages) = true
  /\ (forall content,
        contains "User:" content = true ->
        _convert_messages_to_vertex_format [message "system" content]
        = "Context: " +:+ content).
Proof.
  split.
  - unfold _convert_messages_to_vertex_format.
    destruct (existsb _ (fold_left vertex_part messages [])) eqn:E; cbn [negb].
    + apply existsb_exists in E. destruct E as (part & Hin & Hc).
      apply contains_occurs. apply contains_occurs in Hc.
      eapply occurs_in_trans; [ exact Hc | now apply join_occurs ].
    + apply contains_occurs.
      exists (join blank_line (fold_left vertex_part messages []) +:+ blank_line),
        " Please provide a helpful response.".
      rewrite !string_app_assoc. reflexivity.
  - intros content Hc. unfold _convert_messages_to_vertex_format, message.
    cbn [fold_left]. unfold vertex_part.
    replace (({[ "role" := "system"; "content" := content ]} : Message) !! "role")
      with (Some "system") by (symmetry; apply lookup_insert_eq).
    replace (({[ "role" := "system"; "content" := content ]} : Message) !! "content")
      with (Some content)
      by (symmetry; rewrite lookup_insert_ne by discriminate;
          apply lookup_singleton_eq).
    cbv [default from_option id].
    cbn [String.eqb Ascii.eqb Bool.eqb app existsb join].
    assert (E : contains "User:" ("Context: " +:+ content) = true).
    { apply contains_occurs. apply contains_occurs in Hc.
      destruct Hc as (a & b & ->). exists ("Context: " +:+ a), b.
      now rewrite string_app_assoc. }
    rewrite E. reflexivity.
Qed.

Lemma vertex_prompt_has_user_text_witness :
  _convert_messages_to_vertex_format
    [message "system" "Answer as User: would."]
  = "Context: Answer as User: would.".
Proof.
  apply (proj2 (vertex_prompt_has_user_text [])). reflexivity.
Defined.

End VertexPrompts.

(** ** Structuring what was written *)

Module DocumentWritersStructure.
Import Py PyStr PyStrProps PyStrFacts PyStrWords DocumentWriters.

(** White space only. *)
Definition all_space (s : string) : Prop :=
  forall c, In c (chars s) -> isspace c = true.

Lemma lstrip_idem (s : string) : lstrip (lstrip s) = lstrip s.
Proof.
  induction s as [ | c s IH]; [ reflexivity | ]. cbn [lstrip].
  destruct (isspace c) eqn:E; [ exact IH | ]. cbn [lstrip]. now rewrite E.
Qed.

Lemma lstrip_app_nonempty (a b : string) :
  lstrip a <> "" -> lstrip (a +:+ b) = lstrip a +:+ b.
Proof.
  induction a as [ | c a IH]; [ intros H; exfalso; now apply H | ].
  rewrite string_app_cons.
  cbn [lstrip]. destruct (isspace c); [ exact IH | reflexivity ].
Qed.

Lemma lstrip_space_prefix (a b : string) :
  all_space a -> lstrip (a +:+ b) = lstrip b.
Proof.
  induction a as [ | c a IH]; intros H; [ reflexivity | ].
  rewrite string_app_cons. cbn [lstrip]. rewrite (H c) by now left.
  apply IH. intros x Hx. apply H. now right.
Qed.

Lemma lstrip_head (s : string) (c : ascii) (y : string) :
  lstrip s = String c y -> isspace c = false.
Proof.
  induction s as [ | x s IH]; [ discriminate | ]. cbn [lstrip].
  destruct (isspace x) eqn:E; [ exact IH | ]. intros H. injection H as <- _. exact E.
Qed.

Lemma lstrip_keeps_nonspace (s : string) (c : ascii) :
  In c (chars s) -> isspace c = false -> lstrip s <> "".
Proof.
  induction s as [ | x s IH]; [ intros [] | ]. cbn [chars lstrip].
  intros [-> | H] Hc.
  - rewrite Hc. discriminate.
  - destruct (isspace x); [ now apply IH | discriminate ].
Qed.

Lemma all_space_rev (s : string) : all_space s -> all_space (rev s).
Proof. intros H c Hc. apply H. now apply (proj1 (chars_rev s c)). Qed.

Lemma rev_empty (s : string) : rev s = "" -> s = "".
Proof. intros H. rewrite <- (rev_rev s), H. reflexivity. Qed.

Lemma rstrip_app_nonempty (a b : string) :
  rstrip b <> "" -> rstrip (a +:+ b) = a +:+ rstrip b.
Proof.
  unfold rstrip. intros H. rewrite rev_app, lstrip_app_nonempty.
  - now rewrite rev_app, rev_rev.
  - intros E. apply H. now rewrite E.
Qed.

Lemma rstrip_space_suffix (a b : string) :
  all_space b -> rstrip (a +:+ b) = rstrip a.
Proof.
  unfold rstrip. intros H.
  now rewrite rev_app, lstrip_space_prefix by now apply all_space_rev.
Qed.

Lemma rstrip_idem (s : string) : rstrip (rstrip s) = rstrip s.
Proof. unfold rstrip. now rewrite rev_rev, lstrip_idem. Qed.

Lemma lstrip_strip (s : string) : lstrip (strip s) = strip s.
Proof.
  unfold strip. destruct (lstrip s) as [ | c y] eqn:E; [ reflexivity | ].
  pose proof (lstrip_head s c y E) as Hc.
  destruct (rstrip_prefix (String c y)) as [b Hb].
  assert (Hne : rstrip (String c y) <> "").
  { unfold rstrip. intros H. apply rev_empty in H. revert H.
    apply (lstrip_keeps_nonspace _ c); [ | exact Hc ].
    apply (proj2 (chars_rev _ c)). now left. }
  destruct (rstrip (String c y)) as [ | x z]; [ congruence | ].
  rewrite string_app_cons in Hb. injection Hb as <- _.
  cbn [lstrip]. now rewrite Hc.
Qed.

Lemma rstrip_strip (s : string) : rstrip (strip s) = strip s.
Proof. unfold strip. apply rstrip_idem. Qed.

(** Stripping twice is stripping once. *)
Lemma strip_idem (s : string) : strip (strip s) = strip s.
Proof. unfold strip at 1. now rewrite lstrip_strip, rstrip_strip. Qed.

Lemma strip_lstrip (s : string) : strip (lstrip s) = strip s.
Proof. unfold strip. now rewrite lstrip_idem. Qed.

Lemma lstrip_nonempty_of_strip (s : string) : strip s <> "" -> lstrip s <> "".
Proof. unfold strip. intros H E. apply H. now rewrite E. Qed.


(** The separator of [_structure_content_with_plan]. *)
Definition heading_mark : string := newline +:+ "##".

Definition free_of (x : ascii) (s : string) : Prop :=
  forall c, In c (chars s) -> c <> x.

Lemma split_str_free_of_newline (x r tok : string) :
  free_of "010"%char x ->
  split_str_go heading_mark (x +:+ r) tok 0
  = split_str_go heading_mark r (rev_append x tok) 0.
Proof.
  revert tok. induction x as [ | c x IH]; intros tok H; [ reflexivity | ].
  rewrite string_app_cons. cbn [split_str_go rev_append].
  assert (E : startswith heading_mark (String c (x +:+ r)) = false).
  { unfold heading_mark, newline. change (String "010" "" +:+ "##") with
      (String "010" (String "#" (String "#" ""))).
    cbn [startswith].
    destruct (Ascii.eqb "010" c) eqn:E; [ | reflexivity ].
    apply Ascii.eqb_eq in E. exfalso. apply (H c); [ now left | now symmetry ]. }
  rewrite E. apply IH. intros y Hy. apply H. now right.
Qed.

Lemma split_str_free_of_hash (x r tok : string) :
  free_of "#"%char x ->
  match r with
  | EmptyString => True
  | String e _ => e <> "#"%char
  end ->
  split_str_go heading_mark (x +:+ r) tok 0
  = split_str_go heading_mark r (rev_append x tok) 0.
Proof.
  revert tok. induction x as [ | c x IH]; intros tok H Hr; [ reflexivity | ].
  rewrite string_app_cons. cbn [split_str_go rev_append].
  assert (E : startswith heading_mark (String c (x +:+ r)) = false).
  { unfold heading_mark, newline. change (String "010" "" +:+ "##") with
      (String "010" (String "#" (String "#" ""))).
    cbn [startswith]. destruct (Ascii.eqb "010" c); [ | reflexivity ].
    destruct x as [ | d x].
    - change ("" +:+ r) with r. destruct r as [ | e r]; [ reflexivity | ].
      destruct (Ascii.eqb "#" e) eqn:E; [ | reflexivity ].
      apply Ascii.eqb_eq in E. now subst e.
    - rewrite string_app_cons.
      destruct (Ascii.eqb "#" d) eqn:E; [ | reflexivity ].
      apply Ascii.eqb_eq in E. exfalso. apply (H d); [ right; now left | now symmetry ]. }
  rewrite E. apply IH; [ | exact Hr ]. intros y Hy. apply H. now right.
Qed.

Lemma split_str_at_mark (r tok : string) :
  split_str_go heading_mark (heading_mark +:+ r) tok 0
  = rev tok :: split_str_go heading_mark r "" 0.
Proof. reflexivity. Qed.

Lemma split_once_free_of (sep : ascii) (x r tok : string) :
  free_of sep x ->
  split_once_go sep (x +:+ r) tok = split_once_go sep r (rev_append x tok).
Proof.
  revert tok. induction x as [ | c x IH]; intros tok H; [ reflexivity | ].
  rewrite string_app_cons. cbn [split_once_go rev_append].
  destruct (Ascii.eqb c sep) eqn:E.
  - apply Ascii.eqb_eq in E. exfalso. apply (H c); [ now left | exact E ].
  - apply IH. intros y Hy. apply H. now right.
Qed.

Lemma split_once_whole (sep : ascii) (x : string) :
  free_of sep x -> split_once sep x = [x].
Proof.
  intros H. unfold split_once. rewrite <- (string_app_nil_r x) at 1.
  rewrite split_once_free_of by exact H. cbn [split_once_go].
  fold (rev x). now rewrite rev_rev.
Qed.

Lemma split_once_first (sep : ascii) (x r : string) :
  free_of sep x -> split_once sep (x +:+ String sep r) = [x; r].
Proof.
  intros H. unfold split_once. rewrite split_once_free_of by exact H.
  cbn [split_once_go]. rewrite Ascii.eqb_refl. fold (rev x). now rewrite rev_rev.
Qed.

(** A section as it is written: its title and the content given for it. *)
Definition written (p : string * string) : string :=
  _format_section_content {| section_title := Some (fst p) |} (snd p).

(** What follows the mark in a written section. *)
Definition after_mark (p : string * string) : string :=
  " " +:+ fst p +:+ newline +:+ newline +:+ strip (snd p) +:+ newline +:+ newline.

Lemma written_after_mark (p : string * string) :
  written p = heading_mark +:+ after_mark p.
Proof.
  unfold written, _format_section_content, heading_mark, after_mark.
  cbn [section_title default]. rewrite !string_app_assoc. reflexivity.
Qed.

(** A title on one line that is not blank, and a content without "#". *)
Definition plain (p : string * string) : Prop :=
  free_of "010"%char (fst p) /\ strip (fst p) <> ""
  /\ free_of "#"%char (snd p).

Lemma free_of_app (x : ascii) (a b : string) :
  free_of x a -> free_of x b -> free_of x (a +:+ b).
Proof.
  intros Ha Hb c Hc. rewrite chars_app in Hc. apply in_app_or in Hc.
  destruct Hc; [ now apply Ha | now apply Hb ].
Qed.

Lemma free_of_strip (x : ascii) (s : string) : free_of x s -> free_of x (strip s).
Proof. intros H c Hc. apply H. now apply chars_strip. Qed.

Lemma free_of_lstrip (x : ascii) (s : string) : free_of x s -> free_of x (lstrip s).
Proof. intros H c Hc. apply H. now apply chars_lstrip. Qed.

Lemma rev_rev_append (a b : string) : rev (rev_append a b) = rev b +:+ a.
Proof.
  apply chars_inj.
  rewrite chars_rev_list, chars_rev_append_list, chars_app, chars_rev_list.
  rewrite rev_app_distr, rev_involutive. reflexivity.
Qed.

(** The blank lines and content that end a written section. *)
Definition closing (p : string * string) : string :=
  newline +:+ newline +:+ strip (snd p) +:+ newline +:+ newline.

Lemma after_mark_parts (p : string * string) :
  after_mark p = String " " (fst p) +:+ closing p.
Proof. reflexivity. Qed.

Lemma closing_free_of_hash (p : string * string) :
  free_of "#"%char (snd p) -> free_of "#"%char (closing p).
Proof.
  intros H. unfold closing.
  assert (Hn : free_of "#"%char newline)
    by (intros c [<- | []]; discriminate).
  repeat apply free_of_app; try assumption. now apply free_of_strip.
Qed.

Lemma split_after_mark (p : string * string) (rest : list (string * string))
    (tok : string) :
  Forall plain (p :: rest) ->
  split_str_go heading_mark (after_mark p +:+ flatten (map written rest)) tok 0
  = (rev tok +:+ after_mark p) :: map after_mark rest.
Proof.
  revert p tok. induction rest as [ | q rest IH]; intros p tok Hp;
    inversion Hp as [ | ? ? (Hn & _ & Hh) Hrest]; subst;
    rewrite after_mark_parts, string_app_assoc;
    (rewrite split_str_free_of_newline
      by (intros c [<- | Hc]; [ discriminate | now apply Hn ])).
  - cbn [map flatten fold_right].
    rewrite split_str_free_of_hash by (try apply closing_free_of_hash; trivial).
    cbn [split_str_go]. rewrite !rev_rev_append, string_app_assoc. reflexivity.
  - cbn [map flatten fold_right]. fold (flatten (map written rest)).
    rewrite written_after_mark, string_app_assoc.
    rewrite split_str_free_of_hash
      by (try apply closing_free_of_hash; trivial; discriminate).
    rewrite split_str_at_mark, (IH q "" Hrest).
    rewrite !rev_rev_append, string_app_assoc. reflexivity.
Qed.

Lemma split_written (parts : list (string * string)) :
  Forall plain parts ->
  split_str heading_mark (flatten (map written parts))
  = "" :: map after_mark parts.
Proof.
  destruct parts as [ | p rest]; intros H; [ reflexivity | ].
  cbn [map flatten fold_right]. fold (flatten (map written rest)).
  unfold split_str. rewrite written_after_mark, string_app_assoc.
  rewrite split_str_at_mark, (split_after_mark p rest "" H). reflexivity.
Qed.


Lemma all_space_newlines : all_space (newline +:+ newline +:+ "" +:+ newline +:+ newline).
Proof. intros c Hc. cbn in Hc. repeat (destruct Hc as [<- | Hc]; [ reflexivity | ]). destruct Hc. Qed.

Lemma strip_after_mark (p : string * string) :
  plain p ->
  strip (after_mark p)
  = match strip (snd p) with
    | EmptyString => strip (fst p)
    | String _ _ =>
        lstrip (fst p) +:+ String "010" (newline +:+ strip (snd p))
    end.
Proof.
  intros (Hn & Ht & Hh). unfold strip at 1. rewrite after_mark_parts.
  rewrite string_app_cons. cbn [lstrip].
  change (isspace " ") with true. cbn match.
  rewrite lstrip_app_nonempty by now apply lstrip_nonempty_of_strip.
  unfold closing. destruct (strip (snd p)) as [ | x y] eqn:E.
  - rewrite rstrip_space_suffix by apply all_space_newlines. reflexivity.
  - replace (lstrip (fst p) +:+ newline +:+ newline +:+ String x y +:+ newline +:+ newline)
      with ((lstrip (fst p) +:+ newline +:+ newline) +:+ (String x y +:+ newline +:+ newline))
      by (now rewrite !string_app_assoc).
    assert (Hr : rstrip (String x y +:+ newline +:+ newline) = String x y).
    { rewrite rstrip_space_suffix
        by (intros c [<- | [<- | []]]; reflexivity).
      rewrite <- E. apply rstrip_strip. }
    rewrite rstrip_app_nonempty by (rewrite Hr; discriminate).
    rewrite Hr, !string_app_assoc. reflexivity.
Qed.

Lemma structure_after_mark (p : string * string) (i : nat)
    (acc : list StructuredSection) :
  plain p ->
  structure_part (S i, acc) (after_mark p)
  = (S (S i),
     acc ++ [ {| id := "section_" +:+ str_nat (S i);
                 structured_title := strip (fst p);
                 structured_content := strip (snd p);
                 order := S i |} ]).
Proof.
  intros Hp. pose proof Hp as (Hn & Ht & Hh).
  unfold structure_part. cbn [Nat.eqb]. rewrite (strip_after_mark p Hp).
  destruct (strip (snd p)) as [ | x y] eqn:E.
  - rewrite split_once_whole by now apply free_of_strip.
    cbn [hd]. now rewrite strip_idem.
  - rewrite split_once_first by now apply free_of_lstrip.
    cbn [hd]. rewrite strip_lstrip.
    assert (Hc : strip (newline +:+ String x y) = String x y).
    { unfold strip at 1.
      change (lstrip (newline +:+ String x y)) with (lstrip (String x y)).
      rewrite <- E, lstrip_strip. apply rstrip_strip. }
    now rewrite Hc.
Qed.

(** The sections that structuring makes of the parts, numbered from [i]. *)
Fixpoint numbered (i : nat) (parts : list (string * string))
  : list StructuredSection :=
  match parts with
  | [] => []
  | p :: rest =>
      {| id := "section_" +:+ str_nat i;
         structured_title := strip (fst p);
         structured_content := strip (snd p);
         order := i |} :: numbered (S i) rest
  end.

Lemma structure_parts (parts : list (string * string)) (i : nat)
    (acc : list StructuredSection) :
  Forall plain parts ->
  snd (fold_left structure_part (map after_mark parts) (S i, acc))
  = acc ++ numbered (S i) parts.
Proof.
  intros H. revert i acc. induction H as [ | p rest Hp _ IH]; intros i acc.
  - cbn. now rewrite app_nil_r.
  - cbn [map fold_left numbered]. rewrite (structure_after_mark p i acc Hp).
    rewrite IH, <- app_assoc. reflexivity.
Qed.

Lemma numbered_length (i : nat) (parts : list (string * string)) :
  length (numbered i parts) = length parts.
Proof.
  revert i. induction parts as [ | p rest IH]; intros i; [ reflexivity | ].
  cbn [numbered length]. now rewrite IH.
Qed.

(** X28: structuring recovers what was written. For sections written by
    [_format_section_content] with titles that are on one line and not
    blank, and contents without "#", the structured content of their
    concatenation has exactly one section per written section, in order,
    numbered from 1, with the stripped title and the stripped content;
    no "Introduction" section is made. *)
Theorem structure_content_recovers_sections (plan : DocumentPlan)
    (parts : list (string * string)) :
  sections plan <> [] ->
  Forall plain parts ->
  _structure_content (flatten (map written parts)) (Some plan)
  = {| structured_type := document_type plan;
       document_title := title plan;
       structured_sections := numbered 1 parts;
       total_sections := length parts |}.
Proof.
  intros Hs Hp. unfold _structure_content.
  destruct (sections plan) as [ | s l]; [ congruence | ].
  unfold _structure_content_with_plan. fold heading_mark.
  rewrite (split_written parts Hp). cbn [fold_left].
  replace (structure_part (0%nat, []) "") with (1%nat, @nil StructuredSection)
    by reflexivity.
  pose proof (structure_parts parts 0 [] Hp) as H.
  destruct (fold_left structure_part (map after_mark parts) (1%nat, []))
    as [n made]. cbn [snd app] in H. subst made.
  now rewrite numbered_length.
Qed.

(** Two sections as a model may have written them. *)
Definition two_parts : list (string * string) :=
  [ ("Summary", "  Sales rose.  "); (" Outlook ", "Costs fall.") ].

Lemma two_parts_plain : Forall plain two_parts.
Proof.
  repeat constructor; try (vm_compute; discriminate);
    intros c Hc; cbn in Hc;
    repeat (destruct Hc as [<- | Hc]; [ discriminate | ]); destruct Hc.
Qed.

Lemma structure_content_recovers_sections_witness :
  _structure_content (flatten (map written two_parts))
    (Some DocumentWritersProps.two_sections)
  = {| structured_type := "report";
       document_title := "Annual report";
       structured_sections :=
         [ {| id := "section_1"; structured_title := "Summary";
              structured_content := "Sales rose."; order := 1 |};
           {| id := "section_2"; structured_title := "Outlook";
              structured_content := "Costs fall."; order := 2 |} ];
       total_sections := 2 |}.
Proof.
  apply (structure_content_recovers_sections DocumentWritersProps.two_sections
           two_parts); [ discriminate | apply two_parts_plain ].
Defined.

End DocumentWritersStructure.

(** ** Executing the plan *)

Module DocumentOrchestratorsExecute.
Import Py PyStr AgentStates AgentStatesProps AgentConfigs LLMRouters.
Import DocumentOrchestrators DocumentOrchestratorsProps.
Import DocumentOrchestratorsSteps.

Local Open Scope orch_scope.

(** The second world has the state and the context of the first. *)
Definition keeps (w w' : World) : Prop :=
  current_state (agent_state_manager w') = current_state (agent_state_manager w)
  /\ context w' = context w.

Lemma keeps_refl (w : World) : keeps w w.
Proof. split; reflexivity. Qed.

Lemma keeps_trans (w1 w2 w3 : World) : keeps w1 w2 -> keeps w2 w3 -> keeps w1 w3.
Proof. intros [A B] [C D]. split; congruence. Qed.

Lemma notify_context callbacks activity w :
  context (notify callbacks activity w) = context w.
Proof.
  revert w. induction callbacks as [ | cb rest IH ]; intros w; simpl.
  - reflexivity.
  - destruct (cb activity); rewrite IH; reflexivity.
Qed.

Section Steps.

Variable isoformat : Z -> string.

Lemma emit_keeps (agent action status : string)
    (input_data output_data error : option string) (w : World) :
  exists w',
    _emit_activity isoformat agent action status input_data output_data error w
    = (Ok tt, w')
    /\ keeps w w'.
Proof.
  unfold _emit_activity, end_time, notify_callbacks, mbind_M, utcnow, modify, ret.
  destruct (ends status); eexists; (split; [ reflexivity | ]); split;
    rewrite ?notify_manager, ?notify_context; reflexivity.
Qed.

Lemma update_keeps (agent action status : string)
    (output_data error : option string) (w : World) :
  exists w',
    _update_activity_status isoformat agent action status output_data error w
    = (Ok tt, w')
    /\ keeps w w'.
Proof.
  unfold _update_activity_status, mbind_M at 1. unfold gets at 1.
  destruct (existsb _ (process_activities w)); [ | exists w; split; [ reflexivity | apply keeps_refl ] ].
  unfold end_time.
  destruct (update_first agent action
              (updated (if ends status
                        then Some (isoformat (clock w (reads w)))
                        else None) status output_data error)
              (List.rev (process_activities w))) as [latest found] eqn:E.
  destruct (ends status); unfold mbind_M, utcnow, ret; cbn [process_activities];
    rewrite E; unfold modify, notify_callbacks, modify;
    destruct found; eexists; (split; [ reflexivity | ]); split;
    rewrite ?notify_manager, ?notify_context; reflexivity.
Qed.

Lemma transition_reaches (t : AgentState) (agent_type message : string)
    (w : World) :
  exists w',
    transition isoformat t agent_type message w = (Ok tt, w')
    /\ current_state (agent_state_manager w') = t
    /\ context w' = context w.
Proof.
  unfold transition, mbind_M, gets, utcnow, modify, ret.
  destruct (AgentState_eqb (current_state (agent_state_manager w)) t) eqn:E.
  - exists w. apply AgentState_eqb_eq in E. auto.
  - eexists. split; [ reflexivity | ].
    cbn [agent_state_manager context set_manager].
    rewrite transition_to_reaches. auto.
Qed.

Lemma queue_keeps (m : AgentMessage) (w : World) :
  exists w', queue_message m w = (Ok tt, w') /\ keeps w w'.
Proof. eexists. split; [ reflexivity | ]. split; reflexivity. Qed.

Lemma bind_ok {A B} (c : M A) (k : A -> M B) (w w1 : World) (a : A) :
  c w = (Ok a, w1) -> mbind_M c k w = k a w1.
Proof. intros H. unfold mbind_M. now rewrite H. Qed.

Lemma optional_emit_keeps (b : bool) (agent action status : string)
    (input_data output_data error : option string) (w : World) :
  exists w',
    (if b then
       _emit_activity isoformat agent action status input_data output_data error
     else ret tt) w
    = (Ok tt, w')
    /\ keeps w w'.
Proof.
  destruct b; [ apply emit_keeps | ].
  exists w. split; [ reflexivity | apply keeps_refl ].
Qed.

Lemma utcnow_keeps (w : World) :
  exists w', utcnow w = (Ok (clock w (reads w)), w') /\ keeps w w'.
Proof. eexists. split; [ reflexivity | ]. split; reflexivity. Qed.

End Steps.

Section Execute.

Variable isoformat : Z -> string.
Variable microseconds : string -> Z.
Variable Plan : Type.
Variable write_content :
  AgentContext -> option Plan -> DocumentWriters.WriteResult * option Plan.
Variable review_content :
  option AgentContext -> option Plan -> DocumentReviewers.ReviewResult.
Variable writing_metadata : DocumentWriters.WriteResult -> list (string * string).
Variable review_metadata :
  DocumentReviewers.ReviewResult -> list (string * string).

(** Run a step that is known to return. *)
Ltac run H :=
  let w' := fresh "w" in
  let Hr := fresh "Hr" in
  let Hk := fresh "Hk" in
  destruct H as (w' & Hr & Hk);
  rewrite (bind_ok _ _ _ _ _ Hr); clear Hr.

Lemma writing_phase_returns (current_plan : option Plan) (analysis : Analysis)
    (w : World) (ctx : AgentContext) :
  context w = Some ctx ->
  exists w',
    writing_phase isoformat Plan write_content writing_metadata current_plan
      analysis w
    = (Ok (Z.of_nat (DocumentWriters.result_changes_made
                       (fst (write_content ctx current_plan))),
           snd (write_content ctx current_plan)), w')
    /\ current_state (agent_state_manager w') = WRITING
    /\ context w' = context w.
Proof.
  intros Hctx. unfold writing_phase.
  rewrite (bind_ok _ _ w w ctx)
    by (unfold current_context, mbind_M, gets; now rewrite Hctx).
  destruct (transition_reaches isoformat WRITING (agent_type_value WRITER)
              "Generating content" w) as (w1 & Hr & Hs & Hc).
  rewrite (bind_ok _ _ _ _ _ Hr). clear Hr.
  run (emit_keeps isoformat "writer" "Generating document content"
         "in_progress" (user_message ctx) None None w1).
  destruct (write_content ctx current_plan) as [wr plan']. cbn [fst snd].
  assert (H1 : exists w',
             (if DocumentWriters.success wr
              then
                mbind_M
                  (_update_activity_status isoformat "writer"
                     "Generating document content" "completed"
                     (Some (str_nat (DocumentWriters.result_words_written wr)
                            +:+ " words written")) None)
                  (fun _ =>
                     if DocumentWriters.document_updated wr
                     then
                       _emit_activity isoformat "orchestrator"
                         "Saving content to document" "completed" None
                         (Some ("Document updated with "
                                +:+ str_nat (DocumentWriters.result_words_written wr)
                                +:+ " words")) None
                     else ret tt)
              else
                _update_activity_status isoformat "writer"
                  "Generating document content" "error" None
                  (Some (default "Writing failed" (DocumentWriters.error wr))))
               w0
             = (Ok tt, w') /\ keeps w0 w').
  { destruct (DocumentWriters.success wr); [ | apply update_keeps ].
    destruct (update_keeps isoformat "writer" "Generating document content"
                "completed"
                (Some (str_nat (DocumentWriters.result_words_written wr)
                       +:+ " words written")) None w0) as (wa & Ha & Ka).
    rewrite (bind_ok _ _ _ _ _ Ha).
    destruct (optional_emit_keeps isoformat (DocumentWriters.document_updated wr)
                "orchestrator" "Saving content to document" "completed" None
                (Some ("Document updated with "
                       +:+ str_nat (DocumentWriters.result_words_written wr)
                       +:+ " words")) None wa) as (wb & Hb & Kb).
    exists wb. split; [ exact Hb | eapply keeps_trans; eassumption ]. }
  run H1.
  run (optional_emit_keeps isoformat (requires_review analysis) "orchestrator"
         "Writer completed, sending to reviewer" "completed" None
         (Some ("Content ready for review: "
                +:+ str_nat (DocumentWriters.result_words_written wr)
                +:+ " words")) None w2).
  run (utcnow_keeps w3).
  match goal with
  | |- context [ queue_message ?m ] => run (queue_keeps m w4)
  end.
  exists w5. split; [ reflexivity | ].
  destruct Hk as [A1 B1], Hk0 as [A2 B2], Hk1 as [A3 B3], Hk2 as [A4 B4],
    Hk3 as [A5 B5].
  split; congruence.
Qed.

Lemma review_phase_returns (current_plan : option Plan) (w : World) :
  exists w',
    review_phase isoformat Plan review_content review_metadata current_plan w
    = (Ok (DocumentReviewers.result_score
             (review_content (context w) current_plan)), w')
    /\ current_state (agent_state_manager w') = REVIEWING
    /\ context w' = context w.
Proof.
  unfold review_phase.
  destruct (transition_reaches isoformat REVIEWING (agent_type_value REVIEWER)
              "Reviewing content" w) as (w1 & Hr & Hs & Hc).
  rewrite (bind_ok _ _ _ _ _ Hr). clear Hr.
  run (emit_keeps isoformat "reviewer" "Reviewing content quality"
         "in_progress" None None None w1).
  rewrite (bind_ok _ _ w0 w0 (context w0)) by reflexivity.
  assert (Ec : context w0 = context w) by (destruct Hk; congruence).
  rewrite Ec.
  set (rr := review_content (context w) current_plan).
  assert (H1 : exists w',
             (if DocumentReviewers.success rr
              then
                _update_activity_status isoformat "reviewer"
                  "Reviewing content quality" "completed"
                  (Some ("Review score: "
                         +:+ str_int (DocumentReviewers.result_score rr)
                         +:+ "/10")) None
              else
                _update_activity_status isoformat "reviewer"
                  "Reviewing content quality" "error" None
                  (Some (default "Review failed" (DocumentReviewers.error rr))))
               w0
             = (Ok tt, w') /\ keeps w0 w')
    by (destruct (DocumentReviewers.success rr); apply update_keeps).
  run H1.
  match goal with
  | |- context [ _emit_activity isoformat ?a ?b ?c ?d ?e ?f ] =>
      run (emit_keeps isoformat a b c d e f w2)
  end.
  run (utcnow_keeps w3).
  match goal with
  | |- context [ queue_message ?m ] => run (queue_keeps m w4)
  end.
  exists w5. split; [ reflexivity | ].
  destruct Hk as [A1 B1], Hk0 as [A2 B2], Hk1 as [A3 B3], Hk2 as [A4 B4],
    Hk3 as [A5 B5].
  split; congruence.
Qed.

(** What [_execute_plan] returns and the state it leaves. *)
Lemma execute_plan_returns (current_plan : option Plan) (analysis : Analysis)
    (w : World) (ctx : AgentContext) :
  context w = Some ctx ->
  exists w',
    _execute_plan isoformat Plan write_content review_content
      writing_metadata review_metadata current_plan analysis w
    = (Ok ({| content_generated := requires_writing analysis;
              content_reviewed := requires_review analysis;
              changes_made :=
                if requires_writing analysis
                then Z.of_nat (DocumentWriters.result_changes_made
                                 (fst (write_content ctx current_plan)))
                else 0;
              review_score :=
                if requires_review analysis
                then Some (DocumentReviewers.result_score
                             (review_content (Some ctx)
                                (if requires_writing analysis
                                 then snd (write_content ctx current_plan)
                                 else current_plan)))
                else None |},
           if requires_writing analysis
           then snd (write_content ctx current_plan)
           else current_plan), w')
    /\ current_state (agent_state_manager w')
       = (if requires_review analysis then REVIEWING
          else if requires_writing analysis then WRITING
          else current_state (agent_state_manager w))
    /\ context w' = context w.
Proof.
  intros Hctx. unfold _execute_plan.
  assert (H0 : exists w',
             (if negb (requires_planning analysis)
                 && negb (requires_writing analysis)
                 && negb (requires_review analysis)
              then
                mbind_M
                  (_emit_activity isoformat "orchestrator"
                     "Preparing conversational response" "in_progress"
                     (Some ("Intent: "
                            +:+ default "conversation" (intent analysis)))
                     None None)
                  (fun _ =>
                     _update_activity_status isoformat "orchestrator"
                       "Preparing conversational response" "completed"
                       (Some "Ready to generate response") None)
              else ret tt) w
             = (Ok tt, w') /\ keeps w w').
  { destruct (negb (requires_planning analysis)
              && negb (requires_writing analysis)
              && negb (requires_review analysis));
      [ | exists w; split; [ reflexivity | apply keeps_refl ] ].
    destruct (emit_keeps isoformat "orchestrator"
                "Preparing conversational response" "in_progress"
                (Some ("Intent: " +:+ default "conversation" (intent analysis)))
                None None w) as (wa & Ha & Ka).
    rewrite (bind_ok _ _ _ _ _ Ha).
    destruct (update_keeps isoformat "orchestrator"
                "Preparing conversational response" "completed"
                (Some "Ready to generate response") None wa) as (wb & Hb & Kb).
    exists wb. split; [ exact Hb | eapply keeps_trans; eassumption ]. }
  destruct H0 as (w1 & Hr & [Hs1 Hc1]). rewrite (bind_ok _ _ _ _ _ Hr). clear Hr.
  assert (Hctx1 : context w1 = Some ctx) by congruence.
  destruct (requires_writing analysis).
  - destruct (writing_phase_returns current_plan analysis w1 ctx Hctx1)
      as (w2 & Hr & Hs2 & Hc2).
    rewrite (bind_ok _ _ w1 w2
               (true,
                Z.of_nat (DocumentWriters.result_changes_made
                            (fst (write_content ctx current_plan))),
                snd (write_content ctx current_plan)))
      by (now rewrite (bind_ok _ _ _ _ _ Hr)).
    destruct (requires_review analysis).
    + destruct (review_phase_returns (snd (write_content ctx current_plan)) w2)
        as (w3 & Hr3 & Hs3 & Hc3).
      rewrite (bind_ok _ _ w2 w3
                 (true,
                  Some (DocumentReviewers.result_score
                          (review_content (context w2)
                             (snd (write_content ctx current_plan))))))
        by (now rewrite (bind_ok _ _ _ _ _ Hr3)).
      exists w3. replace (context w2) with (Some ctx) by congruence.
      split; [ reflexivity | ]. split; congruence.
    + rewrite (bind_ok _ _ w2 w2 (false, None)) by reflexivity.
      exists w2. split; [ reflexivity | ]. split; congruence.
  - rewrite (bind_ok _ _ w1 w1 (false, 0, current_plan)) by reflexivity.
    destruct (requires_review analysis).
    + destruct (review_phase_returns current_plan w1)
        as (w3 & Hr3 & Hs3 & Hc3).
      rewrite (bind_ok _ _ w1 w3
                 (true,
                  Some (DocumentReviewers.result_score
                          (review_content (context w1) current_plan))))
        by (now rewrite (bind_ok _ _ _ _ _ Hr3)).
      exists w3. replace (context w1) with (Some ctx) by congruence.
      split; [ reflexivity | ]. split; congruence.
    + rewrite (bind_ok _ _ w1 w1 (false, None)) by reflexivity.
      exists w1. split; [ reflexivity | ]. split; congruence.
Qed.

(** X29: with a context set, [_execute_plan] returns. Its flags say what
    was attempted, not what succeeded: [content_generated] is
    [requires_writing] and [content_reviewed] is [requires_review],
    whatever the writer and the reviewer report, a failed write
    included; [changes_made] is what the writer's result has, and the
    review is made of the plan as the writer left it. The state manager
    is left in [REVIEWING] after a review, else in [WRITING] after
    writing, else where it was. *)
Theorem execute_plan_reports_attempts (current_plan : option Plan)
    (analysis : Analysis) (w : World) (ctx : AgentContext) :
  context w = Some ctx ->
  exists result plan' w',
    _execute_plan isoformat Plan write_content review_content
      writing_metadata review_metadata current_plan analysis w
    = (Ok (result, plan'), w')
    /\ content_generated result = requires_writing analysis
    /\ content_reviewed result = requires_review analysis
    /\ changes_made result
       = (if requires_writing analysis
          then Z.of_nat (DocumentWriters.result_changes_made
                           (fst (write_content ctx current_plan)))
          else 0)
    /\ plan'
       = (if requires_writing analysis
          then snd (write_content ctx current_plan)
          else current_plan)
    /\ review_score result
       = (if requires_review analysis
          then Some (DocumentReviewers.result_score
                       (review_content (Some ctx) plan'))
          else None)
    /\ current_state (agent_state_manager w')
       = (if requires_review analysis then REVIEWING
          else if requires_writing analysis then WRITING
          else current_state (agent_state_manager w)).
Proof.
  intros Hctx.
  destruct (execute_plan_returns current_plan analysis w ctx Hctx)
    as (w' & Hr & Hs & _).
  eexists _, _, w'. split; [ exact Hr | ].
  cbn [content_generated content_reviewed changes_made review_score].
  repeat split; try reflexivity. exact Hs.
Qed.

(** X30: after writing or a review the preview of a process that has
    never updated it is not updated either. With a context set, a preview
    engine as it is made and either writing or a review required,
    [_determine_preview_update] run on the result of [_execute_plan]
    answers [False] and leaves the engine as it is: the state is then
    [WRITING] or [REVIEWING], and no time has passed since an update
    that never was. *)
Theorem preview_not_updated_after_execution (current_plan : option Plan)
    (analysis : Analysis) (w : World) (ctx : AgentContext) :
  context w = Some ctx ->
  (requires_writing analysis || requires_review analysis) = true ->
  exists result plan' w',
    _execute_plan isoformat Plan write_content review_content
      writing_metadata review_metadata current_plan analysis w
    = (Ok (result, plan'), w')
    /\ _determine_preview_update isoformat microseconds preview_init result w'
       = (Ok (false, preview_init), w').
Proof.
  intros Hctx Hreq.
  destruct (execute_plan_returns current_plan analysis w ctx Hctx)
    as (w' & Hr & Hs & _).
  eexists _, _, w'. split; [ exact Hr | ].
  apply determine_preview_update_fresh; [ reflexivity | reflexivity | ].
  rewrite Hs. cbn [preview_init force_update_triggers].
  destruct (requires_review analysis); [ reflexivity | ].
  destruct (requires_writing analysis); [ reflexivity | discriminate Hreq ].
Qed.

End Execute.

(** A writer that fails and a reviewer that is not asked. *)
Definition failing_writer (ctx : AgentContext) (plan : option unit)
  : DocumentWriters.WriteResult * option unit :=
  ({| DocumentWriters.success := false;
      DocumentWriters.error := Some "stream broke";
      DocumentWriters.result_content := "";
      DocumentWriters.result_words_written := 0;
      DocumentWriters.result_changes_made := 0;
      DocumentWriters.result_sections_completed := None;
      DocumentWriters.document_updated := false |}, plan).

Definition idle_reviewer (ctx : option AgentContext) (plan : option unit)
  : DocumentReviewers.ReviewResult :=
  {| DocumentReviewers.success := false;
     DocumentReviewers.error := Some "not asked";
     DocumentReviewers.result_score := 5;
     DocumentReviewers.result_feedback := "Review failed";
     DocumentReviewers.result_suggestions := [];
     DocumentReviewers.result_areas_for_improvement := None;
     DocumentReviewers.result_strengths := None;
     DocumentReviewers.revision_needed := true |}.

(** A request to write, and a world in which the request has begun. *)
Definition writing_request : Analysis :=
  {| intent := Some "create";
     action_needed := Some "write";
     confidence := None;
     requires_planning := false;
     requires_writing := true;
     requires_review := false |}.

Definition request_context : AgentContext :=
  {| ctx_document_id := 7;
     conversation_id := None;
     user_message := Some "write a report";
     conversation_history := [];
     operation_id := 1 |}.

Definition begun_world : World :=
  {| document_id := 7;
     context := Some request_context;
     start_time := Some 0;
     operation_count := 1;
     process_activities := [];
     activity_callbacks := [];
     agent_state_manager := AgentStates.init;
     clock := Z.of_nat;
     reads := 0;
     error_log := [] |}.

Lemma execute_plan_reports_attempts_witness :
  exists result plan' w',
    _execute_plan (fun _ => "2024-01-01T00:00:00") unit failing_writer
      idle_reviewer (fun _ => []) (fun _ => []) None writing_request begun_world
    = (Ok (result, plan'), w')
    /\ content_generated result = true
    /\ changes_made result = 0.
Proof.
  destruct (execute_plan_reports_attempts (fun _ => "2024-01-01T00:00:00") unit
              failing_writer idle_reviewer (fun _ => []) (fun _ => []) None
              writing_request begun_world request_context eq_refl)
    as (result & plan' & w' & Hr & Hg & _ & Hc & _).
  exists result, plan', w'. split; [ exact Hr | ]. split; [ exact Hg | exact Hc ].
Defined.

Lemma preview_not_updated_after_execution_witness :
  exists result plan' w',
    _execute_plan (fun _ => "2024-01-01T00:00:00") unit failing_writer
      idle_reviewer (fun _ => []) (fun _ => []) None writing_request begun_world
    = (Ok (result, plan'), w')
    /\ _determine_preview_update (fun _ => "2024-01-01T00:00:00") (fun _ => 0)
         preview_init result w'
       = (Ok (false, preview_init), w').
Proof.
  apply (preview_not_updated_after_execution (fun _ => "2024-01-01T00:00:00")
           (fun _ => 0) unit failing_writer idle_reviewer (fun _ => [])
           (fun _ => []) None writing_request begun_world request_context
           eq_refl eq_refl).
Defined.

End DocumentOrchestratorsExecute.
